(** * Virtual GICv3 and virtual timer of the arm64 vmm: a shallow embedding

    The development follows [sys/arm64/vmm/io/vgic_v3.c] and
    [sys/arm64/vmm/io/vtimer.c].  Registers are machine integers (as [Z],
    with the width written out where the C code can wrap), the arrays of
    the C structures are lists read and written by index, and every C loop
    is a [Fixpoint] on the number of iterations left, carrying the loop
    variables of the source. *)

From Stdlib Require Import ZArith List Lia Bool.
From stdpp Require Import base list.
From coqutil Require Import Z.bitblast.

Local Open Scope Z_scope.

(** ** Machine integers *)

Module Mach.

Definition uint8 (x : Z) : Z := x mod 2 ^ 8.
Definition uint32 (x : Z) : Z := x mod 2 ^ 32.
Definition uint64 (x : Z) : Z := x mod 2 ^ 64.

(** [~x] on an [unsigned long]. *)
Definition not64 (x : Z) : Z := uint64 (Z.lnot x).

(** [x << n] on an [unsigned long]. *)
Definition shl64 (x n : Z) : Z := uint64 (Z.shiftl x n).

(** [1 << n] stored in a [uint32_t].  C gives no meaning to a shift by 32
    or more; the arm64 LSL instruction takes the amount modulo the register
    width, which is what the definition does. *)
Definition bit32 (n : Z) : Z := Z.shiftl 1 (n mod 32).

(** A C truth value: zero is false. *)
Definition truthy (x : Z) : bool := negb (x =? 0).

(** Array read [a[i]]; the C code never checks the index, an index past the
    end reads 0 here. *)
Definition rd (a : list Z) (i : nat) : Z := nth i a 0.

End Mach.
Import Mach.

(** ** Register layout

    Modelled from the spec: the headers [gic_common.h], [gic_v3_reg.h],
    [vgic_v3_reg.h] and [armreg.h] that define the constants and accessor
    macros below are not among the sources.  The spec (section 3) fixes what
    they describe: three disjoint ID ranges (software-generated, private,
    shared), a slot made of interrupt ID, group, 8-bit priority and a 2-bit
    state (inactive, pending, active, pending-active).  The bit positions are
    those of the GICv3 architecture for ICH_LR<n>_EL2, ICH_VMCR_EL2,
    GICD_CTLR, GICD_IROUTER<n>, GICR_CTLR, GICR_TYPER and CNTP_CTL_EL0. *)

Module Reg.

Definition GIC_LAST_SGI : Z := 15.
Definition GIC_LAST_PPI : Z := 31.
Definition GIC_LAST_SPI : Z := 1019.

Definition ICH_LR_EL2_VINTID_MASK : Z := 0xffffffff.
Definition ICH_LR_EL2_VINTID (x : Z) : Z := Z.land x ICH_LR_EL2_VINTID_MASK.
Definition ICH_LR_EL2_PRIO_SHIFT : Z := 48.
Definition ICH_LR_EL2_PRIO_MASK : Z := Z.shiftl 0xff ICH_LR_EL2_PRIO_SHIFT.
Definition ICH_LR_EL2_GROUP_SHIFT : Z := 60.
Definition ICH_LR_EL2_STATE_SHIFT : Z := 62.
Definition ICH_LR_EL2_STATE_MASK : Z := Z.shiftl 0x3 ICH_LR_EL2_STATE_SHIFT.
Definition ICH_LR_EL2_STATE (x : Z) : Z := Z.land x ICH_LR_EL2_STATE_MASK.
Definition ICH_LR_EL2_STATE_INACTIVE : Z := Z.shiftl 0x0 ICH_LR_EL2_STATE_SHIFT.
Definition ICH_LR_EL2_STATE_PENDING : Z := Z.shiftl 0x1 ICH_LR_EL2_STATE_SHIFT.
Definition ICH_LR_EL2_STATE_ACTIVE : Z := Z.shiftl 0x2 ICH_LR_EL2_STATE_SHIFT.
Definition ICH_LR_EL2_STATE_PENDING_ACTIVE : Z :=
  Z.shiftl 0x3 ICH_LR_EL2_STATE_SHIFT.

Definition ICH_VMCR_EL2_VENG0 : Z := Z.shiftl 1 0.
Definition ICH_VMCR_EL2_VENG1 : Z := Z.shiftl 1 1.
Definition ICH_VMCR_EL2_VPMR_SHIFT : Z := 24.
Definition ICH_VMCR_EL2_VPMR_MASK : Z := Z.shiftl 0xff ICH_VMCR_EL2_VPMR_SHIFT.

Definition GICD_CTLR_G1 : Z := Z.shiftl 1 0.
Definition GICD_CTLR_G1A : Z := Z.shiftl 1 1.
Definition GICD_CTLR_ARE_NS : Z := Z.shiftl 1 4.

Definition GICD_IROUTER_IRM : Z := Z.shiftl 1 31.

Definition GICR_CTLR_DPG0 : Z := Z.shiftl 1 24.
Definition GICR_CTLR_DPG1NS : Z := Z.shiftl 1 25.

Definition GICR_TYPER_AFF_SHIFT : Z := 32.
Definition GICR_TYPER_AFF0 (x : Z) : Z := Z.land (Z.shiftr x 32) 0xff.
Definition GICR_TYPER_AFF1 (x : Z) : Z := Z.land (Z.shiftr x 40) 0xff.
Definition GICR_TYPER_AFF2 (x : Z) : Z := Z.land (Z.shiftr x 48) 0xff.
Definition GICR_TYPER_AFF3 (x : Z) : Z := Z.land (Z.shiftr x 56) 0xff.

Definition CNTP_CTL_ENABLE : Z := Z.shiftl 1 0.
Definition CNTP_CTL_IMASK : Z := Z.shiftl 1 1.

End Reg.
Import Reg.

(** ** Constants and macros of vgic_v3.c *)

Definition IRQBUF_SIZE_MIN : nat := 32.
Definition IRQBUF_SIZE_MAX : nat := Nat.shiftl 1 10.

Definition IRQ_SCHEDULED : Z := GIC_LAST_SPI + 1.

Definition lr_pending (lr : Z) : bool :=
  ICH_LR_EL2_STATE lr =? ICH_LR_EL2_STATE_PENDING.
Definition lr_inactive (lr : Z) : bool :=
  ICH_LR_EL2_STATE lr =? ICH_LR_EL2_STATE_INACTIVE.
Definition lr_active (lr : Z) : bool :=
  ICH_LR_EL2_STATE lr =? ICH_LR_EL2_STATE_ACTIVE.
Definition lr_pending_active (lr : Z) : bool :=
  ICH_LR_EL2_STATE lr =? ICH_LR_EL2_STATE_PENDING_ACTIVE.
Definition lr_not_active (lr : Z) : bool :=
  negb (lr_active lr) && negb (lr_pending_active lr).

Definition lr_clear_irq (lr : Z) : Z :=
  Z.land lr (not64 ICH_LR_EL2_STATE_MASK).

(** ** Data structures (vgic_v3.h, vgic_v3.c, vtimer.h) *)

(** Order matters, a lower value means a higher precedence. *)
Inductive vgic_v3_irqtype : Set :=
| VGIC_IRQ_MAXPRIO
| VGIC_IRQ_CLK
| VGIC_IRQ_VIRTIO
| VGIC_IRQ_MISC
| VGIC_IRQ_INVALID.

(** The value of an enumerator. *)
Definition irqtype_val (t : vgic_v3_irqtype) : Z :=
  match t with
  | VGIC_IRQ_MAXPRIO => 0
  | VGIC_IRQ_CLK => 1
  | VGIC_IRQ_VIRTIO => 2
  | VGIC_IRQ_MISC => 3
  | VGIC_IRQ_INVALID => 4
  end.

(** [struct vgic_v3_irq]; the fields carry the prefix [vip_] (the name the
    code gives to a pointer to an entry) to keep them apart from the
    parameters [irq], [group], [priority] of the functions. *)
Record vgic_v3_irq : Set := mk_irq {
  vip_irq : Z;                    (* uint32_t *)
  vip_irqtype : vgic_v3_irqtype;
  vip_group : Z;                  (* uint8_t *)
  vip_enabled : Z;                (* uint8_t *)
  vip_priority : Z                (* uint8_t *)
}.

(** A zeroed entry, as [malloc(..., M_ZERO)] returns them. *)
Definition irq_zero : vgic_v3_irq := mk_irq 0 VGIC_IRQ_MAXPRIO 0 0 0.

Record vgic_v3_dist : Set := mk_dist {
  nirqs : Z;                      (* size_t *)
  gicd_ctlr : Z;                  (* uint32_t *)
  gicd_igroupr : list Z;          (* uint32_t * *)
  gicd_ipriorityr : list Z;       (* uint32_t * *)
  gicd_irouter : list Z;          (* uint64_t * *)
  gicd_ixenabler : list Z         (* uint32_t * *)
}.

Record vgic_v3_redist : Set := mk_redist {
  gicr_typer : Z;                 (* uint64_t *)
  gicr_ctlr : Z;                  (* uint32_t *)
  gicr_igroupr0 : Z;              (* uint32_t *)
  gicr_ixenabler0 : Z;            (* uint32_t *)
  gicr_ipriorityr : list Z        (* uint32_t [VGIC_PRV_I_NUM / 4] *)
}.

(** [struct vgic_v3_cpu_if]: the list registers, the buffer of pending
    interrupts ([irqbuf] is the whole allocation of [irqbuf_size] entries,
    of which the first [irqbuf_num] are in use), and the VMCR. *)
Record vgic_v3_cpu_if : Set := mk_cpu_if {
  ich_vmcr_el2 : Z;               (* uint32_t *)
  ich_lr_el2 : list Z;            (* uint64_t [VGIC_ICH_LR_NUM_MAX] *)
  ich_lr_num : nat;               (* size_t *)
  irqbuf : list vgic_v3_irq;
  irqbuf_size : nat;              (* size_t *)
  irqbuf_num : nat                (* size_t *)
}.

(** [struct vtimer] and [struct vtimer_cpu].  The callout of the C structure
    is reduced to what the code can observe of it: whether the deferred
    injection is scheduled. *)
Record vtimer : Set := mk_vtimer {
  phys_ns_irq : Z                 (* int *)
}.

Record vtimer_cpu : Set := mk_vtimer_cpu {
  callout_pending : bool;
  cntp_cval_el0 : Z;              (* uint64_t *)
  cntp_ctl_el0 : Z                (* uint32_t *)
}.

(** The per-vCPU [struct hypctx] and the per-VM [struct hyp] (the types are
    called [struct_hypctx] and [struct_hyp], the names [hypctx] and [hyp]
    being those of the variables that hold them).  A function
    that takes a [struct hypctx *] in C and follows [hypctx->hyp] to the
    Distributor takes the Distributor as a second argument here. *)
Record struct_hypctx : Set := mk_hypctx {
  vgic_redist : vgic_v3_redist;
  vgic_cpu_if : vgic_v3_cpu_if;
  vtimer_cpu_of : vtimer_cpu
}.

Record struct_hyp : Set := mk_hyp {
  vgic_dist : vgic_v3_dist;
  hyp_vtimer : vtimer;
  ctx : list struct_hypctx
}.

(** How a call ends: it returns, or the kernel halts on a failed [KASSERT]
    or on [panic]. *)
Inductive halt : Set :=
| KASSERT_failed
| panicked.

Inductive outcome (A : Type) : Type :=
| Ret (a : A)
| Halt (h : halt).
Arguments Ret {A} a.
Arguments Halt {A} h.

(** Field updates. *)
Definition set_irqbuf (c : vgic_v3_cpu_if) (b : list vgic_v3_irq) (n : nat)
  : vgic_v3_cpu_if :=
  mk_cpu_if (ich_vmcr_el2 c) (ich_lr_el2 c) (ich_lr_num c) b (irqbuf_size c) n.

Definition set_lrs (c : vgic_v3_cpu_if) (l : list Z) : vgic_v3_cpu_if :=
  mk_cpu_if (ich_vmcr_el2 c) l (ich_lr_num c) (irqbuf c) (irqbuf_size c)
    (irqbuf_num c).

Definition set_cpu_if (h : struct_hypctx) (c : vgic_v3_cpu_if)
  : struct_hypctx :=
  mk_hypctx (vgic_redist h) c (vtimer_cpu_of h).

Definition set_vip_irq (v : vgic_v3_irq) (x : Z) : vgic_v3_irq :=
  mk_irq x (vip_irqtype v) (vip_group v) (vip_enabled v) (vip_priority v).

Definition set_vip_priority (v : vgic_v3_irq) (x : Z) : vgic_v3_irq :=
  mk_irq (vip_irq v) (vip_irqtype v) (vip_group v) (vip_enabled v) x.

(** [irqbuf[i]]; reads past the allocation give a zeroed entry. *)
Definition buf_at (b : list vgic_v3_irq) (i : nat) : vgic_v3_irq :=
  nth i b irq_zero.

(** The entries in use: [irqbuf[0 .. irqbuf_num - 1]]. *)
Definition pending (c : vgic_v3_cpu_if) : list vgic_v3_irq :=
  take (irqbuf_num c) (irqbuf c).

(** [vip_to_lr(vip, lr)]: the value assigned to [lr]. *)
Definition vip_to_lr (vip : vgic_v3_irq) : Z :=
  Z.lor (Z.lor (Z.lor ICH_LR_EL2_STATE_PENDING
                   (shl64 (vip_group vip) ICH_LR_EL2_GROUP_SHIFT))
            (shl64 (vip_priority vip) ICH_LR_EL2_PRIO_SHIFT))
    (vip_irq vip).

(** [lr_to_vip(lr, vip)]: the entry [*vip] after the three assignments. *)
Definition lr_to_vip (lr : Z) (vip : vgic_v3_irq) : vgic_v3_irq :=
  mk_irq (uint32 (ICH_LR_EL2_VINTID lr)) (vip_irqtype vip)
    (uint8 (Z.land (Z.shiftr lr ICH_LR_EL2_GROUP_SHIFT) 0x1))
    (vip_enabled vip)
    (uint8 (Z.shiftr (Z.land lr ICH_LR_EL2_PRIO_MASK) ICH_LR_EL2_PRIO_SHIFT)).

(** ** The buffer of pending interrupts *)

(** The inner [for] loop of [vgic_v3_irqbuf_remove_nolock]: [n] iterations
    are left, [from] runs up to [irqbuf_num], entries other than [irq] are
    copied down to [dest]. *)
Fixpoint remove_for (irq : Z) (n : nat) (b : list vgic_v3_irq)
    (dest from : nat) : list vgic_v3_irq * nat * nat :=
  match n with
  | O => (b, dest, from)
  | S n' =>
      if vip_irq (buf_at b from) =? irq then
        remove_for irq n' b dest (S from)
      else
        remove_for irq n' (<[dest := buf_at b from]> b) (S dest) (S from)
  end.

(** The [while (dest < cpu_if->irqbuf_num)] loop, [n = irqbuf_num - dest].
    After the inner loop [irqbuf_num] is set to [dest], which ends the
    [while]. *)
Fixpoint remove_while (irq : Z) (n : nat) (cpu_if : vgic_v3_cpu_if)
    (dest from : nat) : vgic_v3_cpu_if * nat * nat :=
  match n with
  | O => (cpu_if, dest, from)
  | S n' =>
      if vip_irq (buf_at (irqbuf cpu_if) dest) =? irq then
        let '(b, dest', from') :=
          remove_for irq (irqbuf_num cpu_if - (dest + 1)) (irqbuf cpu_if)
            dest (dest + 1) in
        (set_irqbuf cpu_if b dest', dest', from')
      else
        remove_while irq n' cpu_if (S dest) from
  end.

(** Removes ALL instances of interrupt [irq]; returns the new state and the
    value [from - dest]. *)
Definition vgic_v3_irqbuf_remove_nolock (irq : Z) (cpu_if : vgic_v3_cpu_if)
  : vgic_v3_cpu_if * nat :=
  let '(c, dest, from) :=
    remove_while irq (irqbuf_num cpu_if - 0) cpu_if 0 (irqbuf_num cpu_if) in
  (c, (from - dest)%nat).

(** The loop over the list registers in [vgic_v3_remove_irq]. *)
Fixpoint remove_irq_lrs (irq : Z) (ignore_state : bool) (n : nat)
    (lrs : list Z) (i : nat) : list Z :=
  match n with
  | O => lrs
  | S n' =>
      let lr := rd lrs i in
      if (ICH_LR_EL2_VINTID lr =? irq) && (lr_not_active lr || ignore_state)
      then
        remove_irq_lrs irq ignore_state n' (<[i := lr_clear_irq lr]> lrs)
          (S i)
      else
        remove_irq_lrs irq ignore_state n' lrs (S i)
  end.

Definition vgic_v3_remove_irq (dist : vgic_v3_dist) (hypctx : struct_hypctx)
    (irq : Z) (ignore_state : bool) : Z * struct_hypctx :=
  let cpu_if := vgic_cpu_if hypctx in
  if irq >=? nirqs dist then
    (1, hypctx)
  else
    let cpu_if :=
      set_lrs cpu_if
        (remove_irq_lrs irq ignore_state (ich_lr_num cpu_if)
           (ich_lr_el2 cpu_if) 0) in
    let cpu_if := fst (vgic_v3_irqbuf_remove_nolock irq cpu_if) in
    (0, set_cpu_if hypctx cpu_if).

(** [vgic_v3_irqbuf_add_nolock]: [None] is the NULL return; otherwise the
    new state and the index of the entry the returned pointer designates.
    The allocation loop is taken to end with a zeroed block. *)
Definition vgic_v3_irqbuf_add_nolock (cpu_if : vgic_v3_cpu_if)
  : option (vgic_v3_cpu_if * nat) :=
  if (irqbuf_num cpu_if =? irqbuf_size cpu_if)%nat then
    let new_size := Nat.shiftl (irqbuf_size cpu_if) 1 in
    if (IRQBUF_SIZE_MAX <? new_size)%nat then
      None
    else
      let new_irqbuf :=
        take (irqbuf_size cpu_if) (irqbuf cpu_if)
          ++ replicate (new_size - irqbuf_size cpu_if) irq_zero in
      let cpu_if :=
        mk_cpu_if (ich_vmcr_el2 cpu_if) (ich_lr_el2 cpu_if)
          (ich_lr_num cpu_if) new_irqbuf new_size (irqbuf_num cpu_if + 1) in
      Some (cpu_if, (irqbuf_num cpu_if - 1)%nat)
  else
    let cpu_if := set_irqbuf cpu_if (irqbuf cpu_if) (irqbuf_num cpu_if + 1) in
    Some (cpu_if, (irqbuf_num cpu_if - 1)%nat).

(** ** Distributor and Redistributor queries

    These functions take a [struct hypctx *] in C and read only
    [hypctx->hyp->vgic_dist] and [hypctx->vgic_redist]; they take the two
    here. *)

Definition aff_routing_en (dist : vgic_v3_dist) : bool :=
  truthy (Z.land (gicd_ctlr dist) GICD_CTLR_ARE_NS).

Definition vgic_v3_int_target (irq : Z) (dist : vgic_v3_dist)
    (redist : vgic_v3_redist) : bool :=
  if irq <=? GIC_LAST_PPI then true
  else if negb (aff_routing_en dist) then true
  else
    let irq_off := irq mod 32 in
    let irq_mask := bit32 irq_off in
    let n := irq / 32 in
    let group :=
      if n =? 0 then
        if truthy (Z.land (gicr_igroupr0 redist) irq_mask) then 1 else 0
      else
        if truthy (Z.land (rd (gicd_igroupr dist) (Z.to_nat n)) irq_mask)
        then 1 else 0 in
    let irouter := rd (gicd_irouter dist) (Z.to_nat irq) in
    let aff :=
      Z.lor (Z.lor (Z.lor (GICR_TYPER_AFF0 (gicr_typer redist))
                      (shl64 (GICR_TYPER_AFF1 (gicr_typer redist)) 8))
               (shl64 (GICR_TYPER_AFF2 (gicr_typer redist)) 16))
        (shl64 (GICR_TYPER_AFF3 (gicr_typer redist)) 32) in
    if truthy (Z.land irouter GICD_IROUTER_IRM) then
      if group =? 0 then truthy (Z.land (gicr_ctlr redist) GICR_CTLR_DPG0)
      else truthy (Z.land (gicr_ctlr redist) GICR_CTLR_DPG1NS)
    else
      if Z.land irouter aff =? aff then true else false.

Definition vgic_v3_get_priority (irq : Z) (dist : vgic_v3_dist)
    (redist : vgic_v3_redist) : Z :=
  let n := irq / 4 in
  let off := n mod 4 in
  let mask := Z.shiftl 0xff off in
  if aff_routing_en dist && (n <=? 7) then
    uint8 (Z.shiftr (Z.land (rd (gicr_ipriorityr redist) (Z.to_nat n)) mask)
             off)
  else
    uint8 (Z.shiftr (Z.land (rd (gicd_ipriorityr dist) (Z.to_nat n)) mask)
             off).

Definition vgic_v3_intid_enabled (irq : Z) (dist : vgic_v3_dist)
    (redist : vgic_v3_redist) : bool :=
  let irq_off := irq mod 32 in
  let irq_mask := bit32 irq_off in
  let n := irq / 32 in
  if irq <=? GIC_LAST_PPI then
    truthy (Z.land (gicr_ixenabler0 redist) irq_mask)
  else
    truthy (Z.land (rd (gicd_ixenabler dist) (Z.to_nat n)) irq_mask).

(** Check in the Distributor that the interrupt group hasn't been
    disabled. *)
Definition vgic_v3_group_enabled (group : Z) (dist : vgic_v3_dist) : bool :=
  if (group =? 1) && negb (truthy (Z.land (gicd_ctlr dist) GICD_CTLR_G1A))
  then false
  else if (group =? 0) && negb (truthy (Z.land (gicd_ctlr dist) GICD_CTLR_G1))
  then false
  else true.

Definition vgic_v3_get_int_group (irq : Z) (dist : vgic_v3_dist)
    (redist : vgic_v3_redist) : Z :=
  let irq_mask := bit32 irq in
  let n := irq / 32 in
  if irq <=? GIC_LAST_PPI then
    if truthy (Z.land (gicr_igroupr0 redist) irq_mask) then 1 else 0
  else
    if truthy (Z.land (rd (gicd_igroupr dist) (Z.to_nat n)) irq_mask)
    then 1 else 0.

(** ** Injection *)

(** [vgic_v3_inject_irq]: the returned integer is the error code.  The
    [KASSERT] is taken as compiled in (a kernel built with INVARIANTS): when
    it fails, the kernel halts.  The locks are not modelled: a call runs as
    one step on the state. *)
Definition vgic_v3_inject_irq (dist : vgic_v3_dist) (hypctx : struct_hypctx)
    (irq : Z) (irqtype : vgic_v3_irqtype) : outcome (Z * struct_hypctx) :=
  let redist := vgic_redist hypctx in
  let cpu_if := vgic_cpu_if hypctx in
  if negb (irq >? GIC_LAST_SGI) then
    Halt KASSERT_failed
  else if (irq >=? nirqs dist)
          || (irqtype_val irqtype >=? irqtype_val VGIC_IRQ_INVALID) then
    Ret (1, hypctx)
  else
    let group := vgic_v3_get_int_group irq dist redist in
    let enabled :=
      vgic_v3_group_enabled group dist
      && vgic_v3_intid_enabled irq dist redist
      && vgic_v3_int_target irq dist redist in
    let priority := vgic_v3_get_priority irq dist redist in
    match vgic_v3_irqbuf_add_nolock cpu_if with
    | None => Ret (1, hypctx)
    | Some (cpu_if, vip) =>
        let entry :=
          mk_irq irq irqtype (uint8 group) (if enabled then 1 else 0)
            priority in
        Ret (0, set_cpu_if hypctx
                  (set_irqbuf cpu_if (<[vip := entry]> (irqbuf cpu_if))
                     (irqbuf_num cpu_if)))
    end.

(** [vgic_v3_cpuinit], as far as the list registers and the buffer go.
    [lr_num] and [vmcr] stand for [virt_features.ich_lr_num] and the value
    computed for ICH_VMCR_EL2. *)
Definition cpuinit_cpu_if (vmcr : Z) (lr_num : nat) : vgic_v3_cpu_if :=
  mk_cpu_if vmcr (replicate 16 0) lr_num
    (replicate IRQBUF_SIZE_MIN irq_zero) IRQBUF_SIZE_MIN 0.

(** ** Priority updates *)

(** First loop of [vgic_v3_irq_set_priority_vcpu], over the buffer. *)
Fixpoint set_priority_irqbuf (irq priority : Z) (n : nat)
    (b : list vgic_v3_irq) (i : nat) : list vgic_v3_irq :=
  match n with
  | O => b
  | S n' =>
      if vip_irq (buf_at b i) =? irq then
        set_priority_irqbuf irq priority n'
          (<[i := set_vip_priority (buf_at b i) priority]> b) (S i)
      else
        set_priority_irqbuf irq priority n' b (S i)
  end.

(** Second loop of [vgic_v3_irq_set_priority_vcpu], over the list
    registers. *)
Fixpoint set_priority_lrs (priority : Z) (n : nat) (lrs : list Z) (i : nat)
  : list Z :=
  match n with
  | O => lrs
  | S n' =>
      if lr_pending (rd lrs i) then
        let lr := Z.land (rd lrs i) (not64 ICH_LR_EL2_PRIO_MASK) in
        let lr := Z.lor lr (shl64 priority ICH_LR_EL2_PRIO_SHIFT) in
        set_priority_lrs priority n' (<[i := lr]> lrs) (S i)
      else
        set_priority_lrs priority n' lrs (S i)
  end.

Definition vgic_v3_irq_set_priority_vcpu (irq priority : Z)
    (cpu_if : vgic_v3_cpu_if) : vgic_v3_cpu_if :=
  let cpu_if :=
    set_irqbuf cpu_if
      (set_priority_irqbuf irq priority (irqbuf_num cpu_if) (irqbuf cpu_if) 0)
      (irqbuf_num cpu_if) in
  set_lrs cpu_if
    (set_priority_lrs priority (ich_lr_num cpu_if) (ich_lr_el2 cpu_if) 0).

(** [hyp->ctx[i].vgic_cpu_if] updated in place by [f]. *)
Definition update_cpu_if (hyp : struct_hyp) (i : nat)
    (f : vgic_v3_cpu_if -> vgic_v3_cpu_if) : struct_hyp :=
  match ctx hyp !! i with
  | Some hypctx =>
      mk_hyp (vgic_dist hyp) (hyp_vtimer hyp)
        (<[i := set_cpu_if hypctx (f (vgic_cpu_if hypctx))]> (ctx hyp))
  | None => hyp
  end.

(** The loop [for (i = 0; i < 1; i++)] of [vgic_v3_irq_set_priority]. *)
Fixpoint set_priority_for (irq priority : Z) (n : nat) (hyp : struct_hyp)
    (i : nat) : struct_hyp :=
  match n with
  | O => hyp
  | S n' =>
      set_priority_for irq priority n'
        (update_cpu_if hyp i (vgic_v3_irq_set_priority_vcpu irq priority))
        (S i)
  end.

Definition vgic_v3_irq_set_priority (irq priority : Z) (hyp : struct_hyp)
    (vcpuid : nat) : struct_hyp :=
  if irq <=? GIC_LAST_PPI then
    update_cpu_if hyp vcpuid (vgic_v3_irq_set_priority_vcpu irq priority)
  else
    set_priority_for irq priority (1 - 0) hyp 0.

(** ** Arbitration *)

(** The loop of [vgic_v3_highest_priority_pending]; [max_idx] is [None] for
    [-1]. *)
Fixpoint highest_priority_for (dist : vgic_v3_dist) (redist : vgic_v3_redist)
    (cpu_if : vgic_v3_cpu_if) (vpmr : Z) (n : nat) (i : nat)
    (max_idx : option nat) (max_priority : Z) : option nat :=
  match n with
  | O => max_idx
  | S n' =>
      let continue := highest_priority_for dist redist cpu_if vpmr n' (S i) in
      let irq := vip_irq (buf_at (irqbuf cpu_if) i) in
      if irq =? IRQ_SCHEDULED then continue max_idx max_priority
      else
        let group := vgic_v3_get_int_group irq dist redist in
        if negb (vgic_v3_group_enabled group dist) then
          continue max_idx max_priority
        else if negb (vgic_v3_intid_enabled irq dist redist) then
          continue max_idx max_priority
        else if negb (vgic_v3_int_target irq dist redist) then
          continue max_idx max_priority
        else
          let priority := vip_priority (buf_at (irqbuf cpu_if) i) in
          if priority >=? vpmr then continue max_idx max_priority
          else
            match max_idx with
            | None => continue (Some i) priority
            | Some m =>
                if priority >? max_priority then continue (Some i) priority
                else if (priority =? max_priority)
                        && (irqtype_val (vip_irqtype (buf_at (irqbuf cpu_if) i))
                            <? irqtype_val
                                 (vip_irqtype (buf_at (irqbuf cpu_if) m)))
                then continue (Some i) priority
                else continue max_idx max_priority
            end
  end.

(** Returns the index of the selected entry, [None] for NULL. *)
Definition vgic_v3_highest_priority_pending (cpu_if : vgic_v3_cpu_if)
    (dist : vgic_v3_dist) (redist : vgic_v3_redist) : option nat :=
  let vpmr :=
    uint8 (Z.shiftr (Z.land (ich_vmcr_el2 cpu_if) ICH_VMCR_EL2_VPMR_MASK)
             ICH_VMCR_EL2_VPMR_SHIFT) in
  highest_priority_for dist redist cpu_if vpmr (irqbuf_num cpu_if - 0) 0
    None 0xff.

(** ** From the buffer to the list registers *)

(** The loop of [vgic_v3_irqbuf_next_enabled]; returns the final [i]. *)
Fixpoint next_enabled_for (irqbuf : list vgic_v3_irq) (dist : vgic_v3_dist)
    (redist : vgic_v3_redist) (cpu_if : vgic_v3_cpu_if) (n : nat) (i : nat)
  : nat :=
  match n with
  | O => i
  | S n' =>
      if negb (truthy (vip_enabled (buf_at irqbuf i))) then
        next_enabled_for irqbuf dist redist cpu_if n' (S i)
      else
        let group :=
          vgic_v3_get_int_group (vip_irq (buf_at irqbuf i)) dist redist in
        if (group =? 1)
           && negb (truthy (Z.land (ich_vmcr_el2 cpu_if) ICH_VMCR_EL2_VENG1))
        then next_enabled_for irqbuf dist redist cpu_if n' (S i)
        else if (group =? 0)
                && negb (truthy (Z.land (ich_vmcr_el2 cpu_if)
                                   ICH_VMCR_EL2_VENG0))
        then next_enabled_for irqbuf dist redist cpu_if n' (S i)
        else i
  end.

(** [None] is the return value -1. *)
Definition vgic_v3_irqbuf_next_enabled (irqbuf : list vgic_v3_irq)
    (start end_ : nat) (dist : vgic_v3_dist) (redist : vgic_v3_redist)
    (cpu_if : vgic_v3_cpu_if) : option nat :=
  let i := next_enabled_for irqbuf dist redist cpu_if (end_ - start) start in
  if (i <? end_)%nat then Some i else None.

Fixpoint next_inactive_for (ich_lr_el2 : list Z) (n : nat) (i : nat) : nat :=
  match n with
  | O => i
  | S n' =>
      if lr_inactive (rd ich_lr_el2 i) then i
      else next_inactive_for ich_lr_el2 n' (S i)
  end.

Definition vgic_v3_lr_next_inactive (ich_lr_el2 : list Z) (start end_ : nat)
  : option nat :=
  let i := next_inactive_for ich_lr_el2 (end_ - start) start in
  if (i <? end_)%nat then Some i else None.

(** The first loop of [vgic_v3_irqbuf_to_lr]: is interrupt 27 held by a
    list register that is not inactive? *)
Fixpoint clk_injected_for (lrs : list Z) (n : nat) (lr_idx : nat) : bool :=
  match n with
  | O => false
  | S n' =>
      let lr := rd lrs lr_idx in
      if (ICH_LR_EL2_VINTID lr =? 27) && negb (lr_inactive lr) then true
      else clk_injected_for lrs n' (S lr_idx)
  end.

(** The [for (;;)] loop of [vgic_v3_irqbuf_to_lr].  Every iteration that
    does not leave the loop moves [irqbuf_idx] forward, so that [irqbuf_num]
    iterations suffice; [n] bounds the iterations left. *)
Fixpoint irqbuf_to_lr_loop (dist : vgic_v3_dist) (redist : vgic_v3_redist)
    (clk_injected : bool) (n : nat) (cpu_if : vgic_v3_cpu_if)
    (irqbuf_idx lr_idx : nat) : vgic_v3_cpu_if :=
  match n with
  | O => cpu_if
  | S n' =>
      match vgic_v3_irqbuf_next_enabled (irqbuf cpu_if) irqbuf_idx
              (irqbuf_num cpu_if) dist redist cpu_if with
      | None => cpu_if
      | Some irqbuf_idx =>
          match vgic_v3_lr_next_inactive (ich_lr_el2 cpu_if) lr_idx
                  (ich_lr_num cpu_if) with
          | None => cpu_if
          | Some lr_idx =>
              let vip := buf_at (irqbuf cpu_if) irqbuf_idx in
              if (irqtype_val (vip_irqtype vip) =? irqtype_val VGIC_IRQ_CLK)
                 && clk_injected then
                irqbuf_to_lr_loop dist redist clk_injected n' cpu_if
                  (S irqbuf_idx) lr_idx
              else
                let cpu_if :=
                  set_lrs cpu_if
                    (<[lr_idx := vip_to_lr vip]> (ich_lr_el2 cpu_if)) in
                let cpu_if :=
                  set_irqbuf cpu_if
                    (<[irqbuf_idx := set_vip_irq vip IRQ_SCHEDULED]>
                       (irqbuf cpu_if))
                    (irqbuf_num cpu_if) in
                irqbuf_to_lr_loop dist redist clk_injected n' cpu_if
                  (S irqbuf_idx) (S lr_idx)
          end
      end
  end.

Definition vgic_v3_irqbuf_to_lr (dist : vgic_v3_dist)
    (redist : vgic_v3_redist) (cpu_if : vgic_v3_cpu_if) : vgic_v3_cpu_if :=
  let clk_injected :=
    clk_injected_for (ich_lr_el2 cpu_if) (ich_lr_num cpu_if) 0 in
  let cpu_if :=
    irqbuf_to_lr_loop dist redist clk_injected (irqbuf_num cpu_if) cpu_if
      0 0 in
  fst (vgic_v3_irqbuf_remove_nolock IRQ_SCHEDULED cpu_if).

(** The loop that counts the inactive list registers. *)
Fixpoint lr_free_for (lrs : list Z) (n : nat) (i : nat) (lr_free : nat)
  : nat :=
  match n with
  | O => lr_free
  | S n' =>
      if lr_inactive (rd lrs i) then lr_free_for lrs n' (S i) (S lr_free)
      else lr_free_for lrs n' (S i) lr_free
  end.

(** [vgic_v3_sync_hwstate].  When the buffered interrupts do not fit, the
    function prints the list registers and calls [panic("reshuffled")]; the
    statements that follow the call are never run. *)
Definition vgic_v3_sync_hwstate (dist : vgic_v3_dist)
    (hypctx : struct_hypctx) : outcome struct_hypctx :=
  let cpu_if := vgic_cpu_if hypctx in
  if (irqbuf_num cpu_if =? 0)%nat then
    Ret hypctx
  else
    let lr_free := lr_free_for (ich_lr_el2 cpu_if) (ich_lr_num cpu_if) 0 0 in
    if (irqbuf_num cpu_if <=? lr_free)%nat then
      Ret (set_cpu_if hypctx
             (vgic_v3_irqbuf_to_lr dist (vgic_redist hypctx) cpu_if))
    else
      Halt panicked.

(** ** The virtual timer (vtimer.c) *)

Definition vtimer_enabled (ctl : Z) : bool :=
  negb (truthy (Z.land ctl CNTP_CTL_IMASK))
  && truthy (Z.land ctl CNTP_CTL_ENABLE).

Definition set_vtimer_cpu (h : struct_hypctx) (t : vtimer_cpu)
  : struct_hypctx :=
  mk_hypctx (vgic_redist h) (vgic_cpu_if h) t.

Definition set_callout (t : vtimer_cpu) (p : bool) : vtimer_cpu :=
  mk_vtimer_cpu p (cntp_cval_el0 t) (cntp_ctl_el0 t).

Definition set_cntp_ctl_el0 (t : vtimer_cpu) (v : Z) : vtimer_cpu :=
  mk_vtimer_cpu (callout_pending t) (cntp_cval_el0 t) v.

(** [vtimer_inject_irq]; the error code of the injection is dropped, as in
    the source. *)
Definition vtimer_inject_irq (dist : vgic_v3_dist) (vtimer : vtimer)
    (hypctx : struct_hypctx) : outcome struct_hypctx :=
  match vgic_v3_inject_irq dist hypctx (uint32 (phys_ns_irq vtimer))
          VGIC_IRQ_CLK with
  | Ret (_, hypctx) => Ret hypctx
  | Halt h => Halt h
  end.

(** [vtimer_schedule_irq]; [cntpct_el0] is the value read from the counter
    register.  [callout_reset_sbt] leaves the callout scheduled. *)
Definition vtimer_schedule_irq (dist : vgic_v3_dist) (vtimer : vtimer)
    (hypctx : struct_hypctx) (cntpct_el0 : Z) : outcome struct_hypctx :=
  if cntp_cval_el0 (vtimer_cpu_of hypctx) <? cntpct_el0 then
    vtimer_inject_irq dist vtimer hypctx
  else
    Ret (set_vtimer_cpu hypctx (set_callout (vtimer_cpu_of hypctx) true)).

(** [callout_drain]: a scheduled callout is stopped, or, when it is already
    running, the call waits until [vtimer_inject_irq_callout_func] has
    returned; [running] tells which of the two happens.  In both cases no
    callout is left scheduled when the call returns. *)
Definition callout_drain (dist : vgic_v3_dist) (vtimer : vtimer)
    (hypctx : struct_hypctx) (running : bool) : outcome struct_hypctx :=
  let stopped h := set_vtimer_cpu h (set_callout (vtimer_cpu_of h) false) in
  if callout_pending (vtimer_cpu_of hypctx) && running then
    match vtimer_inject_irq dist vtimer hypctx with
    | Ret hypctx => Ret (stopped hypctx)
    | Halt h => Halt h
    end
  else
    Ret (stopped hypctx).

(** [vtimer_remove_irq].  The call in the source,
    [vgic_v3_remove_irq(hypctx, irq)], gives two of the three arguments that
    [vgic_v3_remove_irq] takes; the third one, [ignore_state], is a
    parameter here. *)
Definition vtimer_remove_irq (dist : vgic_v3_dist) (vtimer : vtimer)
    (hypctx : struct_hypctx) (running ignore_state : bool)
  : outcome struct_hypctx :=
  let irq := uint32 (phys_ns_irq vtimer) in
  match callout_drain dist vtimer hypctx running with
  | Ret hypctx => Ret (snd (vgic_v3_remove_irq dist hypctx irq ignore_state))
  | Halt h => Halt h
  end.

(** [vtimer_phys_ctl_write] on the context [hyp->ctx[vcpuid]]. *)
Definition vtimer_phys_ctl_write_ctx (dist : vgic_v3_dist) (vtimer : vtimer)
    (hypctx : struct_hypctx) (wval : Z) (cntpct_el0 : Z)
    (running ignore_state : bool) : outcome struct_hypctx :=
  let ctl_el0 := cntp_ctl_el0 (vtimer_cpu_of hypctx) in
  let timer_toggled_on :=
    negb (vtimer_enabled ctl_el0) && vtimer_enabled wval in
  let timer_toggled_off :=
    vtimer_enabled ctl_el0 && negb (vtimer_enabled wval) in
  let hypctx :=
    set_vtimer_cpu hypctx
      (set_cntp_ctl_el0 (vtimer_cpu_of hypctx) (uint32 wval)) in
  if timer_toggled_on then
    vtimer_schedule_irq dist vtimer hypctx cntpct_el0
  else if timer_toggled_off then
    vtimer_remove_irq dist vtimer hypctx running ignore_state
  else
    Ret hypctx.

(** [vtimer_phys_ctl_write]: returns the error code 0 and the new state.
    The source indexes [hyp->ctx] with [vcpuid] unchecked; an index that
    names no vCPU leaves the state as it is here. *)
Definition vtimer_phys_ctl_write (hyp : struct_hyp) (vcpuid : nat)
    (wval : Z) (cntpct_el0 : Z) (running ignore_state : bool)
  : outcome (Z * struct_hyp) :=
  match ctx hyp !! vcpuid with
  | None => Ret (0, hyp)
  | Some hypctx =>
      match vtimer_phys_ctl_write_ctx (vgic_dist hyp) (hyp_vtimer hyp) hypctx
              wval cntpct_el0 running ignore_state with
      | Ret hypctx =>
          Ret (0, mk_hyp (vgic_dist hyp) (hyp_vtimer hyp)
                    (<[vcpuid := hypctx]> (ctx hyp)))
      | Halt h => Halt h
      end
  end.

(** * The remaining functions of vgic_v3.c and vtimer.c *)

(** ** Further register fields

    Modelled from the spec: like the constants of [Reg], the ones below come
    from headers that are not among the sources ([gic_v3_reg.h],
    [vgic_v3_reg.h], [armreg.h], [cpu.h]).  The bit positions are those of
    the architecture for ICH_VMCR_EL2 (VBPR0 in bits 23..21, VBPR1 in bits
    20..18, VEOIM in bit 9), GICR_TYPER (PLPIS, VLPIS, Last in bits 0, 1 and
    4), GICR_CTLR (EnableLPIs in bit 0), MPIDR_EL1 (Aff0, Aff1, Aff2 in bits
    0..23, Aff3 in bits 32..39) and CNTP_CTL_EL0 (ISTATUS in bit 2). *)

Module InitReg.

Definition ICH_VMCR_EL2_VBPR0_NO_PREEMPTION : Z := Z.shiftl 0x7 21.
Definition ICH_VMCR_EL2_VBPR1_NO_PREEMPTION : Z := Z.shiftl 0x7 18.
Definition ICH_VMCR_EL2_VEOIM : Z := Z.shiftl 1 9.

Definition GICR_TYPER_PLPIS : Z := Z.shiftl 1 0.
Definition GICR_TYPER_VLPIS : Z := Z.shiftl 1 1.
Definition GICR_TYPER_LAST : Z := Z.shiftl 1 4.

Definition GICR_CTLR_LPI_ENABLE : Z := Z.shiftl 1 0.

Definition CPU_AFF0 (mpidr : Z) : Z := Z.land (Z.shiftr mpidr 0) 0xff.
Definition CPU_AFF1 (mpidr : Z) : Z := Z.land (Z.shiftr mpidr 8) 0xff.
Definition CPU_AFF2 (mpidr : Z) : Z := Z.land (Z.shiftr mpidr 16) 0xff.
Definition CPU_AFF3 (mpidr : Z) : Z := Z.land (Z.shiftr mpidr 32) 0xff.

Definition CNTP_CTL_ISTATUS : Z := Z.shiftl 1 2.

End InitReg.
Import InitReg.

(** ** Initialisation (vgic_v3.c) *)

(** [struct vgic_v3_virt_features], the static [virt_features]. *)
Module VF.

Record vgic_v3_virt_features : Set := mk_virt_features {
  min_prio : Z;                   (* uint8_t *)
  ich_lr_num : nat;               (* size_t *)
  ich_ap0r_num : nat;             (* size_t *)
  ich_ap1r_num : nat              (* size_t *)
}.

End VF.

(** The static [virt_features] before [vgic_v3_init] has run: zeroed. *)
Definition virt_features_zero : VF.vgic_v3_virt_features :=
  VF.mk_virt_features 0 0 0 0.

(** [vgic_v3_init].  [gic_sc] tells whether the static pointer of that name
    is set; [pribits], [prebits] and [listregs] are the values that the
    macros [ICH_VTR_EL2_PRIBITS], [ICH_VTR_EL2_PREBITS] and
    [ICH_VTR_EL2_LISTREGS] (not among the sources) extract from the
    argument.  Neither [switch] has a [break]: control entering at a [case]
    runs through all the ones below it.  [vgic_v3_get_ro_regs] reads the
    registers of the physical Distributor into [ro_regs], which is not part
    of this state. *)
Definition vgic_v3_init (gic_sc : bool) (pribits prebits listregs : Z)
    (virt_features : VF.vgic_v3_virt_features)
  : outcome VF.vgic_v3_virt_features :=
  if negb gic_sc then Halt KASSERT_failed
  else
    let min_prio := VF.min_prio virt_features in
    let min_prio := if pribits =? 5 then 0xf8 else min_prio in
    let min_prio :=
      if (pribits =? 5) || (pribits =? 6) then 0xfc else min_prio in
    let min_prio :=
      if (pribits =? 5) || (pribits =? 6) || (pribits =? 7) then 0xfe
      else min_prio in
    let min_prio :=
      if (pribits =? 5) || (pribits =? 6) || (pribits =? 7) || (pribits =? 8)
      then 0xff else min_prio in
    let ap0r := VF.ich_ap0r_num virt_features in
    let ap1r := VF.ich_ap1r_num virt_features in
    let '(ap0r, ap1r) := if prebits =? 5 then (1, 1)%nat else (ap0r, ap1r) in
    let '(ap0r, ap1r) :=
      if (prebits =? 5) || (prebits =? 6) then (2, 2)%nat else (ap0r, ap1r) in
    let '(ap0r, ap1r) :=
      if (prebits =? 5) || (prebits =? 6) || (prebits =? 7) then (4, 4)%nat
      else (ap0r, ap1r) in
    Ret (VF.mk_virt_features min_prio (Z.to_nat listregs) ap0r ap1r).

(** The value that [vgic_v3_cpuinit] gives to ICH_VMCR_EL2. *)
Definition cpuinit_vmcr (min_prio : Z) : Z :=
  let vmcr :=
    uint32 (Z.lor (Z.lor (Z.shiftl min_prio ICH_VMCR_EL2_VPMR_SHIFT)
                     ICH_VMCR_EL2_VBPR1_NO_PREEMPTION)
              ICH_VMCR_EL2_VBPR0_NO_PREEMPTION) in
  let vmcr := Z.land vmcr (uint32 (Z.lnot ICH_VMCR_EL2_VEOIM)) in
  Z.lor vmcr (Z.lor ICH_VMCR_EL2_VENG0 ICH_VMCR_EL2_VENG1).

(** The loop of [vgic_v3_cpuinit] that zeroes the list registers. *)
Fixpoint cpuinit_lrs (n : nat) (lrs : list Z) (i : nat) : list Z :=
  match n with
  | O => lrs
  | S n' => cpuinit_lrs n' (<[i := 0]> lrs) (S i)
  end.

(** [vgic_v3_cpuinit].  [virt_features] is the static of that name and
    [vmpidr_el2] the field [hypctx->vmpidr_el2]; of the fields that the
    function writes, [ich_hcr_el2], [ich_ap0r_num] and [ich_ap1r_num] are
    not part of [vgic_v3_cpu_if] here.  The list-register array has 16
    elements ([VGIC_ICH_LR_NUM_MAX]) and the loop over it does not check
    [ich_lr_num] against that bound; an assignment past the end is dropped
    here. *)
Definition vgic_v3_cpuinit (virt_features : VF.vgic_v3_virt_features)
    (vmpidr_el2 : Z) (hypctx : struct_hypctx) (last_vcpu : bool)
  : struct_hypctx :=
  let cpu_if := vgic_cpu_if hypctx in
  let redist := vgic_redist hypctx in
  let aff :=
    Z.lor (Z.lor (Z.lor (Z.shiftl (CPU_AFF3 vmpidr_el2) 24)
                    (Z.shiftl (CPU_AFF2 vmpidr_el2) 16))
             (Z.shiftl (CPU_AFF1 vmpidr_el2) 8))
      (CPU_AFF0 vmpidr_el2) in
  let typer := shl64 aff GICR_TYPER_AFF_SHIFT in
  let typer := Z.land typer (not64 GICR_TYPER_VLPIS) in
  let typer := Z.land typer (not64 GICR_TYPER_PLPIS) in
  let typer := if last_vcpu then Z.lor typer GICR_TYPER_LAST else typer in
  let ctlr := Z.land 0 (uint32 (Z.lnot GICR_CTLR_LPI_ENABLE)) in
  let redist :=
    mk_redist typer ctlr (gicr_igroupr0 redist) (gicr_ixenabler0 redist)
      (gicr_ipriorityr redist) in
  let lr_num := VF.ich_lr_num virt_features in
  let cpu_if :=
    mk_cpu_if (cpuinit_vmcr (VF.min_prio virt_features))
      (cpuinit_lrs lr_num (ich_lr_el2 cpu_if) 0) lr_num
      (replicate IRQBUF_SIZE_MIN irq_zero) IRQBUF_SIZE_MIN 0 in
  mk_hypctx redist cpu_if (vtimer_cpu_of hypctx).

(** [vgic_v3_vcpu_pending_irq]. *)
Definition vgic_v3_vcpu_pending_irq (hypctx : struct_hypctx) : Z :=
  Z.of_nat (irqbuf_num (vgic_cpu_if hypctx)).

(** ** Group updates *)

Definition set_vip_group (v : vgic_v3_irq) (x : Z) : vgic_v3_irq :=
  mk_irq (vip_irq v) (vip_irqtype v) x (vip_enabled v) (vip_priority v).

Definition set_vip_enabled (v : vgic_v3_irq) (x : Z) : vgic_v3_irq :=
  mk_irq (vip_irq v) (vip_irqtype v) (vip_group v) x (vip_priority v).

(** First loop of [vgic_v3_irq_set_group_vcpu], over the buffer. *)
Fixpoint set_group_irqbuf (irq group : Z) (n : nat) (b : list vgic_v3_irq)
    (i : nat) : list vgic_v3_irq :=
  match n with
  | O => b
  | S n' =>
      if vip_irq (buf_at b i) =? irq then
        set_group_irqbuf irq group n'
          (<[i := set_vip_group (buf_at b i) group]> b) (S i)
      else
        set_group_irqbuf irq group n' b (S i)
  end.

(** Second loop of [vgic_v3_irq_set_group_vcpu], over the list registers. *)
Fixpoint set_group_lrs (group : Z) (n : nat) (lrs : list Z) (i : nat)
  : list Z :=
  match n with
  | O => lrs
  | S n' =>
      if lr_pending (rd lrs i) then
        let lr :=
          Z.land (rd lrs i) (not64 (shl64 1 ICH_LR_EL2_GROUP_SHIFT)) in
        let lr := Z.lor lr (shl64 group ICH_LR_EL2_GROUP_SHIFT) in
        set_group_lrs group n' (<[i := lr]> lrs) (S i)
      else
        set_group_lrs group n' lrs (S i)
  end.

Definition vgic_v3_irq_set_group_vcpu (irq group : Z)
    (cpu_if : vgic_v3_cpu_if) : vgic_v3_cpu_if :=
  let cpu_if :=
    set_irqbuf cpu_if
      (set_group_irqbuf irq group (irqbuf_num cpu_if) (irqbuf cpu_if) 0)
      (irqbuf_num cpu_if) in
  set_lrs cpu_if
    (set_group_lrs group (ich_lr_num cpu_if) (ich_lr_el2 cpu_if) 0).

(** The loop [for (i = 0; i < 1; i++)] of [vgic_v3_irq_set_group]. *)
Fixpoint set_group_for (irq group : Z) (n : nat) (hyp : struct_hyp) (i : nat)
  : struct_hyp :=
  match n with
  | O => hyp
  | S n' =>
      set_group_for irq group n'
        (update_cpu_if hyp i (vgic_v3_irq_set_group_vcpu irq group)) (S i)
  end.

Definition vgic_v3_irq_set_group (irq group : Z) (hyp : struct_hyp)
    (vcpuid : nat) : struct_hyp :=
  if irq <=? GIC_LAST_PPI then
    update_cpu_if hyp vcpuid (vgic_v3_irq_set_group_vcpu irq group)
  else
    set_group_for irq group (1 - 0) hyp 0.

(** ** Enabling and disabling *)

(** The array [hyp->ctx] has [VM_MAXCPU] elements. *)
Definition VM_MAXCPU (hyp : struct_hyp) : nat := length (ctx hyp).

(** The inner loop of [vgic_v3_irq_toggle_group_enabled], over the buffer of
    one vCPU. *)
Fixpoint toggle_group_enabled_irqbuf (group : Z) (enabled : bool)
    (dist : vgic_v3_dist) (redist : vgic_v3_redist) (n : nat)
    (b : list vgic_v3_irq) (j : nat) : list vgic_v3_irq :=
  match n with
  | O => b
  | S n' =>
      let continue :=
        toggle_group_enabled_irqbuf group enabled dist redist n' in
      let vip := buf_at b j in
      if negb (vip_group vip =? group) then continue b (S j)
      else if negb enabled then
        continue (<[j := set_vip_enabled vip 0]> b) (S j)
      else if vgic_v3_intid_enabled (vip_irq vip) dist redist then
        continue (<[j := set_vip_enabled vip 1]> b) (S j)
      else continue b (S j)
  end.

(** The body of the outer loop, on [hyp->ctx[i]]. *)
Definition toggle_group_enabled_ctx (group : Z) (enabled : bool)
    (dist : vgic_v3_dist) (hypctx : struct_hypctx) : struct_hypctx :=
  let cpu_if := vgic_cpu_if hypctx in
  set_cpu_if hypctx
    (set_irqbuf cpu_if
       (toggle_group_enabled_irqbuf group enabled dist (vgic_redist hypctx)
          (irqbuf_num cpu_if) (irqbuf cpu_if) 0)
       (irqbuf_num cpu_if)).

(** The outer loop, over the vCPUs. *)
Fixpoint toggle_group_enabled_for (group : Z) (enabled : bool) (n : nat)
    (hyp : struct_hyp) (i : nat) : struct_hyp :=
  match n with
  | O => hyp
  | S n' =>
      let hyp :=
        match ctx hyp !! i with
        | Some hypctx =>
            mk_hyp (vgic_dist hyp) (hyp_vtimer hyp)
              (<[i := toggle_group_enabled_ctx group enabled (vgic_dist hyp)
                        hypctx]> (ctx hyp))
        | None => hyp
        end in
      toggle_group_enabled_for group enabled n' hyp (S i)
  end.

Definition vgic_v3_irq_toggle_group_enabled (group : Z) (enabled : bool)
    (hyp : struct_hyp) : struct_hyp :=
  toggle_group_enabled_for group enabled (VM_MAXCPU hyp - 0) hyp 0.

(** The loop of [vgic_v3_irq_toggle_enabled_vcpu] that enables the buffered
    entries of [irq]. *)
Fixpoint toggle_enabled_irqbuf (irq : Z) (n : nat) (b : list vgic_v3_irq)
    (i : nat) : list vgic_v3_irq :=
  match n with
  | O => b
  | S n' =>
      if vip_irq (buf_at b i) =? irq then
        toggle_enabled_irqbuf irq n' (<[i := set_vip_enabled (buf_at b i) 1]> b)
          (S i)
      else
        toggle_enabled_irqbuf irq n' b (S i)
  end.

(** The loop that removes the disabled interrupt from the list registers. *)
Fixpoint toggle_enabled_lrs (irq : Z) (n : nat) (lrs : list Z) (i : nat)
  : list Z :=
  match n with
  | O => lrs
  | S n' =>
      if lr_pending (rd lrs i) && (ICH_LR_EL2_VINTID (rd lrs i) =? irq) then
        toggle_enabled_lrs irq n' (<[i := lr_clear_irq (rd lrs i)]> lrs) (S i)
      else
        toggle_enabled_lrs irq n' lrs (S i)
  end.

(** [vgic_v3_irq_toggle_enabled_vcpu]: the returned integer and the new
    state. *)
Definition vgic_v3_irq_toggle_enabled_vcpu (irq : Z) (enabled : bool)
    (cpu_if : vgic_v3_cpu_if) : Z * vgic_v3_cpu_if :=
  if enabled then
    (0, set_irqbuf cpu_if
          (toggle_enabled_irqbuf irq (irqbuf_num cpu_if) (irqbuf cpu_if) 0)
          (irqbuf_num cpu_if))
  else
    let cpu_if :=
      set_lrs cpu_if
        (toggle_enabled_lrs irq (ich_lr_num cpu_if) (ich_lr_el2 cpu_if) 0) in
    (0, fst (vgic_v3_irqbuf_remove_nolock irq cpu_if)).

(** [hyp->ctx[i].vgic_cpu_if] after [vgic_v3_irq_toggle_enabled_vcpu], with
    the value returned.  As for [update_cpu_if], an index that names no vCPU
    leaves the state as it is. *)
Definition toggle_enabled_at (irq : Z) (enabled : bool) (hyp : struct_hyp)
    (i : nat) : Z * struct_hyp :=
  match ctx hyp !! i with
  | Some hypctx =>
      let '(error, cpu_if) :=
        vgic_v3_irq_toggle_enabled_vcpu irq enabled (vgic_cpu_if hypctx) in
      (error, mk_hyp (vgic_dist hyp) (hyp_vtimer hyp)
                (<[i := set_cpu_if hypctx cpu_if]> (ctx hyp)))
  | None => (0, hyp)
  end.

(** The loop [for (i = 0; i < 1; i++)] of [vgic_v3_irq_toggle_enabled]; it
    is left with the error of the first call that fails, and with 0 at its
    end. *)
Fixpoint toggle_enabled_for (irq : Z) (enabled : bool) (n : nat)
    (hyp : struct_hyp) (i : nat) : Z * struct_hyp :=
  match n with
  | O => (0, hyp)
  | S n' =>
      let '(error, hyp) := toggle_enabled_at irq enabled hyp i in
      if truthy error then (error, hyp)
      else toggle_enabled_for irq enabled n' hyp (S i)
  end.

Definition vgic_v3_irq_toggle_enabled (irq : Z) (enabled : bool)
    (hyp : struct_hyp) (vcpuid : nat) : Z * struct_hyp :=
  if irq <=? GIC_LAST_PPI then toggle_enabled_at irq enabled hyp vcpuid
  else toggle_enabled_for irq enabled (1 - 0) hyp 0.

(** ** The timer registers (vtimer.c) *)

Definition RES1 : Z := 0xffffffffffffffff.

(** A value converted to [int32_t]. *)
Definition int32 (x : Z) : Z :=
  let u := uint32 x in
  if u <? 2 ^ 31 then u else u - 2 ^ 32.

Definition set_cntp_cval_el0 (t : vtimer_cpu) (v : Z) : vtimer_cpu :=
  mk_vtimer_cpu (callout_pending t) v (cntp_ctl_el0 t).

(** [vtimer_cpuinit]; [callout_init] leaves the callout unscheduled. *)
Definition vtimer_cpuinit (hypctx : struct_hypctx) : struct_hypctx :=
  let vtimer_cpu := vtimer_cpu_of hypctx in
  let vtimer_cpu :=
    set_cntp_ctl_el0 vtimer_cpu
      (uint32 (Z.land CNTP_CTL_IMASK (Z.lnot CNTP_CTL_ENABLE))) in
  set_vtimer_cpu hypctx (set_callout vtimer_cpu false).

(** The read accessors return the error code 0 and the value stored to
    [*rval]; [cntpct_el0] is the value read from the counter register.  As
    in [vtimer_phys_ctl_write], [hyp->ctx] is indexed with [vcpuid]
    unchecked; [None] stands for an index that names no vCPU. *)
Definition vtimer_phys_ctl_read (hyp : struct_hyp) (vcpuid : nat)
    (cntpct_el0 : Z) : option (Z * Z) :=
  match ctx hyp !! vcpuid with
  | None => None
  | Some hypctx =>
      let vtimer_cpu := vtimer_cpu_of hypctx in
      if cntp_cval_el0 vtimer_cpu <? cntpct_el0 then
        Some (0, Z.lor (cntp_ctl_el0 vtimer_cpu) CNTP_CTL_ISTATUS)
      else
        Some (0, Z.land (cntp_ctl_el0 vtimer_cpu)
                   (uint32 (Z.lnot CNTP_CTL_ISTATUS)))
  end.

Definition vtimer_phys_cval_read (hyp : struct_hyp) (vcpuid : nat)
  : option (Z * Z) :=
  match ctx hyp !! vcpuid with
  | None => None
  | Some hypctx => Some (0, cntp_cval_el0 (vtimer_cpu_of hypctx))
  end.

(** The variable [cntpct_el0] of [vtimer_phys_tval_read] is a [uint32_t]. *)
Definition vtimer_phys_tval_read (hyp : struct_hyp) (vcpuid : nat)
    (cntpct_el0 : Z) : option (Z * Z) :=
  match ctx hyp !! vcpuid with
  | None => None
  | Some hypctx =>
      let vtimer_cpu := vtimer_cpu_of hypctx in
      if negb (truthy (Z.land (cntp_ctl_el0 vtimer_cpu) CNTP_CTL_ENABLE)) then
        Some (0, uint32 RES1)
      else
        let cntpct_el0 := uint32 cntpct_el0 in
        Some (0, uint64 (cntp_cval_el0 vtimer_cpu - cntpct_el0))
  end.

(** What [vtimer_phys_cval_write] and [vtimer_phys_tval_write] do once the
    compare value is stored: an enabled timer is removed and scheduled
    again.  [cntpct_el0] is the value that [vtimer_schedule_irq] reads from
    the counter register. *)
Definition vtimer_reschedule (dist : vgic_v3_dist) (vtimer : vtimer)
    (hypctx : struct_hypctx) (cntpct_el0 : Z) (running ignore_state : bool)
  : outcome struct_hypctx :=
  if vtimer_enabled (cntp_ctl_el0 (vtimer_cpu_of hypctx)) then
    match vtimer_remove_irq dist vtimer hypctx running ignore_state with
    | Ret hypctx => vtimer_schedule_irq dist vtimer hypctx cntpct_el0
    | Halt h => Halt h
    end
  else
    Ret hypctx.

(** The write accessors, with the conventions of [vtimer_phys_ctl_write]. *)
Definition vtimer_phys_cval_write (hyp : struct_hyp) (vcpuid : nat)
    (wval : Z) (cntpct_el0 : Z) (running ignore_state : bool)
  : outcome (Z * struct_hyp) :=
  match ctx hyp !! vcpuid with
  | None => Ret (0, hyp)
  | Some hypctx =>
      let hypctx :=
        set_vtimer_cpu hypctx
          (set_cntp_cval_el0 (vtimer_cpu_of hypctx) (uint64 wval)) in
      match vtimer_reschedule (vgic_dist hyp) (hyp_vtimer hyp) hypctx
              cntpct_el0 running ignore_state with
      | Ret hypctx =>
          Ret (0, mk_hyp (vgic_dist hyp) (hyp_vtimer hyp)
                    (<[vcpuid := hypctx]> (ctx hyp)))
      | Halt h => Halt h
      end
  end.

(** [vtimer_phys_tval_write] reads the counter itself ([cntpct_el0]) before
    [vtimer_schedule_irq] reads it again ([cntpct_el0']). *)
Definition vtimer_phys_tval_write (hyp : struct_hyp) (vcpuid : nat)
    (wval : Z) (cntpct_el0 cntpct_el0' : Z) (running ignore_state : bool)
  : outcome (Z * struct_hyp) :=
  match ctx hyp !! vcpuid with
  | None => Ret (0, hyp)
  | Some hypctx =>
      let hypctx :=
        set_vtimer_cpu hypctx
          (set_cntp_cval_el0 (vtimer_cpu_of hypctx)
             (uint64 (int32 wval + cntpct_el0))) in
      match vtimer_reschedule (vgic_dist hyp) (hyp_vtimer hyp) hypctx
              cntpct_el0' running ignore_state with
      | Ret hypctx =>
          Ret (0, mk_hyp (vgic_dist hyp) (hyp_vtimer hyp)
                    (<[vcpuid := hypctx]> (ctx hyp)))
      | Halt h => Halt h
      end
  end.

(** * The vocabulary of the properties *)

(** The list-register array has [ich_lr_num] registers at least, and the
    buffer is an allocation of [irqbuf_size] entries of which [irqbuf_num]
    are in use. *)
Record wf_cpu_if (c : vgic_v3_cpu_if) : Prop := mk_wf {
  wf_lr : (ich_lr_num c <= length (ich_lr_el2 c))%nat;
  wf_size : length (irqbuf c) = irqbuf_size c;
  wf_num : (irqbuf_num c <= irqbuf_size c)%nat
}.

(** The entries that a removal of [irq] keeps. *)
Definition kept (irq : Z) (e : vgic_v3_irq) : bool :=
  negb (vip_irq e =? irq).

(** The buffers that [vgic_v3_cpuinit] followed by calls of
    [vgic_v3_inject_irq] that return can produce.  The Distributor, the
    Redistributor and the timer may change between two calls. *)
Inductive inject_reach : vgic_v3_cpu_if -> Prop :=
| reach_cpuinit (vmcr : Z) (lr_num : nat) :
    inject_reach (cpuinit_cpu_if vmcr lr_num)
| reach_inject (dist : vgic_v3_dist) (hypctx hypctx' : struct_hypctx)
    (irq : Z) (irqtype : vgic_v3_irqtype) (error : Z) :
    inject_reach (vgic_cpu_if hypctx) ->
    vgic_v3_inject_irq dist hypctx irq irqtype = Ret (error, hypctx') ->
    inject_reach (vgic_cpu_if hypctx').

(** The sizes that doubling from [IRQBUF_SIZE_MIN] reaches below
    [IRQBUF_SIZE_MAX]. *)
Definition irqbuf_sizes : list nat := [32; 64; 128; 256; 512; 1024]%nat.

Record irqbuf_inv (c : vgic_v3_cpu_if) : Prop := mk_irqbuf_inv {
  inv_alloc : length (irqbuf c) = irqbuf_size c;
  inv_num : (irqbuf_num c <= irqbuf_size c)%nat;
  inv_size : In (irqbuf_size c) irqbuf_sizes
}.

(** [n] injections of the same interrupt, a halted call leaving the state
    as it was. *)
Fixpoint inject_repeat (dist : vgic_v3_dist) (irq : Z)
    (irqtype : vgic_v3_irqtype) (n : nat) (hypctx : struct_hypctx)
  : struct_hypctx :=
  match n with
  | O => hypctx
  | S n' =>
      match vgic_v3_inject_irq dist hypctx irq irqtype with
      | Ret (_, hypctx') => inject_repeat dist irq irqtype n' hypctx'
      | Halt _ => hypctx
      end
  end.

(** The affinity of the vCPU in the format of GICD_IROUTER, as
    [vgic_v3_int_target] computes it, and the affinity fields of a routing
    register (the register without the routing-mode bit). *)
Definition redist_affinity (redist : vgic_v3_redist) : Z :=
  Z.lor (Z.lor (Z.lor (GICR_TYPER_AFF0 (gicr_typer redist))
                  (shl64 (GICR_TYPER_AFF1 (gicr_typer redist)) 8))
           (shl64 (GICR_TYPER_AFF2 (gicr_typer redist)) 16))
    (shl64 (GICR_TYPER_AFF3 (gicr_typer redist)) 32).

Definition irouter_affinity (irouter : Z) : Z :=
  Z.land irouter (Z.lnot GICD_IROUTER_IRM).

(** The priority field of a list register, as [lr_to_vip] reads it. *)
Definition lr_priority (lr : Z) : Z := vip_priority (lr_to_vip lr irq_zero).

(** The update of one buffered entry and of one list register by
    [vgic_v3_irq_set_priority_vcpu]. *)
Definition with_priority (irq priority : Z) (vip : vgic_v3_irq)
  : vgic_v3_irq :=
  if vip_irq vip =? irq then set_vip_priority vip priority else vip.

Definition lr_with_priority (priority : Z) (lr : Z) : Z :=
  if lr_pending lr then
    Z.lor (Z.land lr (not64 ICH_LR_EL2_PRIO_MASK))
      (shl64 priority ICH_LR_EL2_PRIO_SHIFT)
  else lr.

(** The virtual priority mask of ICH_VMCR_EL2. *)
Definition vpmr_of (cpu_if : vgic_v3_cpu_if) : Z :=
  uint8 (Z.shiftr (Z.land (ich_vmcr_el2 cpu_if) ICH_VMCR_EL2_VPMR_MASK)
           ICH_VMCR_EL2_VPMR_SHIFT).

(** The entries that [vgic_v3_highest_priority_pending] considers: not
    marked as scheduled, group and ID enabled in the Distributor, this
    vCPU a target, and the priority below the mask. *)
Definition candidate (dist : vgic_v3_dist) (redist : vgic_v3_redist)
    (cpu_if : vgic_v3_cpu_if) (i : nat) : bool :=
  let vip := buf_at (irqbuf cpu_if) i in
  negb (vip_irq vip =? IRQ_SCHEDULED)
  && vgic_v3_group_enabled
       (vgic_v3_get_int_group (vip_irq vip) dist redist) dist
  && vgic_v3_intid_enabled (vip_irq vip) dist redist
  && vgic_v3_int_target (vip_irq vip) dist redist
  && negb (vip_priority vip >=? vpmr_of cpu_if).

(** The priority and the value of the delivery type of a buffered entry. *)
Definition prio_at (cpu_if : vgic_v3_cpu_if) (i : nat) : Z :=
  vip_priority (buf_at (irqbuf cpu_if) i).

Definition type_at (cpu_if : vgic_v3_cpu_if) (i : nat) : Z :=
  irqtype_val (vip_irqtype (buf_at (irqbuf cpu_if) i)).

(** Invariant of the loop of [vgic_v3_highest_priority_pending]: [max_idx]
    is a candidate below [i] that no candidate below [i] beats, where a
    larger priority value beats a smaller one and, at equal priority values,
    a smaller type beats a larger one. *)
Definition highest_inv (dist : vgic_v3_dist) (redist : vgic_v3_redist)
    (cpu_if : vgic_v3_cpu_if) (i : nat) (max_idx : option nat)
    (max_priority : Z) : Prop :=
  match max_idx with
  | None =>
      forall j : nat, (j < i)%nat -> candidate dist redist cpu_if j = false
  | Some k =>
      (k < i)%nat /\ candidate dist redist cpu_if k = true
      /\ max_priority = prio_at cpu_if k
      /\ forall j : nat, (j < i)%nat ->
           candidate dist redist cpu_if j = true ->
           prio_at cpu_if j <= prio_at cpu_if k
           /\ (prio_at cpu_if j = prio_at cpu_if k ->
               type_at cpu_if k <= type_at cpu_if j)
  end.

(** The number of inactive list registers, as [vgic_v3_sync_hwstate] counts
    them. *)
Definition lr_free_of (cpu_if : vgic_v3_cpu_if) : nat :=
  lr_free_for (ich_lr_el2 cpu_if) (ich_lr_num cpu_if) 0 0.

(** The group is enabled in the VMCR. *)
Definition vmcr_group_on (vmcr group : Z) : bool :=
  negb ((group =? 1) && negb (truthy (Z.land vmcr ICH_VMCR_EL2_VENG1)))
  && negb ((group =? 0) && negb (truthy (Z.land vmcr ICH_VMCR_EL2_VENG0))).

(** The test of [vgic_v3_irqbuf_next_enabled] on one entry: the entry is
    enabled and the group of its interrupt, read from the Distributor or
    the Redistributor, is enabled in the VMCR. *)
Definition schedulable (dist : vgic_v3_dist) (redist : vgic_v3_redist)
    (vmcr : Z) (vip : vgic_v3_irq) : bool :=
  truthy (vip_enabled vip)
  && vmcr_group_on vmcr (vgic_v3_get_int_group (vip_irq vip) dist redist).

(** The guard of [vgic_v3_irqbuf_to_lr] against a second timer
    interrupt. *)
Definition held_back (clk_injected : bool) (vip : vgic_v3_irq) : bool :=
  (irqtype_val (vip_irqtype vip) =? irqtype_val VGIC_IRQ_CLK)
  && clk_injected.

(** The entries that a pass with enough inactive list registers places. *)
Definition placed (dist : vgic_v3_dist) (redist : vgic_v3_redist) (vmcr : Z)
    (clk_injected : bool) (vip : vgic_v3_irq) : bool :=
  schedulable dist redist vmcr vip && negb (held_back clk_injected vip).

(** The mark that a placed entry receives. *)
Definition mark (dist : vgic_v3_dist) (redist : vgic_v3_redist) (vmcr : Z)
    (clk_injected : bool) (vip : vgic_v3_irq) : vgic_v3_irq :=
  if placed dist redist vmcr clk_injected vip
  then set_vip_irq vip IRQ_SCHEDULED else vip.

(** The list registers after the entries [vs] have been placed, in their
    order, into the inactive ones, in the order of the registers. *)
Fixpoint fill_lrs (lrs : list Z) (vs : list vgic_v3_irq) : list Z :=
  match lrs, vs with
  | lr :: lrs', v :: vs' =>
      if lr_inactive lr then vip_to_lr v :: fill_lrs lrs' vs'
      else lr :: fill_lrs lrs' vs
  | _, _ => lrs
  end.

(** The buffer and the list registers when the loop of
    [vgic_v3_irqbuf_to_lr] is left, had it been entered with
    [irqbuf_idx = i] and [lr_idx = li]. *)
Definition final_irqbuf (dist : vgic_v3_dist) (redist : vgic_v3_redist)
    (vmcr : Z) (clk : bool) (num : nat) (b : list vgic_v3_irq) (i : nat)
  : list vgic_v3_irq :=
  take i b ++ map (mark dist redist vmcr clk) (drop i (take num b))
    ++ drop num b.

Definition final_lrs (dist : vgic_v3_dist) (redist : vgic_v3_redist)
    (vmcr : Z) (clk : bool) (lr_num num : nat) (lrs : list Z)
    (b : list vgic_v3_irq) (i li : nat) : list Z :=
  take li lrs
    ++ fill_lrs (drop li (take lr_num lrs))
         (List.filter (placed dist redist vmcr clk) (drop i (take num b)))
    ++ drop lr_num lrs.


(** A list register holds interrupt 27 and is not inactive. *)
Definition holds_timer (lr : Z) : bool :=
  (ICH_LR_EL2_VINTID lr =? 27) && negb (lr_inactive lr).

(** The value of [clk_injected] in [vgic_v3_irqbuf_to_lr]. *)
Definition clk_injected_of (cpu_if : vgic_v3_cpu_if) : bool :=
  clk_injected_for (ich_lr_el2 cpu_if) (ich_lr_num cpu_if) 0.

Definition is_clk (vip : vgic_v3_irq) : bool :=
  irqtype_val (vip_irqtype vip) =? irqtype_val VGIC_IRQ_CLK.

(** What [vgic_v3_remove_irq] does to one list register. *)
Definition clear_if (irq : Z) (ignore_state : bool) (lr : Z) : Z :=
  if (ICH_LR_EL2_VINTID lr =? irq) && (lr_not_active lr || ignore_state)
  then lr_clear_irq lr else lr.

(** ** States used as examples *)

(** A VM with 64 interrupt IDs, both groups and affinity routing enabled in
    the Distributor, the shared interrupts 32..63 in group 1 and enabled,
    SPI 32 routed to the affinity 0.0.0.1; and a vCPU of affinity 0.0.0.0
    whose private interrupts are in group 1 and enabled. *)
Definition ex_dist : vgic_v3_dist :=
  mk_dist 64 (Z.lor (Z.lor GICD_CTLR_G1 GICD_CTLR_G1A) GICD_CTLR_ARE_NS)
    [0; 0xffffffff] (replicate 16 0) (replicate 32 0 ++ 1 :: replicate 31 0)
    [0; 0xffffffff].

Definition ex_redist : vgic_v3_redist :=
  mk_redist 0 0 0xffffffff 0xffffffff (replicate 8 0).

(** ICH_VMCR_EL2 with both groups enabled and the priority mask 0xff. *)
Definition ex_vmcr : Z :=
  Z.lor (Z.lor (Z.shiftl 0xff ICH_VMCR_EL2_VPMR_SHIFT) ICH_VMCR_EL2_VENG0)
    ICH_VMCR_EL2_VENG1.

Definition ex_vtimer_cpu : vtimer_cpu := mk_vtimer_cpu false 0 CNTP_CTL_IMASK.

(** The vCPU as [vgic_v3_cpuinit] leaves it, with four list registers. *)
Definition ex_hypctx : struct_hypctx :=
  mk_hypctx ex_redist (cpuinit_cpu_if ex_vmcr 4) ex_vtimer_cpu.

(** The vCPU after 1024 injections of SPI 40. *)
Definition ex_hypctx_full : struct_hypctx :=
  inject_repeat ex_dist 40 VGIC_IRQ_VIRTIO 1024 ex_hypctx.

(** A vCPU whose list register 0 holds SPI 40, pending, with the priority
    0x80, and whose buffer holds SPI 33 with the priority 0x80. *)
Definition ex_cpu_if_prio : vgic_v3_cpu_if :=
  mk_cpu_if ex_vmcr
    (vip_to_lr (mk_irq 40 VGIC_IRQ_VIRTIO 1 1 0x80) :: replicate 15 0) 4
    (mk_irq 33 VGIC_IRQ_VIRTIO 1 1 0x80 :: replicate 31 irq_zero) 32 1.

(** Two vCPUs that both have SPI 40 buffered with the priority 0x80. *)
Definition ex_cpu_if_spi : vgic_v3_cpu_if :=
  mk_cpu_if ex_vmcr (replicate 16 0) 4
    (mk_irq 40 VGIC_IRQ_VIRTIO 1 1 0x80 :: replicate 31 irq_zero) 32 1.

Definition ex_hyp : struct_hyp :=
  mk_hyp ex_dist (mk_vtimer 30)
    [mk_hypctx ex_redist ex_cpu_if_spi ex_vtimer_cpu;
     mk_hypctx ex_redist ex_cpu_if_spi ex_vtimer_cpu].

(** Three list registers in use (SPI 50 pending, SPI 51 active, SPI 52
    pending) and one inactive. *)
Definition ex_lrs_one_free : list Z :=
  [vip_to_lr (mk_irq 50 VGIC_IRQ_VIRTIO 1 1 0);
   Z.lor ICH_LR_EL2_STATE_ACTIVE 51;
   vip_to_lr (mk_irq 52 VGIC_IRQ_VIRTIO 1 1 0);
   0] ++ replicate 12 0.

(** Two buffered device interrupts: A (SPI 40) of priority 0x10 and B (SPI
    41) of priority 0x20. *)
Definition ex_cpu_if_order : vgic_v3_cpu_if :=
  mk_cpu_if ex_vmcr ex_lrs_one_free 4
    (mk_irq 40 VGIC_IRQ_VIRTIO 1 1 0x10 :: mk_irq 41 VGIC_IRQ_VIRTIO 1 1 0x20
       :: replicate 30 irq_zero) 32 2.

(** The scenario of C4: A (SPI 40, device, priority 10) and B (SPI 41,
    timer-clock, priority 10) buffered, one list register inactive. *)
Definition ex_cpu_if_tie : vgic_v3_cpu_if :=
  mk_cpu_if ex_vmcr ex_lrs_one_free 4
    (mk_irq 40 VGIC_IRQ_VIRTIO 1 1 10 :: mk_irq 41 VGIC_IRQ_CLK 1 1 10
       :: replicate 30 irq_zero) 32 2.

Definition ex_hypctx_tie : struct_hypctx :=
  mk_hypctx ex_redist ex_cpu_if_tie ex_vtimer_cpu.

(** A vCPU whose list register 0 holds the timer interrupt 27, active, with
    three inactive list registers, and whose buffer holds one enabled
    timer-clock entry for interrupt 27. *)
Definition ex_cpu_if_timer : vgic_v3_cpu_if :=
  mk_cpu_if ex_vmcr (Z.lor ICH_LR_EL2_STATE_ACTIVE 27 :: replicate 15 0) 4
    (mk_irq 27 VGIC_IRQ_CLK 1 1 0 :: replicate 31 irq_zero) 32 1.

Definition ex_hypctx_timer : struct_hypctx :=
  mk_hypctx ex_redist ex_cpu_if_timer ex_vtimer_cpu.

(** A vCPU with eight list registers, two of them in use (SPI 50 pending,
    SPI 51 active), and four buffered entries, the second one disabled. *)
Definition ex_cpu_if_mix : vgic_v3_cpu_if :=
  mk_cpu_if ex_vmcr
    ([vip_to_lr (mk_irq 50 VGIC_IRQ_VIRTIO 1 1 0); 0;
      Z.lor ICH_LR_EL2_STATE_ACTIVE 51] ++ replicate 13 0) 8
    ([mk_irq 40 VGIC_IRQ_VIRTIO 1 1 0x20; mk_irq 41 VGIC_IRQ_VIRTIO 1 0 0x10;
      mk_irq 27 VGIC_IRQ_CLK 1 1 0; mk_irq 42 VGIC_IRQ_MISC 1 1 0x30]
       ++ replicate 28 irq_zero) 32 4.

Definition ex_hypctx_mix : struct_hypctx :=
  mk_hypctx ex_redist ex_cpu_if_mix ex_vtimer_cpu.

(** The timer interrupt 27 is active in list register 0; the buffer holds a
    timer-clock entry and a device interrupt. *)
Definition ex_cpu_if_guard : vgic_v3_cpu_if :=
  mk_cpu_if ex_vmcr (Z.lor ICH_LR_EL2_STATE_ACTIVE 27 :: replicate 15 0) 4
    ([mk_irq 27 VGIC_IRQ_CLK 1 1 0; mk_irq 40 VGIC_IRQ_VIRTIO 1 1 0x20]
       ++ replicate 30 irq_zero) 32 2.

Definition ex_hypctx_guard : struct_hypctx :=
  mk_hypctx ex_redist ex_cpu_if_guard ex_vtimer_cpu.

(** A VM with one vCPU and the timer interrupt 30.  The timer is enabled,
    its callout is scheduled; the timer interrupt is pending in list
    register 0 and active in list register 1, SPI 40 is pending in list
    register 2; the buffer holds two timer entries and one for SPI 40. *)
Definition ex_hypctx_armed : struct_hypctx :=
  mk_hypctx ex_redist
    (mk_cpu_if ex_vmcr
       ([vip_to_lr (mk_irq 30 VGIC_IRQ_CLK 1 1 0);
         Z.lor ICH_LR_EL2_STATE_ACTIVE 30;
         vip_to_lr (mk_irq 40 VGIC_IRQ_VIRTIO 1 1 0x20)] ++ replicate 13 0) 4
       ([mk_irq 30 VGIC_IRQ_CLK 1 1 0; mk_irq 40 VGIC_IRQ_VIRTIO 1 1 0x20;
         mk_irq 30 VGIC_IRQ_CLK 1 1 0] ++ replicate 29 irq_zero) 32 3)
    (mk_vtimer_cpu true 5000 CNTP_CTL_ENABLE).

Definition ex_hyp_armed : struct_hyp :=
  mk_hyp ex_dist (mk_vtimer 30) [ex_hypctx_armed].

(** A vCPU whose list register 0 holds interrupt 30, active, and whose
    buffer holds one timer-clock entry for interrupt 30. *)
Definition ex_cpu_if_timer30 : vgic_v3_cpu_if :=
  mk_cpu_if ex_vmcr (Z.lor ICH_LR_EL2_STATE_ACTIVE 30 :: replicate 15 0) 4
    (mk_irq 30 VGIC_IRQ_CLK 1 1 0 :: replicate 31 irq_zero) 32 1.

(** A vCPU of a VM whose timer interrupt is 30: the interrupt is active in
    list register 0, the three other list registers are inactive and the
    buffer is empty. *)
Definition ex_hypctx_lr30 : struct_hypctx :=
  mk_hypctx ex_redist
    (mk_cpu_if ex_vmcr (Z.lor ICH_LR_EL2_STATE_ACTIVE 30 :: replicate 15 0) 4
       (replicate 32 irq_zero) 32 0) ex_vtimer_cpu.



(** ** Vocabulary for the remaining functions *)

(** The entries for [irq]. *)
Definition is_irq (irq : Z) (e : vgic_v3_irq) : bool := vip_irq e =? irq.

(** The entry that [vgic_v3_inject_irq] writes: ID and type as given,
    group, priority and the enabled flag as resolved from the Distributor
    and the Redistributor at the time of the call. *)
Definition injected_entry (dist : vgic_v3_dist) (redist : vgic_v3_redist)
    (irq : Z) (irqtype : vgic_v3_irqtype) : vgic_v3_irq :=
  let group := vgic_v3_get_int_group irq dist redist in
  mk_irq irq irqtype group
    (if vgic_v3_group_enabled group dist
        && vgic_v3_intid_enabled irq dist redist
        && vgic_v3_int_target irq dist redist then 1 else 0)
    (vgic_v3_get_priority irq dist redist).

(** A vCPU with interrupt 30 buffered twice around SPI 40. *)
Definition ex_cpu_if_armed : vgic_v3_cpu_if := vgic_cpu_if ex_hypctx_armed.

(** The group field of a list register, as [lr_to_vip] reads it. *)
Definition lr_group (lr : Z) : Z := vip_group (lr_to_vip lr irq_zero).

(** The update of one buffered entry and of one list register by
    [vgic_v3_irq_set_group_vcpu]. *)
Definition with_group (irq group : Z) (vip : vgic_v3_irq) : vgic_v3_irq :=
  if vip_irq vip =? irq then set_vip_group vip group else vip.

Definition lr_with_group (group : Z) (lr : Z) : Z :=
  if lr_pending lr then
    Z.lor (Z.land lr (not64 (shl64 1 ICH_LR_EL2_GROUP_SHIFT)))
      (shl64 group ICH_LR_EL2_GROUP_SHIFT)
  else lr.

(** A list in which the [n] elements from index [i] on are updated in
    place by [f]: what a loop [for (; i < ...; i++)] over an array that
    assigns [f a[i]] to [a[i]] leaves. *)
Definition updated_from {A : Type} (f : A -> A) (n : nat) (l : list A)
    (i : nat) : list A :=
  take i l ++ map f (take n (drop i l)) ++ drop (i + n) l.

(** What [vgic_v3_irq_toggle_enabled_vcpu] does to one buffered entry when
    it enables [irq], and to one list register when it disables it. *)
Definition enabled_for (irq : Z) (vip : vgic_v3_irq) : vgic_v3_irq :=
  if vip_irq vip =? irq then set_vip_enabled vip 1 else vip.

Definition clear_pending (irq : Z) (lr : Z) : Z :=
  if lr_pending lr && (ICH_LR_EL2_VINTID lr =? irq) then lr_clear_irq lr
  else lr.

(** What [vgic_v3_irq_toggle_group_enabled] does to one buffered entry. *)
Definition group_toggled (group : Z) (enabled : bool) (dist : vgic_v3_dist)
    (redist : vgic_v3_redist) (vip : vgic_v3_irq) : vgic_v3_irq :=
  if negb (vip_group vip =? group) then vip
  else if negb enabled then set_vip_enabled vip 0
  else if vgic_v3_intid_enabled (vip_irq vip) dist redist
  then set_vip_enabled vip 1
  else vip.

(** The vCPU that an update of [irq] asked for [vcpuid] reaches, and a state
    [hyp'] that differs from [hyp] in the CPU interface of that vCPU only,
    where it is [f] of the one of [hyp]. *)
Definition target_vcpu (irq : Z) (vcpuid : nat) : nat :=
  if irq <=? GIC_LAST_PPI then vcpuid else 0%nat.

Definition only_cpu_if_of (target : nat)
    (f : vgic_v3_cpu_if -> vgic_v3_cpu_if) (hyp hyp' : struct_hyp) : Prop :=
  vgic_dist hyp' = vgic_dist hyp
  /\ hyp_vtimer hyp' = hyp_vtimer hyp
  /\ length (ctx hyp') = length (ctx hyp)
  /\ (forall i : nat, i <> target -> ctx hyp' !! i = ctx hyp !! i)
  /\ ctx hyp' !! target
     = option_map (fun h => set_cpu_if h (f (vgic_cpu_if h)))
         (ctx hyp !! target).

(** A CPU interface [c'] that has the shape of [c]: its buffer is an
    allocation of [irqbuf_size] entries, of one of the sizes that doubling
    reaches, with at most that many in use; the number of list registers,
    the length of their array and the VMCR are those of [c]. *)
Definition same_shape (c c' : vgic_v3_cpu_if) : Prop :=
  irqbuf_inv c'
  /\ ich_lr_num c' = ich_lr_num c
  /\ length (ich_lr_el2 c') = length (ich_lr_el2 c)
  /\ ich_vmcr_el2 c' = ich_vmcr_el2 c.

(** * Properties *)

(** ** Well-formed states *)

Lemma cpu_if_eta (c : vgic_v3_cpu_if) :
  mk_cpu_if (ich_vmcr_el2 c) (ich_lr_el2 c) (ich_lr_num c) (irqbuf c)
    (irqbuf_size c) (irqbuf_num c) = c.
Proof. destruct c; reflexivity. Qed.

Lemma hypctx_eta (h : struct_hypctx) :
  mk_hypctx (vgic_redist h) (vgic_cpu_if h) (vtimer_cpu_of h) = h.
Proof. destruct h; reflexivity. Qed.

Lemma buf_at_lookup (b : list vgic_v3_irq) (i : nat) (e : vgic_v3_irq) :
  b !! i = Some e -> buf_at b i = e.
Proof.
  intros H. unfold buf_at.
  apply nth_lookup_Some with (d := irq_zero) in H. exact H.
Qed.

Lemma rd_lookup (l : list Z) (i : nat) (x : Z) :
  l !! i = Some x -> rd l i = x.
Proof.
  intros H. unfold rd. apply nth_lookup_Some with (d := 0) in H. exact H.
Qed.

(** ** Removal from the buffer *)

Section Removal.

Variable irq : Z.

Lemma filter_kept_all (l : list vgic_v3_irq) :
  Forall (fun e => kept irq e = true) l -> List.filter (kept irq) l = l.
Proof.
  induction 1 as [|e l He _ IH]; simpl; [reflexivity|].
  rewrite He, IH. reflexivity.
Qed.

(** The inner loop copies down, in order, the entries of
    [irqbuf[from .. from + n - 1]] that are kept. *)
Lemma remove_for_spec (n : nat) :
  forall (b : list vgic_v3_irq) (dest from : nat),
    (dest <= from)%nat -> (from + n <= length b)%nat ->
    exists b' dest',
      remove_for irq n b dest from = (b', dest', (from + n)%nat)
      /\ take dest' b'
         = take dest b ++ List.filter (kept irq) (take n (drop from b))
      /\ length b' = length b
      /\ (dest' <= from + n)%nat.
Proof.
  induction n as [|n IH]; intros b dest from Hd Hf; simpl.
  - exists b, dest. rewrite Nat.add_0_r, app_nil_r.
    repeat split; try reflexivity; lia.
  - destruct (lookup_lt_is_Some_2 b from) as [e He]; [lia|].
    rewrite (buf_at_lookup _ _ _ He).
    rewrite (drop_S _ _ _ He). simpl.
    assert (Hk : kept irq e = negb (vip_irq e =? irq)) by reflexivity.
    rewrite Hk.
    destruct (vip_irq e =? irq) eqn:E; simpl.
    + destruct (IH b dest (S from)) as (b' & dest' & H1 & H2 & H3 & H4);
        [lia | lia |].
      exists b', dest'. rewrite H1, H2.
      replace (S from + n)%nat with (from + S n)%nat by lia.
      repeat split; try reflexivity; try assumption; lia.
    + destruct (IH (<[dest := e]> b) (S dest) (S from))
        as (b' & dest' & H1 & H2 & H3 & H4);
        [lia | rewrite length_insert; lia |].
      exists b', dest'. rewrite H1, H2.
      replace (S from + n)%nat with (from + S n)%nat by lia.
      rewrite length_insert in H3.
      repeat split; try assumption; try lia.
      rewrite drop_insert_lt by lia.
      assert (Hl : <[dest := e]> b !! dest = Some e)
        by (apply list_lookup_insert_eq; lia).
      rewrite (take_S_r _ _ _ Hl), take_insert_ge by lia.
      rewrite <- app_assoc. reflexivity.
Qed.

(** What [vgic_v3_irqbuf_remove_nolock] leaves untouched, and what it
    leaves in the buffer. *)
Lemma remove_while_spec (n : nat) :
  forall (c : vgic_v3_cpu_if) (dest from : nat),
    n = (irqbuf_num c - dest)%nat ->
    (dest <= irqbuf_num c)%nat ->
    (irqbuf_num c <= length (irqbuf c))%nat ->
    Forall (fun e => kept irq e = true) (take dest (irqbuf c)) ->
    exists c' dest' from',
      remove_while irq n c dest from = (c', dest', from')
      /\ pending c' = List.filter (kept irq) (pending c)
      /\ ich_vmcr_el2 c' = ich_vmcr_el2 c
      /\ ich_lr_el2 c' = ich_lr_el2 c
      /\ ich_lr_num c' = ich_lr_num c
      /\ irqbuf_size c' = irqbuf_size c
      /\ length (irqbuf c') = length (irqbuf c)
      /\ (irqbuf_num c' <= irqbuf_num c)%nat.
Proof.
  induction n as [|n IH]; intros c dest from Hn Hd Hl Hall; simpl.
  - exists c, dest, from. assert (dest = irqbuf_num c) by lia. subst dest.
    unfold pending. rewrite filter_kept_all by assumption.
    repeat split; lia.
  - destruct (lookup_lt_is_Some_2 (irqbuf c) dest) as [e He]; [lia|].
    rewrite (buf_at_lookup _ _ _ He).
    destruct (vip_irq e =? irq) eqn:E.
    + destruct (remove_for_spec (irqbuf_num c - (dest + 1)) (irqbuf c)
                  dest (dest + 1)) as (b' & dest' & H1 & H2 & H3 & H4);
        [lia | lia |].
      rewrite H1. eexists _, _, _. split; [reflexivity|].
      unfold pending; simpl. rewrite H2.
      repeat split; try assumption; try lia.
      replace (irqbuf_num c) with (dest + S (irqbuf_num c - (dest + 1)))%nat
        at 2 by lia.
      rewrite <- take_take_drop, List.filter_app.
      rewrite (filter_kept_all (take dest (irqbuf c))) by assumption.
      rewrite (drop_S _ _ _ He). simpl.
      assert (Hk : kept irq e = false) by (unfold kept; rewrite E; reflexivity).
      rewrite Hk.
      replace (dest + 1)%nat with (S dest) by lia. reflexivity.
    + apply IH; try lia; try assumption.
      rewrite (take_S_r _ _ _ He). apply Forall_app. split; [assumption|].
      constructor; [|constructor]. unfold kept. rewrite E. reflexivity.
Qed.

Lemma remove_nolock_spec (c : vgic_v3_cpu_if) :
  (irqbuf_num c <= length (irqbuf c))%nat ->
  let c' := fst (vgic_v3_irqbuf_remove_nolock irq c) in
  pending c' = List.filter (kept irq) (pending c)
  /\ ich_vmcr_el2 c' = ich_vmcr_el2 c
  /\ ich_lr_el2 c' = ich_lr_el2 c
  /\ ich_lr_num c' = ich_lr_num c
  /\ irqbuf_size c' = irqbuf_size c
  /\ length (irqbuf c') = length (irqbuf c)
  /\ (irqbuf_num c' <= irqbuf_num c)%nat.
Proof.
  intros Hl. unfold vgic_v3_irqbuf_remove_nolock.
  destruct (remove_while_spec (irqbuf_num c - 0) c 0 (irqbuf_num c))
    as (c' & dest' & from' & H1 & H2); [reflexivity | lia | assumption | |].
  - rewrite take_0. constructor.
  - rewrite H1. simpl. exact H2.
Qed.

End Removal.

(** ** Capacity of the buffer *)

Lemma irqbuf_sizes_max (n : nat) : In n irqbuf_sizes -> (0 < n <= 1024)%nat.
Proof. unfold irqbuf_sizes. simpl. intros H. intuition lia. Qed.

Lemma irqbuf_sizes_double (n : nat) :
  In n irqbuf_sizes -> (IRQBUF_SIZE_MAX <? Nat.shiftl n 1)%nat = false ->
  In (Nat.shiftl n 1) irqbuf_sizes.
Proof.
  unfold irqbuf_sizes. simpl.
  intros [<-|[<-|[<-|[<-|[<-|[<-|[]]]]]]]; vm_compute; intros H;
    try discriminate; tauto.
Qed.

Lemma add_nolock_inv (c c' : vgic_v3_cpu_if) (vip : nat) :
  irqbuf_inv c -> vgic_v3_irqbuf_add_nolock c = Some (c', vip) ->
  irqbuf_inv c' /\ vip = irqbuf_num c /\ irqbuf_num c' = S (irqbuf_num c)
  /\ take (irqbuf_num c) (irqbuf c') = take (irqbuf_num c) (irqbuf c)
  /\ ich_lr_el2 c' = ich_lr_el2 c /\ ich_lr_num c' = ich_lr_num c
  /\ ich_vmcr_el2 c' = ich_vmcr_el2 c.
Proof.
  intros [Ha Hn Hs] H. unfold vgic_v3_irqbuf_add_nolock in H.
  pose proof (irqbuf_sizes_max _ Hs) as Hpos.
  destruct (irqbuf_num c =? irqbuf_size c)%nat eqn:E.
  - apply Nat.eqb_eq in E.
    destruct (IRQBUF_SIZE_MAX <? Nat.shiftl (irqbuf_size c) 1)%nat eqn:F;
      [discriminate|].
    pose proof (irqbuf_sizes_double _ Hs F) as Hd.
    assert (Hns : Nat.shiftl (irqbuf_size c) 1 = (2 * irqbuf_size c)%nat)
      by (rewrite Nat.shiftl_mul_pow2; simpl; lia).
    revert H Hd. generalize (Nat.shiftl (irqbuf_size c) 1) Hns.
    intros ns -> H Hd. injection H as <- <-.
    cbn [irqbuf irqbuf_size irqbuf_num ich_lr_el2 ich_lr_num ich_vmcr_el2].
    split; [split|];
      cbn [irqbuf irqbuf_size irqbuf_num ich_lr_el2 ich_lr_num ich_vmcr_el2].
    + rewrite length_app, length_take, length_replicate. lia.
    + lia.
    + assumption.
    + repeat split; try lia.
      rewrite take_app_le by (rewrite length_take; lia).
      rewrite take_take. f_equal. lia.
  - apply Nat.eqb_neq in E. injection H as <- <-. simpl.
    repeat split; simpl; try reflexivity; try lia; try assumption.
Qed.

Lemma inject_inv (dist : vgic_v3_dist) (hypctx hypctx' : struct_hypctx)
    (irq : Z) (irqtype : vgic_v3_irqtype) (error : Z) :
  irqbuf_inv (vgic_cpu_if hypctx) ->
  vgic_v3_inject_irq dist hypctx irq irqtype = Ret (error, hypctx') ->
  irqbuf_inv (vgic_cpu_if hypctx').
Proof.
  intros Hinv H. unfold vgic_v3_inject_irq in H.
  destruct (negb (irq >? GIC_LAST_SGI)); [discriminate|].
  destruct ((irq >=? nirqs dist)
            || (irqtype_val irqtype >=? irqtype_val VGIC_IRQ_INVALID)).
  { injection H as _ <-. assumption. }
  destruct (vgic_v3_irqbuf_add_nolock (vgic_cpu_if hypctx))
    as [[c vip]|] eqn:A.
  - injection H as _ <-. simpl.
    destruct (add_nolock_inv _ _ _ Hinv A) as ([Ha Hn Hs] & _).
    split; simpl; try assumption. rewrite length_insert. assumption.
  - injection H as _ <-. assumption.
Qed.

Lemma inject_reach_inv (c : vgic_v3_cpu_if) : inject_reach c -> irqbuf_inv c.
Proof.
  induction 1 as [vmcr lr_num | dist hypctx hypctx' irq ty err _ IH H].
  - split; simpl; [reflexivity | lia | left; reflexivity].
  - eapply inject_inv; eassumption.
Qed.

Lemma pending_length (c : vgic_v3_cpu_if) :
  (irqbuf_num c <= length (irqbuf c))%nat ->
  length (pending c) = irqbuf_num c.
Proof. intros H. unfold pending. rewrite length_take. lia. Qed.

(** C1.  After [vgic_v3_cpuinit] and any sequence of calls of
    [vgic_v3_inject_irq], the buffer holds [irqbuf_num] entries, at most
    [irqbuf_size], which is at most 1024; and a call that finds 1024 entries
    buffered returns the error 1 and leaves the whole vCPU state, buffer,
    count and capacity included, as it was. *)
Theorem irqbuf_capacity (c : vgic_v3_cpu_if) :
  inject_reach c ->
  length (pending c) = irqbuf_num c
  /\ (irqbuf_num c <= irqbuf_size c)%nat
  /\ (irqbuf_size c <= 1024)%nat
  /\ forall (dist : vgic_v3_dist) (hypctx : struct_hypctx) (irq : Z)
       (irqtype : vgic_v3_irqtype),
       vgic_cpu_if hypctx = c ->
       irqbuf_num c = 1024%nat ->
       GIC_LAST_SGI < irq ->
       vgic_v3_inject_irq dist hypctx irq irqtype = Ret (1, hypctx).
Proof.
  intros Hr. destruct (inject_reach_inv c Hr) as [Ha Hn Hs].
  pose proof (irqbuf_sizes_max _ Hs) as Hmax.
  repeat split; try lia.
  - apply pending_length. lia.
  - intros dist hypctx irq ty Hc Hfull Hirq. unfold vgic_v3_inject_irq.
    assert (G : (irq >? GIC_LAST_SGI) = true) by (apply Z.gtb_lt; lia).
    rewrite G. cbn [negb].
    destruct ((irq >=? nirqs dist)
              || (irqtype_val ty >=? irqtype_val VGIC_IRQ_INVALID));
      [reflexivity|].
    rewrite Hc. unfold vgic_v3_irqbuf_add_nolock.
    assert (E : irqbuf_size c = 1024%nat) by lia.
    rewrite E, Hfull. reflexivity.
Qed.

Lemma inject_repeat_reach (dist : vgic_v3_dist) (irq : Z)
    (irqtype : vgic_v3_irqtype) (n : nat) :
  forall hypctx : struct_hypctx,
    inject_reach (vgic_cpu_if hypctx) ->
    inject_reach (vgic_cpu_if (inject_repeat dist irq irqtype n hypctx)).
Proof.
  induction n as [|n IH]; intros hypctx Hr; simpl; [assumption|].
  destruct (vgic_v3_inject_irq dist hypctx irq irqtype) as [[err h']|] eqn:E;
    [|assumption].
  apply IH. eapply reach_inject; eassumption.
Qed.

Lemma irqbuf_capacity_witness :
  irqbuf_num (vgic_cpu_if ex_hypctx_full) = 1024%nat
  /\ irqbuf_size (vgic_cpu_if ex_hypctx_full) = 1024%nat
  /\ vgic_v3_inject_irq ex_dist ex_hypctx_full 41 VGIC_IRQ_VIRTIO
     = Ret (1, ex_hypctx_full).
Proof.
  assert (Hn : irqbuf_num (vgic_cpu_if ex_hypctx_full) = 1024%nat)
    by (vm_compute; reflexivity).
  assert (Hs : irqbuf_size (vgic_cpu_if ex_hypctx_full) = 1024%nat)
    by (vm_compute; reflexivity).
  split; [exact Hn | split; [exact Hs |]].
  apply (irqbuf_capacity (vgic_cpu_if ex_hypctx_full)).
  - apply inject_repeat_reach. apply reach_cpuinit.
  - reflexivity.
  - exact Hn.
  - reflexivity.
Defined.

(** Below the maximum a well-formed request is accepted and appended. *)
Lemma inject_appends (dist : vgic_v3_dist) (hypctx : struct_hypctx) (irq : Z)
    (irqtype : vgic_v3_irqtype) :
  inject_reach (vgic_cpu_if hypctx) ->
  (irqbuf_num (vgic_cpu_if hypctx) < 1024)%nat ->
  GIC_LAST_SGI < irq < nirqs dist ->
  irqtype <> VGIC_IRQ_INVALID ->
  exists (hypctx' : struct_hypctx) (vip : vgic_v3_irq),
    vgic_v3_inject_irq dist hypctx irq irqtype = Ret (0, hypctx')
    /\ pending (vgic_cpu_if hypctx') = pending (vgic_cpu_if hypctx) ++ [vip]
    /\ vip_irq vip = irq /\ vip_irqtype vip = irqtype.
Proof.
  intros Hr Hlt Hirq Hty. pose proof (inject_reach_inv _ Hr) as Hinv.
  destruct Hinv as [Ha Hn Hs]. pose proof (irqbuf_sizes_max _ Hs) as Hmax.
  unfold vgic_v3_inject_irq.
  assert (G : (irq >? GIC_LAST_SGI) = true) by (apply Z.gtb_lt; lia).
  assert (G1 : (irq >=? nirqs dist) = false) by lia.
  assert (G2 : (irqtype_val irqtype >=? irqtype_val VGIC_IRQ_INVALID) = false)
    by (destruct irqtype; try reflexivity; congruence).
  rewrite G, G1, G2. cbn [negb orb].
  destruct (vgic_v3_irqbuf_add_nolock (vgic_cpu_if hypctx))
    as [[c vip]|] eqn:A.
  - destruct (add_nolock_inv _ _ _ (mk_irqbuf_inv _ Ha Hn Hs) A)
      as ([Ha' Hn' Hs'] & -> & Hnum & Htake & _).
    match goal with |- context [<[_ := ?e]> _] => set (entry := e) end.
    eexists _, entry. split; [reflexivity|].
    unfold pending. cbn [set_cpu_if set_irqbuf vgic_cpu_if irqbuf irqbuf_num].
    rewrite Hnum. split; [|split; reflexivity].
    assert (Hl : <[irqbuf_num (vgic_cpu_if hypctx) := entry]> (irqbuf c)
                 !! irqbuf_num (vgic_cpu_if hypctx) = Some entry)
      by (apply list_lookup_insert_eq; lia).
    rewrite (take_S_r _ _ _ Hl), take_insert_ge by lia.
    rewrite Htake. reflexivity.
  - exfalso. unfold vgic_v3_irqbuf_add_nolock in A.
    destruct (irqbuf_num (vgic_cpu_if hypctx)
              =? irqbuf_size (vgic_cpu_if hypctx))%nat eqn:E;
      [|discriminate].
    apply Nat.eqb_eq in E.
    destruct (IRQBUF_SIZE_MAX
              <? Nat.shiftl (irqbuf_size (vgic_cpu_if hypctx)) 1)%nat eqn:F;
      [|discriminate].
    revert F Hlt. rewrite E. clear -Hs. unfold irqbuf_sizes in Hs. simpl in Hs.
    destruct Hs as [<-|[<-|[<-|[<-|[<-|[<-|[]]]]]]]; vm_compute;
      intros; try discriminate; lia.
Qed.

(** ** Malformed requests and software-generated interrupts *)

(** C10.  An injection of a software-generated interrupt (ID 0..15) fails
    the assertion [irq > GIC_LAST_SGI] at the head of [vgic_v3_inject_irq]:
    the call does not return, neither with success nor with the error of a
    malformed request, and no entry is added; this although the ID is below
    the interrupt count of the Distributor. *)
Theorem inject_sgi_asserts (dist : vgic_v3_dist) (hypctx : struct_hypctx)
    (irq : Z) (irqtype : vgic_v3_irqtype) :
  irq <= GIC_LAST_SGI ->
  GIC_LAST_SGI < nirqs dist ->
  vgic_v3_inject_irq dist hypctx irq irqtype = Halt KASSERT_failed
  /\ (irq >=? nirqs dist) = false
  /\ forall (error : Z) (hypctx' : struct_hypctx),
       vgic_v3_inject_irq dist hypctx irq irqtype <> Ret (error, hypctx').
Proof.
  intros Hsgi Hn. unfold vgic_v3_inject_irq.
  assert (G : (irq >? GIC_LAST_SGI) = false) by lia.
  rewrite G. cbn [negb]. repeat split; [lia | discriminate].
Qed.

Lemma inject_sgi_asserts_witness :
  vgic_v3_inject_irq ex_dist ex_hypctx 7 VGIC_IRQ_MISC = Halt KASSERT_failed
  /\ (7 >=? nirqs ex_dist) = false
  /\ forall (error : Z) (hypctx' : struct_hypctx),
       vgic_v3_inject_irq ex_dist ex_hypctx 7 VGIC_IRQ_MISC
       <> Ret (error, hypctx').
Proof.
  apply (inject_sgi_asserts ex_dist ex_hypctx 7 VGIC_IRQ_MISC).
  - vm_compute. discriminate.
  - reflexivity.
Defined.

(** C9, as stated, fails for an injection of an invalid delivery type with a
    software-generated ID: the assertion comes first and the call does not
    return an error. *)
Lemma malformed_inject_counterexample :
  irqtype_val VGIC_IRQ_INVALID >= irqtype_val VGIC_IRQ_INVALID
  /\ vgic_v3_inject_irq ex_dist ex_hypctx 3 VGIC_IRQ_INVALID
     = Halt KASSERT_failed
  /\ ~ exists error : Z,
         vgic_v3_inject_irq ex_dist ex_hypctx 3 VGIC_IRQ_INVALID
         = Ret (error, ex_hypctx).
Proof.
  split; [vm_compute; discriminate|]. split; [reflexivity|].
  intros [error H]. vm_compute in H. discriminate.
Qed.

(** C9, amended.  A call of [vgic_v3_inject_irq] whose ID is above the
    software-generated range and which is malformed (the ID is not below the
    interrupt count of the Distributor, or the delivery type is
    [VGIC_IRQ_INVALID]) returns the error 1 and the vCPU state it was given;
    so does a call of [vgic_v3_remove_irq] whose ID is not below the
    interrupt count.  The Distributor is an input of both functions and not
    a result: it cannot change. *)
Theorem malformed_request_rejected (dist : vgic_v3_dist)
    (hypctx : struct_hypctx) (irq : Z) (irqtype : vgic_v3_irqtype)
    (ignore_state : bool) :
  nirqs dist <= irq \/ irqtype = VGIC_IRQ_INVALID ->
  (GIC_LAST_SGI < irq ->
   vgic_v3_inject_irq dist hypctx irq irqtype = Ret (1, hypctx))
  /\ (nirqs dist <= irq ->
      vgic_v3_remove_irq dist hypctx irq ignore_state = (1, hypctx)).
Proof.
  intros Hbad. split.
  - intros Hirq. unfold vgic_v3_inject_irq.
    assert (G : (irq >? GIC_LAST_SGI) = true) by lia.
    rewrite G. cbn [negb].
    assert (B : (irq >=? nirqs dist)
                || (irqtype_val irqtype >=? irqtype_val VGIC_IRQ_INVALID)
                = true).
    { destruct Hbad as [H| ->].
      - apply orb_true_iff. left. lia.
      - apply orb_true_iff. right. reflexivity. }
    rewrite B. reflexivity.
  - intros Hirq. unfold vgic_v3_remove_irq.
    assert (G : (irq >=? nirqs dist) = true) by lia.
    rewrite G. reflexivity.
Qed.

Lemma malformed_request_rejected_witness :
  vgic_v3_inject_irq ex_dist ex_hypctx_full 100 VGIC_IRQ_INVALID
  = Ret (1, ex_hypctx_full)
  /\ vgic_v3_remove_irq ex_dist ex_hypctx_full 100 false
     = (1, ex_hypctx_full).
Proof.
  destruct (malformed_request_rejected ex_dist ex_hypctx_full 100
              VGIC_IRQ_INVALID false) as [H1 H2].
  - right. reflexivity.
  - split; [apply H1; reflexivity | apply H2; vm_compute; discriminate].
Defined.

(** ** Routing *)

(** The two cases of C6 that hold: a private interrupt, and any interrupt
    while affinity routing is disabled, target the vCPU. *)
Lemma int_target_private (irq : Z) (dist : vgic_v3_dist)
    (redist : vgic_v3_redist) :
  irq <= GIC_LAST_PPI -> vgic_v3_int_target irq dist redist = true.
Proof.
  intros H. unfold vgic_v3_int_target.
  assert (G : (irq <=? GIC_LAST_PPI) = true) by lia. rewrite G. reflexivity.
Qed.

Lemma int_target_no_affinity_routing (irq : Z) (dist : vgic_v3_dist)
    (redist : vgic_v3_redist) :
  aff_routing_en dist = false -> vgic_v3_int_target irq dist redist = true.
Proof.
  intros H. unfold vgic_v3_int_target. rewrite H.
  destruct (irq <=? GIC_LAST_PPI); reflexivity.
Qed.

(** C6 on the code: with affinity routing enabled and SPI 32 routed to the
    affinity 0.0.0.1 (no 1-of-N), the vCPU of affinity 0.0.0.0 is reported
    as a target: the test is [(irouter & aff) == aff], which holds whenever
    the bits of the vCPU's affinity are among those of the routing register,
    and always for the affinity 0. *)
Theorem int_target_affinity_not_exact :
  GIC_LAST_PPI < 32
  /\ aff_routing_en ex_dist = true
  /\ Z.land (rd (gicd_irouter ex_dist) 32) GICD_IROUTER_IRM = 0
  /\ irouter_affinity (rd (gicd_irouter ex_dist) 32) = 1
  /\ redist_affinity ex_redist = 0
  /\ vgic_v3_int_target 32 ex_dist ex_redist = true.
Proof. vm_compute. repeat split; reflexivity. Qed.

(** In general the last case of [vgic_v3_int_target] is a test for
    inclusion of bits. *)
Lemma int_target_affinity_case (irq : Z) (dist : vgic_v3_dist)
    (redist : vgic_v3_redist) :
  GIC_LAST_PPI < irq ->
  aff_routing_en dist = true ->
  Z.land (rd (gicd_irouter dist) (Z.to_nat irq)) GICD_IROUTER_IRM = 0 ->
  vgic_v3_int_target irq dist redist
  = (Z.land (rd (gicd_irouter dist) (Z.to_nat irq)) (redist_affinity redist)
     =? redist_affinity redist).
Proof.
  intros Hirq Hare Hirm. unfold vgic_v3_int_target.
  assert (G : (irq <=? GIC_LAST_PPI) = false) by lia.
  rewrite G, Hare. cbn [negb]. rewrite Hirm. cbn [truthy Z.eqb negb].
  fold (redist_affinity redist).
  destruct (_ =? _); reflexivity.
Qed.

(** Under 1-of-N routing the answer is the bit GICR_CTLR.DPG0 or
    GICR_CTLR.DPG1NS of the Redistributor, according to the group of the
    interrupt. *)
Lemma int_target_1_of_N_case (irq : Z) (dist : vgic_v3_dist)
    (redist : vgic_v3_redist) :
  GIC_LAST_PPI < irq ->
  aff_routing_en dist = true ->
  Z.land (rd (gicd_irouter dist) (Z.to_nat irq)) GICD_IROUTER_IRM <> 0 ->
  vgic_v3_int_target irq dist redist
  = if truthy (Z.land (rd (gicd_igroupr dist) (Z.to_nat (irq / 32)))
                 (bit32 (irq mod 32)))
    then truthy (Z.land (gicr_ctlr redist) GICR_CTLR_DPG1NS)
    else truthy (Z.land (gicr_ctlr redist) GICR_CTLR_DPG0).
Proof.
  intros Hirq Hare Hirm. unfold vgic_v3_int_target.
  assert (G : (irq <=? GIC_LAST_PPI) = false) by lia.
  assert (N : (irq / 32 =? 0) = false).
  { apply Z.eqb_neq. unfold GIC_LAST_PPI in Hirq.
    intros E. apply Z.div_small_iff in E; lia. }
  assert (T : truthy (Z.land (rd (gicd_irouter dist) (Z.to_nat irq))
                        GICD_IROUTER_IRM) = true).
  { unfold truthy. apply negb_true_iff, Z.eqb_neq. assumption. }
  rewrite G, Hare, N, T. cbn [negb].
  destruct (truthy (Z.land (rd (gicd_igroupr dist) (Z.to_nat (irq / 32))) _));
    reflexivity.
Qed.

(** ** Priority updates *)

(** C7 on the code.  [vgic_v3_irq_set_priority_vcpu] called for interrupt
    33 rewrites the priority of the pending list register that holds
    interrupt 40: its second loop tests the state of a list register and
    not the ID it holds.  And for a shared interrupt
    [vgic_v3_irq_set_priority] updates vCPU 0 and no other vCPU: the loop
    runs [for (i = 0; i < 1; i++)], under a TODO comment that asks for all
    vCPUs. *)
Theorem set_priority_defects :
  let lr := rd (ich_lr_el2 ex_cpu_if_prio) 0 in
  let lr' :=
    rd (ich_lr_el2 (vgic_v3_irq_set_priority_vcpu 33 0x10 ex_cpu_if_prio)) 0 in
  let hyp' := vgic_v3_irq_set_priority 40 0x10 ex_hyp 1 in
  (ICH_LR_EL2_VINTID lr = 40
   /\ lr_pending lr = true
   /\ lr_priority lr = 0x80
   /\ ICH_LR_EL2_VINTID lr' = 40
   /\ lr_priority lr' = 0x10)
  /\ map (fun h => vip_priority (buf_at (irqbuf (vgic_cpu_if h)) 0))
       (ctx hyp') = [0x10; 0x80].
Proof. vm_compute. repeat split; reflexivity. Qed.

(** ** Arbitration *)

Section Arbitration.

Variables (dist : vgic_v3_dist) (redist : vgic_v3_redist)
          (cpu_if : vgic_v3_cpu_if).

Lemma highest_inv_skip (i : nat) (max_idx : option nat) (mp : Z) :
  highest_inv dist redist cpu_if i max_idx mp ->
  candidate dist redist cpu_if i = false ->
  highest_inv dist redist cpu_if (S i) max_idx mp.
Proof.
  intros H Hc. destruct max_idx as [k|]; simpl in *.
  - destruct H as (Hk & Hck & Hmp & Hall). repeat split; try lia; auto.
    + destruct (Nat.eq_dec j i) as [->|]; [congruence|].
      apply Hall; [lia | assumption].
    + destruct (Nat.eq_dec j i) as [->|]; [congruence|].
      apply Hall; [lia | assumption].
  - intros j Hj. destruct (Nat.eq_dec j i) as [->|]; [assumption|].
    apply H. lia.
Qed.

(** One iteration of the loop. *)
Lemma highest_priority_for_step (n i : nat) (max_idx : option nat)
    (mp : Z) :
  highest_priority_for dist redist cpu_if (vpmr_of cpu_if) (S n) i max_idx mp
  = let continue :=
      highest_priority_for dist redist cpu_if (vpmr_of cpu_if) n (S i) in
    if candidate dist redist cpu_if i then
      match max_idx with
      | None => continue (Some i) (prio_at cpu_if i)
      | Some m =>
          if prio_at cpu_if i >? mp then continue (Some i) (prio_at cpu_if i)
          else if (prio_at cpu_if i =? mp)
                  && (type_at cpu_if i <? type_at cpu_if m)
          then continue (Some i) (prio_at cpu_if i)
          else continue max_idx mp
      end
    else continue max_idx mp.
Proof.
  cbn [highest_priority_for]. unfold candidate, prio_at, type_at.
  cbv zeta.
  destruct (vip_irq (buf_at (irqbuf cpu_if) i) =? IRQ_SCHEDULED);
    [reflexivity|].
  destruct (vgic_v3_group_enabled _ dist); [|reflexivity].
  destruct (vgic_v3_intid_enabled _ dist redist); [|reflexivity].
  destruct (vgic_v3_int_target _ dist redist); [|reflexivity].
  destruct (vip_priority (buf_at (irqbuf cpu_if) i) >=? (vpmr_of cpu_if));
    reflexivity.
Qed.

Lemma highest_priority_for_inv (n : nat) :
  forall (i : nat) (max_idx : option nat) (mp : Z),
    highest_inv dist redist cpu_if i max_idx mp ->
    exists mp' : Z,
      highest_inv dist redist cpu_if (i + n)
        (highest_priority_for dist redist cpu_if (vpmr_of cpu_if) n i max_idx
           mp)
        mp'.
Proof.
  induction n as [|n IH]; intros i max_idx mp Hinv.
  - exists mp. rewrite Nat.add_0_r. exact Hinv.
  - replace (i + S n)%nat with (S i + n)%nat by lia.
    rewrite highest_priority_for_step. cbv zeta.
    destruct (candidate dist redist cpu_if i) eqn:Hci;
      [|apply IH, highest_inv_skip; assumption].
    assert (Hnew : forall k : nat,
               (forall j : nat, (j < i)%nat ->
                  candidate dist redist cpu_if j = true ->
                  prio_at cpu_if j <= prio_at cpu_if i
                  /\ (prio_at cpu_if j = prio_at cpu_if i ->
                      type_at cpu_if i <= type_at cpu_if j)) ->
               highest_inv dist redist cpu_if (S i) (Some i)
                 (prio_at cpu_if i)).
    { intros _ Hall. simpl. repeat split; try lia; try assumption.
      - destruct (Nat.eq_dec j i) as [->|]; [lia|]. apply Hall; [lia|auto].
      - destruct (Nat.eq_dec j i) as [->|]; [lia|]. apply Hall; [lia|auto]. }
    destruct max_idx as [k|].
    + destruct Hinv as (Hk & Hck & -> & Hall).
      destruct (prio_at cpu_if i >? prio_at cpu_if k) eqn:Hgt.
      { apply IH, (Hnew 0%nat). intros j Hj Hcj.
        destruct (Hall j Hj Hcj). lia. }
      destruct ((prio_at cpu_if i =? prio_at cpu_if k)
                && (type_at cpu_if i <? type_at cpu_if k))
        eqn:Htie.
      { apply andb_true_iff in Htie as [He Ht].
        apply IH, (Hnew 0%nat). intros j Hj Hcj.
        destruct (Hall j Hj Hcj). lia. }
      apply IH. simpl. repeat split; try lia; try assumption.
      * destruct (Nat.eq_dec j i) as [->|]; [lia|]. apply Hall; [lia|auto].
      * destruct (Nat.eq_dec j i) as [->|].
        -- intros He. apply andb_false_iff in Htie as [Hne|Hge]; lia.
        -- apply Hall; [lia|auto].
    + apply IH, (Hnew 0%nat). intros j Hj Hcj.
      rewrite (Hinv j Hj) in Hcj. discriminate.
Qed.

(** What [vgic_v3_highest_priority_pending] returns: NULL exactly when
    the buffer holds no candidate; otherwise a candidate with the largest
    priority value and, among the candidates with that priority value,
    the smallest delivery type. *)
Lemma highest_priority_pending_spec :
  match vgic_v3_highest_priority_pending cpu_if dist redist with
  | None =>
      forall j : nat, (j < irqbuf_num cpu_if)%nat ->
        candidate dist redist cpu_if j = false
  | Some k =>
      (k < irqbuf_num cpu_if)%nat /\ candidate dist redist cpu_if k = true
      /\ forall j : nat, (j < irqbuf_num cpu_if)%nat ->
           candidate dist redist cpu_if j = true ->
           prio_at cpu_if j <= prio_at cpu_if k
           /\ (prio_at cpu_if j = prio_at cpu_if k ->
               type_at cpu_if k <= type_at cpu_if j)
  end.
Proof.
  unfold vgic_v3_highest_priority_pending. fold (vpmr_of cpu_if).
  destruct (highest_priority_for_inv (irqbuf_num cpu_if - 0) 0 None 0xff)
    as [mp' H].
  - simpl. intros j Hj. lia.
  - replace (0 + (irqbuf_num cpu_if - 0))%nat with (irqbuf_num cpu_if)
      in H by lia.
    destruct (highest_priority_for _ _ _ _ _ _ _ _) as [k|]; simpl in H.
    + destruct H as (Hk & Hck & _ & Hall). auto.
    + exact H.
Qed.

End Arbitration.


(** When the buffered interrupts outnumber the inactive list registers,
    [vgic_v3_sync_hwstate] ends in [panic("reshuffled")]. *)
Lemma sync_overflow_halts (dist : vgic_v3_dist) (hypctx : struct_hypctx) :
  (lr_free_of (vgic_cpu_if hypctx) < irqbuf_num (vgic_cpu_if hypctx))%nat ->
  vgic_v3_sync_hwstate dist hypctx = Halt panicked.
Proof.
  intros H. unfold vgic_v3_sync_hwstate. fold (lr_free_of (vgic_cpu_if hypctx)).
  destruct (irqbuf_num (vgic_cpu_if hypctx) =? 0)%nat eqn:E.
  - apply Nat.eqb_eq in E. lia.
  - destruct (irqbuf_num (vgic_cpu_if hypctx)
              <=? lr_free_of (vgic_cpu_if hypctx))%nat eqn:F; [|reflexivity].
    apply Nat.leb_le in F. lia.
Qed.

(** C3 on the code.  With A (priority value 0x10) and B (priority value
    0x20) buffered, both of them candidates, and one list register
    inactive, [vgic_v3_highest_priority_pending] selects B, the entry with
    the larger priority value; and [vgic_v3_sync_hwstate] does not reach
    the arbitration: it halts in [panic("reshuffled")]. *)
Theorem priority_order_defect :
  lr_free_of ex_cpu_if_order = 1%nat
  /\ irqbuf_num ex_cpu_if_order = 2%nat
  /\ candidate ex_dist ex_redist ex_cpu_if_order 0 = true
  /\ candidate ex_dist ex_redist ex_cpu_if_order 1 = true
  /\ prio_at ex_cpu_if_order 0 = 0x10
  /\ prio_at ex_cpu_if_order 1 = 0x20
  /\ vgic_v3_highest_priority_pending ex_cpu_if_order ex_dist ex_redist
     = Some 1%nat
  /\ vgic_v3_sync_hwstate ex_dist
       (mk_hypctx ex_redist ex_cpu_if_order ex_vtimer_cpu)
     = Halt panicked.
Proof. vm_compute. repeat split; reflexivity. Qed.

(** On every state the selected entry has the largest priority value among
    the candidates. *)
Lemma highest_priority_is_largest_value (dist : vgic_v3_dist)
    (redist : vgic_v3_redist) (cpu_if : vgic_v3_cpu_if) (k j : nat) :
  vgic_v3_highest_priority_pending cpu_if dist redist = Some k ->
  (j < irqbuf_num cpu_if)%nat ->
  candidate dist redist cpu_if j = true ->
  prio_at cpu_if j <= prio_at cpu_if k.
Proof.
  intros Hk Hj Hc.
  pose proof (highest_priority_pending_spec dist redist cpu_if) as H.
  rewrite Hk in H. destruct H as (_ & _ & Hall).
  apply (Hall j Hj Hc).
Qed.

(** C4 on the code.  In the scenario the arbitration of
    [vgic_v3_highest_priority_pending] selects B, the timer-clock entry, as
    the claim has it; but [vgic_v3_sync_hwstate], with two entries buffered
    and one list register inactive, halts in [panic("reshuffled")] before
    it arbitrates: B is not placed. *)
Theorem tie_break_scenario_halts :
  lr_free_of ex_cpu_if_tie = 1%nat
  /\ irqbuf_num ex_cpu_if_tie = 2%nat
  /\ candidate ex_dist ex_redist ex_cpu_if_tie 0 = true
  /\ candidate ex_dist ex_redist ex_cpu_if_tie 1 = true
  /\ vgic_v3_highest_priority_pending ex_cpu_if_tie ex_dist ex_redist
     = Some 1%nat
  /\ vgic_v3_sync_hwstate ex_dist ex_hypctx_tie = Halt panicked.
Proof. vm_compute. repeat split; reflexivity. Qed.

(** The tie-break of the arbitration, on every state.  Let the entries [i]
    and [j] of the buffer be candidates of equal priority, [i] of the
    smaller delivery type.  Then [vgic_v3_highest_priority_pending] selects
    an entry, which is not [j], and which is [i] when the buffer holds no
    other candidate. *)
Lemma arbitration_tie_break (dist : vgic_v3_dist) (redist : vgic_v3_redist)
    (cpu_if : vgic_v3_cpu_if) (i j : nat) :
  (i < irqbuf_num cpu_if)%nat ->
  (j < irqbuf_num cpu_if)%nat ->
  candidate dist redist cpu_if i = true ->
  candidate dist redist cpu_if j = true ->
  prio_at cpu_if i = prio_at cpu_if j ->
  type_at cpu_if i < type_at cpu_if j ->
  exists k : nat,
    vgic_v3_highest_priority_pending cpu_if dist redist = Some k
    /\ k <> j
    /\ ((forall m : nat, (m < irqbuf_num cpu_if)%nat ->
           candidate dist redist cpu_if m = true -> m = i \/ m = j) ->
        k = i).
Proof.
  intros Hi Hj Hci Hcj Hp Ht.
  pose proof (highest_priority_pending_spec dist redist cpu_if) as H.
  destruct (vgic_v3_highest_priority_pending cpu_if dist redist) as [k|].
  - destruct H as (Hk & Hck & Hall). exists k. split; [reflexivity|].
    destruct (Hall i Hi Hci) as [Hle Htie].
    destruct (Hall j Hj Hcj) as [Hle' Htie'].
    split.
    + intros ->. lia.
    + intros Honly. destruct (Honly k Hk Hck) as [->| ->];
        [reflexivity | lia].
  - rewrite (H i Hi) in Hci. discriminate.
Qed.

(** ** The pass over the buffer when everything fits *)

Section ToLr.

Variables (dist : vgic_v3_dist) (redist : vgic_v3_redist).

Lemma fill_lrs_nil (lrs : list Z) : fill_lrs lrs [] = lrs.
Proof. destruct lrs; reflexivity. Qed.

Lemma fill_lrs_busy (lr : Z) (lrs : list Z) (vs : list vgic_v3_irq) :
  lr_inactive lr = false -> fill_lrs (lr :: lrs) vs = lr :: fill_lrs lrs vs.
Proof.
  intros H. destruct vs; simpl; [rewrite fill_lrs_nil; reflexivity|].
  rewrite H. reflexivity.
Qed.

Lemma fill_lrs_length (lrs : list Z) :
  forall vs : list vgic_v3_irq, length (fill_lrs lrs vs) = length lrs.
Proof.
  induction lrs as [|lr lrs IH]; intros vs; [reflexivity|].
  destruct vs as [|v vs]; [reflexivity|]. simpl.
  destruct (lr_inactive lr); simpl; rewrite IH; reflexivity.
Qed.

(** One iteration of the two search loops. *)
Lemma next_enabled_for_step (b : list vgic_v3_irq)
    (cpu_if : vgic_v3_cpu_if) (n i : nat) :
  next_enabled_for b dist redist cpu_if (S n) i
  = if schedulable dist redist (ich_vmcr_el2 cpu_if) (buf_at b i) then i
    else next_enabled_for b dist redist cpu_if n (S i).
Proof.
  cbn [next_enabled_for]. unfold schedulable, vmcr_group_on.
  destruct (truthy (vip_enabled (buf_at b i))); [|reflexivity].
  cbn [negb andb].
  destruct ((_ =? 1) && _); [reflexivity|].
  destruct ((_ =? 0) && _); reflexivity.
Qed.

Lemma next_enabled_for_spec (b : list vgic_v3_irq)
    (cpu_if : vgic_v3_cpu_if) (n : nat) :
  forall i : nat,
    let r := next_enabled_for b dist redist cpu_if n i in
    (i <= r <= i + n)%nat
    /\ (forall j : nat, (i <= j < r)%nat ->
          schedulable dist redist (ich_vmcr_el2 cpu_if) (buf_at b j) = false)
    /\ ((r < i + n)%nat ->
        schedulable dist redist (ich_vmcr_el2 cpu_if) (buf_at b r) = true).
Proof.
  induction n as [|n IH]; intros i.
  - simpl. repeat split; try lia.
  - cbv zeta. rewrite next_enabled_for_step.
    destruct (schedulable dist redist (ich_vmcr_el2 cpu_if) (buf_at b i)) eqn:E.
    + repeat split; try lia. intros _. exact E.
    + destruct (IH (S i)) as (H1 & H2 & H3). repeat split; try lia.
      * intros j Hj. destruct (Nat.eq_dec j i) as [->|]; [exact E|].
        apply H2. lia.
      * intros Hr. apply H3. lia.
Qed.

Lemma next_inactive_for_spec (lrs : list Z) (n : nat) :
  forall i : nat,
    let r := next_inactive_for lrs n i in
    (i <= r <= i + n)%nat
    /\ (forall j : nat, (i <= j < r)%nat -> lr_inactive (rd lrs j) = false)
    /\ ((r < i + n)%nat -> lr_inactive (rd lrs r) = true).
Proof.
  induction n as [|n IH]; intros i.
  - simpl. repeat split; try lia.
  - cbv zeta. cbn [next_inactive_for].
    destruct (lr_inactive (rd lrs i)) eqn:E.
    + repeat split; try lia. intros _. exact E.
    + destruct (IH (S i)) as (H1 & H2 & H3). repeat split; try lia.
      * intros j Hj. destruct (Nat.eq_dec j i) as [->|]; [exact E|].
        apply H2. lia.
      * intros Hr. apply H3. lia.
Qed.

End ToLr.

(** Arrays cut at an index. *)
Section Slices.

Context {A : Type}.
Implicit Types (l : list A) (k m : nat) (x d : A).

Lemma slice_head l d k m :
  (k < m)%nat -> (m <= length l)%nat ->
  drop k (take m l) = nth k l d :: drop (S k) (take m l).
Proof.
  intros Hk Hm. apply drop_S. rewrite lookup_take_lt by lia.
  destruct (lookup_lt_is_Some_2 l k) as [y Hy]; [lia|].
  rewrite Hy. f_equal. symmetry. apply nth_lookup_Some. exact Hy.
Qed.

Lemma slice_insert l k m x :
  drop (S k) (take m (<[k := x]> l)) = drop (S k) (take m l).
Proof.
  rewrite take_insert. destruct (decide (k < m)%nat); [|reflexivity].
  apply drop_insert_lt. lia.
Qed.

Lemma take_S_insert l k x :
  (k < length l)%nat -> take (S k) (<[k := x]> l) = take k l ++ [x].
Proof.
  intros Hk.
  assert (H : <[k := x]> l !! k = Some x)
    by (apply list_lookup_insert_eq; exact Hk).
  rewrite (take_S_r _ _ _ H), take_insert_ge by lia. reflexivity.
Qed.

Lemma slices_join l k m :
  (k <= m)%nat -> take k l ++ drop k (take m l) ++ drop m l = l.
Proof.
  intros Hk. rewrite drop_take_drop by exact Hk. apply take_drop.
Qed.

Lemma slice_end l m : drop m (take m l) = [].
Proof. apply drop_ge. rewrite length_take. lia. Qed.

End Slices.

Section Pass.

Variables (dist : vgic_v3_dist) (redist : vgic_v3_redist).
Variables (vmcr : Z) (clk : bool) (lr_num size num : nat).

Local Abbreviation P := (placed dist redist vmcr clk).
Local Abbreviation M := (mark dist redist vmcr clk).

Lemma unplaced_filter_map (l : list vgic_v3_irq) :
  Forall (fun e => P e = false) l ->
  List.filter P l = [] /\ map M l = l.
Proof.
  induction 1 as [|e l He _ [IH1 IH2]]; [split; reflexivity|].
  simpl. rewrite He, IH1, IH2. unfold mark. rewrite He.
  split; reflexivity.
Qed.

Lemma filter_nil_unplaced (l : list vgic_v3_irq) :
  List.filter P l = [] -> Forall (fun e => P e = false) l.
Proof.
  induction l as [|e l IH]; intros H; [constructor|].
  simpl in H. destruct (P e) eqn:E; [discriminate|].
  constructor; [exact E | apply IH, H].
Qed.

(** Entries that are not placed are stepped over. *)
Lemma skip_unplaced (b : list vgic_v3_irq) (k : nat) :
  forall i : nat,
    (i + k <= num)%nat -> (num <= length b)%nat ->
    (forall j : nat, (i <= j < i + k)%nat -> P (buf_at b j) = false) ->
    List.filter P (drop i (take num b))
    = List.filter P (drop (i + k) (take num b))
    /\ take i b ++ map M (drop i (take num b))
       = take (i + k) b ++ map M (drop (i + k) (take num b)).
Proof.
  induction k as [|k IH]; intros i Hi Hn Hall.
  - rewrite Nat.add_0_r. split; reflexivity.
  - destruct (IH (S i)) as [IH1 IH2]; [lia | lia | intros; apply Hall; lia |].
    replace (i + S k)%nat with (S i + k)%nat by lia.
    rewrite <- IH1, <- IH2.
    rewrite (slice_head b irq_zero i num) by lia.
    fold (buf_at b i). simpl. unfold mark.
    rewrite (Hall i) by lia.
    assert (Hl : b !! i = Some (buf_at b i)).
    { destruct (lookup_lt_is_Some_2 b i) as [y Hy]; [lia|].
      rewrite (buf_at_lookup _ _ _ Hy). exact Hy. }
    rewrite (take_S_r _ _ _ Hl), <- app_assoc. split; reflexivity.
Qed.

(** List registers that are not inactive are stepped over. *)
Lemma skip_busy (lrs : list Z) (vs : list vgic_v3_irq) (k : nat) :
  forall li : nat,
    (li + k <= lr_num)%nat -> (lr_num <= length lrs)%nat ->
    (forall j : nat, (li <= j < li + k)%nat ->
       lr_inactive (rd lrs j) = false) ->
    List.filter lr_inactive (drop li (take lr_num lrs))
    = List.filter lr_inactive (drop (li + k) (take lr_num lrs))
    /\ take li lrs ++ fill_lrs (drop li (take lr_num lrs)) vs
       = take (li + k) lrs ++ fill_lrs (drop (li + k) (take lr_num lrs)) vs.
Proof.
  induction k as [|k IH]; intros li Hi Hn Hall.
  - rewrite Nat.add_0_r. split; reflexivity.
  - destruct (IH (S li)) as [IH1 IH2];
      [lia | lia | intros; apply Hall; lia |].
    replace (li + S k)%nat with (S li + k)%nat by lia.
    rewrite <- IH1, <- IH2.
    rewrite (slice_head lrs 0 li lr_num) by lia.
    fold (rd lrs li). rewrite fill_lrs_busy by (apply Hall; lia).
    simpl. rewrite (Hall li) by lia.
    assert (Hl : lrs !! li = Some (rd lrs li)).
    { destruct (lookup_lt_is_Some_2 lrs li) as [y Hy]; [lia|].
      rewrite (rd_lookup _ _ _ Hy). exact Hy. }
    rewrite (take_S_r _ _ _ Hl), <- app_assoc. split; reflexivity.
Qed.

Lemma final_nothing_left (lrs : list Z) (b : list vgic_v3_irq)
    (i li : nat) :
  (i <= num)%nat -> (li <= lr_num)%nat ->
  List.filter P (drop i (take num b)) = [] ->
  final_lrs dist redist vmcr clk lr_num num lrs b i li = lrs
  /\ final_irqbuf dist redist vmcr clk num b i = b.
Proof.
  intros Hi Hli Hnil. unfold final_lrs, final_irqbuf.
  rewrite Hnil, fill_lrs_nil.
  destruct (unplaced_filter_map _ (filter_nil_unplaced _ Hnil)) as [_ ->].
  split; apply slices_join; assumption.
Qed.

Lemma placed_head (b : list vgic_v3_irq) (r : nat) :
  (r < num)%nat -> (num <= length b)%nat ->
  drop r (take num b) = buf_at b r :: drop (S r) (take num b)
  /\ take (S r) b = take r b ++ [buf_at b r].
Proof.
  intros Hr Hb. split; [apply slice_head; lia|].
  apply take_S_r.
  destruct (lookup_lt_is_Some_2 b r) as [y Hy]; [lia|].
  rewrite (buf_at_lookup _ _ _ Hy). exact Hy.
Qed.

(** The loop of [vgic_v3_irqbuf_to_lr], entered with as many inactive list
    registers ahead as there are entries to place. *)
Lemma irqbuf_to_lr_loop_spec (n : nat) :
  forall (lrs : list Z) (b : list vgic_v3_irq) (i li : nat),
    (num - i <= n)%nat -> (i <= num)%nat -> (num <= length b)%nat ->
    (li <= lr_num)%nat -> (lr_num <= length lrs)%nat ->
    (length (List.filter P (drop i (take num b)))
     <= length (List.filter lr_inactive (drop li (take lr_num lrs))))%nat ->
    irqbuf_to_lr_loop dist redist clk n
      (mk_cpu_if vmcr lrs lr_num b size num) i li
    = mk_cpu_if vmcr (final_lrs dist redist vmcr clk lr_num num lrs b i li)
        lr_num (final_irqbuf dist redist vmcr clk num b i)
        size num.
Proof.
  induction n as [|n IH]; intros lrs b i li Hn Hi Hb Hli Hl Hcnt.
  - assert (i = num) by lia. subst i. simpl.
    destruct (final_nothing_left lrs b num li) as [-> ->]; try lia;
      [rewrite slice_end; reflexivity | reflexivity].
  - cbn [irqbuf_to_lr_loop]. unfold vgic_v3_irqbuf_next_enabled.
    cbn [irqbuf irqbuf_num ich_lr_el2 ich_lr_num].
    destruct (next_enabled_for_spec dist redist b
                (mk_cpu_if vmcr lrs lr_num b size num) (num - i) i)
      as (Hr1 & Hr2 & Hr3).
    cbn [ich_vmcr_el2] in Hr2, Hr3.
    set (r := next_enabled_for b dist redist _ (num - i) i) in *.
    destruct (skip_unplaced b (r - i) i) as [Sf Sm]; [lia | lia | |].
    { intros j Hj. unfold placed. rewrite Hr2 by lia. reflexivity. }
    replace (i + (r - i))%nat with r in Sf, Sm by lia.
    destruct (r <? num)%nat eqn:Er.
    2:{ apply Nat.ltb_ge in Er. assert (Hrn : r = num) by lia.
        destruct (final_nothing_left lrs b i li) as [-> ->]; try lia;
          [|reflexivity].
        rewrite Sf, Hrn, slice_end. reflexivity. }
    apply Nat.ltb_lt in Er. assert (Hs : (r < i + (num - i))%nat) by lia.
    specialize (Hr3 Hs). clear Hs.
    unfold vgic_v3_lr_next_inactive.
    destruct (next_inactive_for_spec lrs (lr_num - li) li)
      as (Hl1 & Hl2 & Hl3).
    set (l := next_inactive_for lrs (lr_num - li) li) in *.
    destruct (skip_busy lrs (List.filter P (drop i (take num b))) (l - li) li)
      as [Bf Bm]; [lia | lia | intros j Hj; apply Hl2; lia |].
    replace (li + (l - li))%nat with l in Bf, Bm by lia.
    destruct (l <? lr_num)%nat eqn:El.
    2:{ apply Nat.ltb_ge in El. assert (Hln : l = lr_num) by lia.
        rewrite Bf, Hln, slice_end in Hcnt. simpl in Hcnt.
        destruct (final_nothing_left lrs b i li) as [-> ->]; try lia;
          [|reflexivity].
        apply length_zero_iff_nil. lia. }
    apply Nat.ltb_lt in El. assert (Hs : (l < li + (lr_num - li))%nat) by lia.
    specialize (Hl3 Hs). clear Hs.
    destruct (placed_head b r Er Hb) as [Hd Ht].
    assert (Hdl : drop l (take lr_num lrs)
                  = rd lrs l :: drop (S l) (take lr_num lrs))
      by (apply slice_head; lia).
    set (e := buf_at b r) in *.
    rewrite Hd in Sf, Sm. simpl in Sf, Sm.
    fold (held_back clk e).
    assert (HP : P e = negb (held_back clk e))
      by (unfold placed; rewrite Hr3; reflexivity).
    rewrite HP in Sf. unfold mark in Sm at 2. rewrite HP in Sm.
    destruct (held_back clk e) eqn:Eh; simpl in Sf, Sm.
    + rewrite IH; try lia.
      * unfold final_lrs, final_irqbuf. rewrite Ht.
        rewrite (app_assoc (take i b)), Sm.
        rewrite (app_assoc (take li lrs)), Bm, Sf, <- !app_assoc.
        reflexivity.
      * rewrite <- Sf, <- Bf. exact Hcnt.
    + unfold set_irqbuf, set_lrs.
      cbn [ich_vmcr_el2 ich_lr_el2 ich_lr_num irqbuf irqbuf_size irqbuf_num].
      rewrite Sf, Bf, Hdl in Hcnt. simpl in Hcnt. rewrite Hl3 in Hcnt.
      simpl in Hcnt.
      rewrite IH; try lia; try (rewrite length_insert; lia).
      * unfold final_lrs, final_irqbuf.
        rewrite !slice_insert, !drop_insert_lt by lia.
        rewrite !take_S_insert by lia.
        rewrite (app_assoc (take i b)), Sm.
        rewrite (app_assoc (take li lrs)), Bm, Sf, Hdl. simpl.
        rewrite Hl3, <- !app_assoc. reflexivity.
      * rewrite !slice_insert. lia.
Qed.

End Pass.

Lemma fill_lrs_busy_kept (lrs : list Z) :
  forall (vs : list vgic_v3_irq) (i : nat) (lr : Z),
    lrs !! i = Some lr -> lr_inactive lr = false ->
    fill_lrs lrs vs !! i = Some lr.
Proof.
  induction lrs as [|x lrs IH]; intros vs i lr Hi Hlr; [discriminate|].
  destruct vs as [|v vs]; [exact Hi|]. simpl.
  destruct i as [|i]; simpl in Hi.
  - injection Hi as ->. rewrite Hlr. reflexivity.
  - destruct (lr_inactive x); simpl; eapply IH; eassumption.
Qed.


(** The two scans of the list registers. *)
Lemma lr_free_for_spec (lrs : list Z) (n : nat) :
  forall i lr_free : nat,
    (i + n <= length lrs)%nat ->
    lr_free_for lrs n i lr_free
    = (lr_free + length (List.filter lr_inactive (take n (drop i lrs))))%nat.
Proof.
  induction n as [|n IH]; intros i acc Hi; simpl; [lia|].
  destruct (lookup_lt_is_Some_2 lrs i) as [x Hx]; [lia|].
  rewrite (rd_lookup _ _ _ Hx), (drop_S _ _ _ Hx). simpl.
  destruct (lr_inactive x); rewrite IH by lia; simpl; lia.
Qed.

Lemma lr_free_of_spec (c : vgic_v3_cpu_if) :
  (ich_lr_num c <= length (ich_lr_el2 c))%nat ->
  lr_free_of c
  = length (List.filter lr_inactive (take (ich_lr_num c) (ich_lr_el2 c))).
Proof.
  intros H. unfold lr_free_of. rewrite lr_free_for_spec by lia.
  rewrite drop_0. reflexivity.
Qed.

Lemma clk_injected_for_spec (lrs : list Z) (n : nat) :
  forall i : nat,
    clk_injected_for lrs n i = true
    <-> exists j : nat, (i <= j < i + n)%nat /\ holds_timer (rd lrs j) = true.
Proof.
  induction n as [|n IH]; intros i; simpl.
  - split; [discriminate | intros (j & Hj & _); lia].
  - fold (holds_timer (rd lrs i)).
    destruct (holds_timer (rd lrs i)) eqn:E.
    + split; [|reflexivity]. intros _. exists i. split; [lia | exact E].
    + rewrite IH. split; intros (j & Hj & Ht).
      * exists j. split; [lia | exact Ht].
      * exists j. split; [|exact Ht].
        destruct (Nat.eq_dec j i) as [->|]; [congruence | lia].
Qed.

Section Fits.

Variables (dist : vgic_v3_dist) (hypctx : struct_hypctx).

Let c := vgic_cpu_if hypctx.
Let redist := vgic_redist hypctx.

Let is_placed := placed dist redist (ich_vmcr_el2 c) (clk_injected_of c).

Lemma marked_removed (l : list vgic_v3_irq) :
  Forall (fun e => vip_irq e <> IRQ_SCHEDULED) l ->
  List.filter (kept IRQ_SCHEDULED)
    (map (mark dist redist (ich_vmcr_el2 c) (clk_injected_of c)) l)
  = List.filter (fun e => negb (is_placed e)) l.
Proof.
  induction 1 as [|e l He _ IH]; [reflexivity|].
  simpl. rewrite IH. unfold mark. fold (is_placed e).
  destruct (is_placed e); simpl.
  - reflexivity.
  - unfold kept. assert (G : (vip_irq e =? IRQ_SCHEDULED) = false) by lia.
    rewrite G. reflexivity.
Qed.

(** The state in which [vgic_v3_irqbuf_to_lr] leaves its loop: the list
    registers are filled, the placed entries are marked. *)
Lemma irqbuf_to_lr_marks :
  wf_cpu_if c ->
  (irqbuf_num c <= lr_free_of c)%nat ->
  let c1 :=
    irqbuf_to_lr_loop dist redist (clk_injected_of c) (irqbuf_num c) c 0 0 in
  pending c1
  = map (mark dist redist (ich_vmcr_el2 c) (clk_injected_of c)) (pending c)
  /\ ich_lr_el2 c1
     = fill_lrs (take (ich_lr_num c) (ich_lr_el2 c))
         (List.filter is_placed (pending c))
       ++ drop (ich_lr_num c) (ich_lr_el2 c)
  /\ ich_vmcr_el2 c1 = ich_vmcr_el2 c
  /\ ich_lr_num c1 = ich_lr_num c
  /\ irqbuf_size c1 = irqbuf_size c
  /\ irqbuf_num c1 = irqbuf_num c
  /\ length (irqbuf c1) = length (irqbuf c).
Proof.
  intros [Hlr Hsz Hnum] Hfit c1.
  pose proof (irqbuf_to_lr_loop_spec dist redist (ich_vmcr_el2 c)
                (clk_injected_of c) (ich_lr_num c) (irqbuf_size c)
                (irqbuf_num c) (irqbuf_num c) (ich_lr_el2 c) (irqbuf c) 0 0)
    as Heq.
  rewrite cpu_if_eta in Heq. subst c1. rewrite Heq; try lia.
  - unfold pending, final_irqbuf, final_lrs.
    cbn [ich_vmcr_el2 ich_lr_el2 ich_lr_num irqbuf irqbuf_size irqbuf_num].
    rewrite !drop_0, !take_0. cbn [app].
    repeat split.
    + rewrite take_app_length'; [reflexivity|].
      rewrite length_map, length_take. lia.
    + rewrite !length_app, length_map, length_take, length_drop. lia.
  - rewrite !drop_0. rewrite lr_free_of_spec in Hfit by exact Hlr.
    etransitivity; [apply List.filter_length_le|].
    rewrite length_take. lia.
Qed.

(** When the buffered interrupts fit into the inactive list registers,
    [vgic_v3_sync_hwstate] returns; the list registers are those of the
    state above and the marked entries are gone from the buffer. *)
Lemma sync_fits :
  wf_cpu_if c ->
  (irqbuf_num c <= lr_free_of c)%nat ->
  Forall (fun e => vip_irq e <> IRQ_SCHEDULED) (pending c) ->
  exists c' : vgic_v3_cpu_if,
    vgic_v3_sync_hwstate dist hypctx = Ret (set_cpu_if hypctx c')
    /\ pending c' = List.filter (fun e => negb (is_placed e)) (pending c)
    /\ ich_lr_el2 c'
       = fill_lrs (take (ich_lr_num c) (ich_lr_el2 c))
           (List.filter is_placed (pending c))
         ++ drop (ich_lr_num c) (ich_lr_el2 c)
    /\ ich_vmcr_el2 c' = ich_vmcr_el2 c
    /\ ich_lr_num c' = ich_lr_num c
    /\ irqbuf_size c' = irqbuf_size c.
Proof.
  intros Hwf Hfit Hok. unfold vgic_v3_sync_hwstate. fold c.
  destruct (irqbuf_num c =? 0)%nat eqn:E.
  - apply Nat.eqb_eq in E. exists c.
    assert (Hp : pending c = []) by (unfold pending; rewrite E; reflexivity).
    rewrite Hp. simpl. rewrite fill_lrs_nil, take_drop.
    unfold set_cpu_if. subst c. rewrite hypctx_eta. repeat split.
  - fold (lr_free_of c).
    assert (F : (irqbuf_num c <=? lr_free_of c)%nat = true)
      by (apply Nat.leb_le; exact Hfit).
    rewrite F. eexists. split; [reflexivity|].
    unfold vgic_v3_irqbuf_to_lr. fold redist. fold (clk_injected_of c).
    destruct (irqbuf_to_lr_marks Hwf Hfit)
      as (Hp & Hl & Hv & Hn & Hs & Hm & Hlen).
    set (c1 := irqbuf_to_lr_loop dist redist (clk_injected_of c)
                 (irqbuf_num c) c 0 0) in *.
    destruct (remove_nolock_spec IRQ_SCHEDULED c1)
      as (Rp & Rv & Rl & Rn & Rs & _).
    { rewrite Hm, Hlen. destruct Hwf. lia. }
    rewrite Rp, Rv, Rl, Rn, Rs, Hp, Hl, Hv, Hn, Hs.
    rewrite marked_removed by exact Hok. repeat split.
Qed.

End Fits.




(** ** The guard against a second timer interrupt *)

Lemma is_clk_type (vip : vgic_v3_irq) :
  is_clk vip = true <-> vip_irqtype vip = VGIC_IRQ_CLK.
Proof.
  unfold is_clk. destruct (vip_irqtype vip); simpl; split;
    intros H; try reflexivity; discriminate.
Qed.

Lemma held_back_not_placed (dist : vgic_v3_dist) (redist : vgic_v3_redist)
    (vmcr : Z) (vip : vgic_v3_irq) :
  is_clk vip = true -> placed dist redist vmcr true vip = false.
Proof.
  intros H. unfold placed, held_back. fold (is_clk vip). rewrite H.
  apply andb_false_r.
Qed.

Lemma clk_not_placed_filter (dist : vgic_v3_dist) (redist : vgic_v3_redist)
    (vmcr : Z) (l : list vgic_v3_irq) :
  Forall (fun e => is_clk e = false)
    (List.filter (placed dist redist vmcr true) l)
  /\ List.filter is_clk
       (List.filter (fun e => negb (placed dist redist vmcr true e)) l)
     = List.filter is_clk l.
Proof.
  induction l as [|e l [IH1 IH2]]; [split; [constructor | reflexivity]|].
  simpl. destruct (is_clk e) eqn:E.
  - rewrite held_back_not_placed by exact E. simpl. rewrite E, IH2.
    split; [exact IH1 | reflexivity].
  - destruct (placed dist redist vmcr true e); simpl.
    + split; [constructor; assumption | exact IH2].
    + rewrite E. split; [exact IH1 | exact IH2].
Qed.

Lemma mark_clk (dist : vgic_v3_dist) (redist : vgic_v3_redist) (vmcr : Z)
    (vip : vgic_v3_irq) :
  is_clk (mark dist redist vmcr true vip) = is_clk vip
  /\ (is_clk vip = true -> mark dist redist vmcr true vip = vip).
Proof.
  unfold mark. split.
  - destruct (placed dist redist vmcr true vip); reflexivity.
  - intros H. rewrite held_back_not_placed by exact H. reflexivity.
Qed.

(** The guard where the timer interrupt is 27.  Let a list register that is
    not inactive hold interrupt 27, the interrupt that
    [vgic_v3_irqbuf_to_lr] looks for, and let no buffered entry carry the
    ID [IRQ_SCHEDULED].  Then a pass of
    [vgic_v3_sync_hwstate] either halts, the buffered interrupts being more
    than the inactive list registers, or returns, and then: no timer-clock
    entry is among the entries [vs] that the pass places and writes to the
    list registers, the loop marks no timer-clock entry, and the
    timer-clock entries of the buffer are the same after the pass as
    before. *)
Theorem timer_guard (dist : vgic_v3_dist) (hypctx : struct_hypctx) :
  let c := vgic_cpu_if hypctx in
  let redist := vgic_redist hypctx in
  let vs :=
    List.filter (placed dist redist (ich_vmcr_el2 c) (clk_injected_of c))
      (pending c) in
  wf_cpu_if c ->
  Forall (fun e => vip_irq e <> IRQ_SCHEDULED) (pending c) ->
  (exists i : nat,
      (i < ich_lr_num c)%nat /\ ICH_LR_EL2_VINTID (rd (ich_lr_el2 c) i) = 27
      /\ lr_inactive (rd (ich_lr_el2 c) i) = false) ->
  (vgic_v3_sync_hwstate dist hypctx = Halt panicked
   /\ (lr_free_of c < irqbuf_num c)%nat)
  \/ exists c' : vgic_v3_cpu_if,
       vgic_v3_sync_hwstate dist hypctx = Ret (set_cpu_if hypctx c')
       /\ ich_lr_el2 c'
          = fill_lrs (take (ich_lr_num c) (ich_lr_el2 c)) vs
            ++ drop (ich_lr_num c) (ich_lr_el2 c)
       /\ Forall (fun e => vip_irqtype e <> VGIC_IRQ_CLK) vs
       /\ List.filter is_clk
            (pending (irqbuf_to_lr_loop dist redist (clk_injected_of c)
                        (irqbuf_num c) c 0 0))
          = List.filter is_clk (pending c)
       /\ List.filter is_clk (pending c') = List.filter is_clk (pending c).
Proof.
  intros c redist vs Hwf Hok (i & Hi & Hid & Hst).
  destruct (Nat.lt_ge_cases (lr_free_of c) (irqbuf_num c)) as [Hover|Hfit].
  { left. split; [apply sync_overflow_halts|]; exact Hover. }
  right.
  assert (Hclk : clk_injected_of c = true).
  { apply clk_injected_for_spec. exists i. split; [lia|].
    unfold holds_timer. rewrite Hst. apply andb_true_iff. split; [lia|].
    reflexivity. }
  destruct (sync_fits dist hypctx Hwf Hfit Hok) as (c' & Hs & Hp & Hl & _).
  destruct (irqbuf_to_lr_marks dist hypctx Hwf Hfit) as (Hm & _).
  fold c redist in Hp, Hl, Hm. subst vs. rewrite Hclk in Hp, Hl, Hm |- *.
  destruct (clk_not_placed_filter dist redist (ich_vmcr_el2 c) (pending c))
    as [Hno Hsame].
  exists c'. repeat split; try assumption.
  - eapply Forall_impl; [exact Hno|]. intros e He Ht.
    apply is_clk_type in Ht. congruence.
  - rewrite Hm. clear. induction (pending c) as [|e l IH]; [reflexivity|].
    destruct (mark_clk dist redist (ich_vmcr_el2 c) e) as [M1 M2].
    simpl. rewrite M1. destruct (is_clk e) eqn:E.
    + rewrite M2, IH by reflexivity. reflexivity.
    + exact IH.
  - rewrite Hp. exact Hsame.
Qed.

Lemma timer_guard_witness :
  exists c' : vgic_v3_cpu_if,
    vgic_v3_sync_hwstate ex_dist ex_hypctx_guard
    = Ret (set_cpu_if ex_hypctx_guard c')
    /\ List.filter is_clk (pending c') = [mk_irq 27 VGIC_IRQ_CLK 1 1 0].
Proof.
  destruct (timer_guard ex_dist ex_hypctx_guard)
    as [[H _] | (c' & Hs & _ & _ & _ & Hp)].
  - split; vm_compute; [lia | reflexivity | lia].
  - vm_compute. repeat constructor; discriminate.
  - exists 0%nat. vm_compute. repeat split. lia.
  - vm_compute in H. discriminate.
  - exists c'. split; [exact Hs|]. rewrite Hp. reflexivity.
Defined.

(** C5.  The guard of [vgic_v3_irqbuf_to_lr] recognises the timer in a
    list register by the literal ID 27, whereas the timer injects the
    interrupt [phys_ns_irq] of the VM.  With the timer interrupt of the VM
    set to 30 and active in list register 0, the timer-clock entry that
    [vtimer_inject_irq] buffers is placed by the pass into list register 1,
    where it is pending, and does not remain buffered.  In the same state
    with the interrupt 27 in place of 30 the entry is held back. *)
Theorem timer_guard_looks_for_27 :
  let vtimer := mk_vtimer 30 in
  let lr0 := rd (ich_lr_el2 (vgic_cpu_if ex_hypctx_lr30)) 0 in
  let vip := mk_irq 30 VGIC_IRQ_CLK 1 1 0 in
  (ICH_LR_EL2_VINTID lr0 = uint32 (phys_ns_irq vtimer)
   /\ lr_inactive lr0 = false
   /\ exists hypctx1 hypctx2 : struct_hypctx,
        vtimer_inject_irq ex_dist vtimer ex_hypctx_lr30 = Ret hypctx1
        /\ hypctx1 = mk_hypctx ex_redist ex_cpu_if_timer30 ex_vtimer_cpu
        /\ pending (vgic_cpu_if hypctx1) = [vip]
        /\ vgic_v3_sync_hwstate ex_dist hypctx1 = Ret hypctx2
        /\ pending (vgic_cpu_if hypctx2) = []
        /\ rd (ich_lr_el2 (vgic_cpu_if hypctx2)) 1 = vip_to_lr vip
        /\ lr_pending (rd (ich_lr_el2 (vgic_cpu_if hypctx2)) 1) = true)
  /\ exists hypctx2 : struct_hypctx,
       vgic_v3_sync_hwstate ex_dist ex_hypctx_timer = Ret hypctx2
       /\ pending (vgic_cpu_if hypctx2) = [mk_irq 27 VGIC_IRQ_CLK 1 1 0]
       /\ rd (ich_lr_el2 (vgic_cpu_if hypctx2)) 1 = 0.
Proof.
  cbv zeta. split.
  - split; [vm_compute; reflexivity|]. split; [vm_compute; reflexivity|].
    exists (mk_hypctx ex_redist ex_cpu_if_timer30 ex_vtimer_cpu).
    eexists. split; [vm_compute; reflexivity|]. split; [reflexivity|].
    split; [vm_compute; reflexivity|].
    split; [vm_compute; reflexivity|].
    repeat split; vm_compute; reflexivity.
  - eexists. split; [vm_compute; reflexivity|].
    split; vm_compute; reflexivity.
Qed.

(** ** Removal of an interrupt, and the drain of the callout *)

Lemma lr_clear_irq_inactive (lr : Z) : lr_inactive (lr_clear_irq lr) = true.
Proof.
  unfold lr_inactive, lr_clear_irq, ICH_LR_EL2_STATE.
  rewrite <- Z.land_assoc.
  replace (Z.land (not64 ICH_LR_EL2_STATE_MASK) ICH_LR_EL2_STATE_MASK)
    with 0 by (vm_compute; reflexivity).
  rewrite Z.land_0_r. reflexivity.
Qed.

Lemma lr_clear_irq_vintid (lr : Z) :
  ICH_LR_EL2_VINTID (lr_clear_irq lr) = ICH_LR_EL2_VINTID lr.
Proof.
  unfold lr_clear_irq, ICH_LR_EL2_VINTID. rewrite <- Z.land_assoc.
  replace (Z.land (not64 ICH_LR_EL2_STATE_MASK) ICH_LR_EL2_VINTID_MASK)
    with ICH_LR_EL2_VINTID_MASK by (vm_compute; reflexivity).
  reflexivity.
Qed.

Lemma remove_irq_lrs_spec (irq : Z) (ignore_state : bool) (n : nat) :
  forall (lrs : list Z) (i : nat),
    (i + n <= length lrs)%nat ->
    remove_irq_lrs irq ignore_state n lrs i
    = take i lrs ++ map (clear_if irq ignore_state) (take n (drop i lrs))
        ++ drop (i + n) lrs.
Proof.
  induction n as [|n IH]; intros lrs i Hi.
  - simpl. rewrite Nat.add_0_r, take_drop. reflexivity.
  - cbn [remove_irq_lrs].
    destruct (lookup_lt_is_Some_2 lrs i) as [x Hx]; [lia|].
    rewrite (rd_lookup _ _ _ Hx), (drop_S _ _ _ Hx). cbn [take map].
    assert (Hc : clear_if irq ignore_state x
                 = if (ICH_LR_EL2_VINTID x =? irq)
                      && (lr_not_active x || ignore_state)
                   then lr_clear_irq x else x) by reflexivity.
    rewrite Hc. clear Hc.
    replace (i + S n)%nat with (S i + n)%nat by lia.
    destruct ((ICH_LR_EL2_VINTID x =? irq)
              && (lr_not_active x || ignore_state)).
    + rewrite IH by (rewrite length_insert; lia).
      rewrite take_S_insert, !drop_insert_lt by lia.
      rewrite <- app_assoc. reflexivity.
    + rewrite IH by lia. rewrite (take_S_r _ _ _ Hx), <- app_assoc.
      reflexivity.
Qed.

Lemma remove_irq_spec (dist : vgic_v3_dist) (hypctx : struct_hypctx)
    (irq : Z) (ignore_state : bool) :
  let c := vgic_cpu_if hypctx in
  wf_cpu_if c -> irq < nirqs dist ->
  exists c' : vgic_v3_cpu_if,
    vgic_v3_remove_irq dist hypctx irq ignore_state
    = (0, set_cpu_if hypctx c')
    /\ pending c' = List.filter (kept irq) (pending c)
    /\ ich_lr_el2 c'
       = map (clear_if irq ignore_state) (take (ich_lr_num c) (ich_lr_el2 c))
         ++ drop (ich_lr_num c) (ich_lr_el2 c)
    /\ ich_lr_num c' = ich_lr_num c.
Proof.
  intros c [Hlr Hsz Hnum] Hirq. unfold vgic_v3_remove_irq. fold c.
  assert (G : (irq >=? nirqs dist) = false) by lia. rewrite G.
  eexists. split; [reflexivity|].
  destruct (remove_nolock_spec irq
              (set_lrs c (remove_irq_lrs irq ignore_state (ich_lr_num c)
                            (ich_lr_el2 c) 0)))
    as (Rp & _ & Rl & Rn & _).
  { simpl. lia. }
  rewrite Rp, Rl, Rn. simpl.
  rewrite remove_irq_lrs_spec by lia. rewrite drop_0. repeat split.
Qed.

(** An injection that returns leaves the list registers, the
    Redistributor and the timer as they were, and adds at most one entry,
    for the interrupt injected, at the end of the buffer. *)
Lemma inject_effect (dist : vgic_v3_dist) (hypctx hypctx' : struct_hypctx)
    (irq : Z) (irqtype : vgic_v3_irqtype) (error : Z) :
  irqbuf_inv (vgic_cpu_if hypctx) ->
  vgic_v3_inject_irq dist hypctx irq irqtype = Ret (error, hypctx') ->
  irqbuf_inv (vgic_cpu_if hypctx')
  /\ ich_lr_el2 (vgic_cpu_if hypctx') = ich_lr_el2 (vgic_cpu_if hypctx)
  /\ ich_lr_num (vgic_cpu_if hypctx') = ich_lr_num (vgic_cpu_if hypctx)
  /\ vtimer_cpu_of hypctx' = vtimer_cpu_of hypctx
  /\ vgic_redist hypctx' = vgic_redist hypctx
  /\ List.filter (kept irq) (pending (vgic_cpu_if hypctx'))
     = List.filter (kept irq) (pending (vgic_cpu_if hypctx)).
Proof.
  intros Hinv H. pose proof (inject_inv _ _ _ _ _ _ Hinv H) as Hinv'.
  split; [exact Hinv'|]. unfold vgic_v3_inject_irq in H.
  destruct (negb (irq >? GIC_LAST_SGI)); [discriminate|].
  destruct ((irq >=? nirqs dist)
            || (irqtype_val irqtype >=? irqtype_val VGIC_IRQ_INVALID)).
  { injection H as _ <-. repeat split. }
  destruct (vgic_v3_irqbuf_add_nolock (vgic_cpu_if hypctx))
    as [[c vip]|] eqn:A.
  2:{ injection H as _ <-. repeat split. }
  injection H as _ <-.
  destruct (add_nolock_inv _ _ _ Hinv A)
    as ([Ha Hn Hs] & -> & Hnum & Htake & Hl & Hln & _).
  cbn [set_cpu_if set_irqbuf vgic_cpu_if vgic_redist vtimer_cpu_of
         ich_lr_el2 ich_lr_num].
  repeat split; try assumption.
  unfold pending, set_irqbuf. cbn [irqbuf irqbuf_num]. rewrite Hnum.
  match goal with |- context [<[_ := ?e]> _] => set (entry := e) end.
  assert (Hi : <[irqbuf_num (vgic_cpu_if hypctx) := entry]> (irqbuf c)
               !! irqbuf_num (vgic_cpu_if hypctx) = Some entry)
    by (apply list_lookup_insert_eq; lia).
  rewrite (take_S_r _ _ _ Hi), take_insert_ge, Htake by lia.
  rewrite List.filter_app. simpl. unfold kept at 2. simpl.
  rewrite Z.eqb_refl. simpl. apply app_nil_r.
Qed.

Lemma inject_returns (dist : vgic_v3_dist) (hypctx : struct_hypctx) (irq : Z)
    (irqtype : vgic_v3_irqtype) :
  GIC_LAST_SGI < irq ->
  exists (error : Z) (hypctx' : struct_hypctx),
    vgic_v3_inject_irq dist hypctx irq irqtype = Ret (error, hypctx').
Proof.
  intros H. unfold vgic_v3_inject_irq.
  assert (G : (irq >? GIC_LAST_SGI) = true) by lia. rewrite G. cbn [negb].
  destruct ((irq >=? nirqs dist) || _); [eexists _, _; reflexivity|].
  destruct (vgic_v3_irqbuf_add_nolock (vgic_cpu_if hypctx)) as [[c vip]|];
    eexists _, _; reflexivity.
Qed.

(** [callout_drain] returns with no callout scheduled; the callout function,
    when it ran, has at most added an entry for the timer interrupt. *)
Lemma callout_drain_spec (dist : vgic_v3_dist) (vtimer : vtimer)
    (hypctx : struct_hypctx) (running : bool) :
  let irq := uint32 (phys_ns_irq vtimer) in
  irqbuf_inv (vgic_cpu_if hypctx) ->
  GIC_LAST_SGI < irq ->
  exists hypctx' : struct_hypctx,
    callout_drain dist vtimer hypctx running = Ret hypctx'
    /\ callout_pending (vtimer_cpu_of hypctx') = false
    /\ cntp_ctl_el0 (vtimer_cpu_of hypctx')
       = cntp_ctl_el0 (vtimer_cpu_of hypctx)
    /\ irqbuf_inv (vgic_cpu_if hypctx')
    /\ ich_lr_el2 (vgic_cpu_if hypctx') = ich_lr_el2 (vgic_cpu_if hypctx)
    /\ ich_lr_num (vgic_cpu_if hypctx') = ich_lr_num (vgic_cpu_if hypctx)
    /\ List.filter (kept irq) (pending (vgic_cpu_if hypctx'))
       = List.filter (kept irq) (pending (vgic_cpu_if hypctx)).
Proof.
  intros irq Hinv Hirq. unfold callout_drain.
  destruct (callout_pending (vtimer_cpu_of hypctx) && running).
  - unfold vtimer_inject_irq. fold irq.
    destruct (inject_returns dist hypctx irq VGIC_IRQ_CLK Hirq)
      as (err & h' & Hinj).
    rewrite Hinj.
    destruct (inject_effect _ _ _ _ _ _ Hinv Hinj)
      as (Hinv' & Hl & Hn & Ht & _ & Hp).
    eexists. split; [reflexivity|].
    cbn [set_vtimer_cpu set_callout vtimer_cpu_of vgic_cpu_if
           callout_pending cntp_ctl_el0].
    rewrite Ht.
    repeat match goal with |- _ /\ _ => split end; try assumption;
      reflexivity.
  - eexists. split; [reflexivity|].
    cbn [set_vtimer_cpu set_callout vtimer_cpu_of vgic_cpu_if
           callout_pending cntp_ctl_el0].
    repeat match goal with |- _ /\ _ => split end; try assumption;
      reflexivity.
Qed.

(** ** What a priority update does on every state *)

Lemma set_priority_irqbuf_spec (irq priority : Z) (n : nat) :
  forall (b : list vgic_v3_irq) (i : nat),
    (i + n <= length b)%nat ->
    set_priority_irqbuf irq priority n b i
    = take i b ++ map (with_priority irq priority) (take n (drop i b))
        ++ drop (i + n) b.
Proof.
  induction n as [|n IH]; intros b i Hi.
  - simpl. rewrite Nat.add_0_r, take_drop. reflexivity.
  - cbn [set_priority_irqbuf].
    destruct (lookup_lt_is_Some_2 b i) as [x Hx]; [lia|].
    rewrite (buf_at_lookup _ _ _ Hx), (drop_S _ _ _ Hx). cbn [take map].
    assert (Hc : with_priority irq priority x
                 = if vip_irq x =? irq then set_vip_priority x priority
                   else x) by reflexivity.
    rewrite Hc. clear Hc.
    replace (i + S n)%nat with (S i + n)%nat by lia.
    destruct (vip_irq x =? irq).
    + rewrite IH by (rewrite length_insert; lia).
      rewrite take_S_insert, !drop_insert_lt by lia.
      rewrite <- app_assoc. reflexivity.
    + rewrite IH by lia. rewrite (take_S_r _ _ _ Hx), <- app_assoc.
      reflexivity.
Qed.

Lemma set_priority_lrs_spec (priority : Z) (n : nat) :
  forall (lrs : list Z) (i : nat),
    (i + n <= length lrs)%nat ->
    set_priority_lrs priority n lrs i
    = take i lrs ++ map (lr_with_priority priority) (take n (drop i lrs))
        ++ drop (i + n) lrs.
Proof.
  induction n as [|n IH]; intros lrs i Hi.
  - simpl. rewrite Nat.add_0_r, take_drop. reflexivity.
  - cbn [set_priority_lrs].
    destruct (lookup_lt_is_Some_2 lrs i) as [x Hx]; [lia|].
    rewrite (rd_lookup _ _ _ Hx), (drop_S _ _ _ Hx). cbn [take map].
    assert (Hc : lr_with_priority priority x
                 = if lr_pending x then
                     Z.lor (Z.land x (not64 ICH_LR_EL2_PRIO_MASK))
                       (shl64 priority ICH_LR_EL2_PRIO_SHIFT)
                   else x) by reflexivity.
    rewrite Hc. clear Hc.
    replace (i + S n)%nat with (S i + n)%nat by lia.
    destruct (lr_pending x).
    + rewrite IH by (rewrite length_insert; lia).
      rewrite take_S_insert, !drop_insert_lt by lia.
      rewrite <- app_assoc. reflexivity.
    + rewrite IH by lia. rewrite (take_S_r _ _ _ Hx), <- app_assoc.
      reflexivity.
Qed.

(** The buffered entries for [irq] receive the priority, the other entries
    are kept; and every pending list register receives the priority,
    whichever interrupt it holds. *)
Lemma set_priority_vcpu_spec (irq priority : Z) (c : vgic_v3_cpu_if) :
  wf_cpu_if c ->
  let c' := vgic_v3_irq_set_priority_vcpu irq priority c in
  pending c' = map (with_priority irq priority) (pending c)
  /\ ich_lr_el2 c'
     = map (lr_with_priority priority) (take (ich_lr_num c) (ich_lr_el2 c))
       ++ drop (ich_lr_num c) (ich_lr_el2 c).
Proof.
  intros [Hlr Hsz Hnum]. unfold vgic_v3_irq_set_priority_vcpu, pending.
  cbn [set_lrs set_irqbuf irqbuf irqbuf_num ich_lr_el2 ich_lr_num].
  rewrite set_priority_irqbuf_spec, set_priority_lrs_spec by lia.
  rewrite !drop_0, !take_0. cbn [app]. split; [|reflexivity].
  rewrite take_app_length'; [reflexivity|].
  rewrite length_map, length_take. lia.
Qed.

(** * Properties of the remaining code *)

(** ** The buffer *)

(** The values [dest] and [from] with which the [while] loop of
    [vgic_v3_irqbuf_remove_nolock] is left. *)
Lemma remove_while_ret (irq : Z) (n : nat) :
  forall (c : vgic_v3_cpu_if) (dest : nat),
    n = (irqbuf_num c - dest)%nat -> (dest <= irqbuf_num c)%nat ->
    (irqbuf_num c <= length (irqbuf c))%nat ->
    let r := remove_while irq n c dest (irqbuf_num c) in
    snd r = irqbuf_num c /\ snd (fst r) = irqbuf_num (fst (fst r)).
Proof.
  induction n as [|n IH]; intros c dest Hn Hd Hl; cbn [remove_while].
  - cbn [fst snd]. split; [reflexivity | lia].
  - destruct (vip_irq (buf_at (irqbuf c) dest) =? irq).
    + destruct (remove_for_spec irq (irqbuf_num c - (dest + 1)) (irqbuf c)
                  dest (dest + 1)) as (b' & dest' & E & _); [lia | lia |].
      rewrite E. cbn [fst snd set_irqbuf irqbuf_num]. split; [lia|reflexivity].
    + apply IH; lia.
Qed.

(** X1.  [vgic_v3_irqbuf_remove_nolock] removes all the buffered entries of
    [irq] and no other: the entries of the other interrupts stay, in their
    order; the value returned is the number of entries removed; the list
    registers are not touched. *)
Theorem irqbuf_remove_all_instances (irq : Z) (c : vgic_v3_cpu_if) :
  (irqbuf_num c <= length (irqbuf c))%nat ->
  let r := vgic_v3_irqbuf_remove_nolock irq c in
  pending (fst r) = List.filter (kept irq) (pending c)
  /\ Forall (fun e => vip_irq e <> irq) (pending (fst r))
  /\ snd r = length (List.filter (is_irq irq) (pending c))
  /\ (snd r + irqbuf_num (fst r) = irqbuf_num c)%nat
  /\ ich_lr_el2 (fst r) = ich_lr_el2 c.
Proof.
  intros Hl r.
  destruct (remove_nolock_spec irq c Hl) as (Hp & _ & Hlr & _ & _ & Hlen & Hle).
  fold r in Hp, Hlr, Hlen, Hle.
  assert (Hret : (snd r + irqbuf_num (fst r) = irqbuf_num c)%nat).
  { pose proof (remove_while_ret irq (irqbuf_num c - 0) c 0 eq_refl
                  ltac:(lia) Hl) as [Hf Hd].
    subst r. unfold vgic_v3_irqbuf_remove_nolock in *.
    destruct (remove_while irq (irqbuf_num c - 0) c 0 (irqbuf_num c))
      as [[c' dest] from].
    cbn [fst snd] in *. subst from dest. lia. }
  split; [exact Hp|]. split; [|split; [|split; [exact Hret | exact Hlr]]].
  - rewrite Hp. apply List.Forall_forall. intros e He.
    apply List.filter_In in He as [_ He]. unfold kept in He.
    apply negb_true_iff, Z.eqb_neq in He. exact He.
  - pose proof (List.filter_length (is_irq irq) (pending c)) as Hfl.
    assert (Hk : List.filter (fun x => negb (is_irq irq x)) (pending c)
                 = List.filter (kept irq) (pending c)) by reflexivity.
    rewrite Hk, <- Hp in Hfl.
    rewrite !pending_length in Hfl by lia. lia.
Qed.

Lemma irqbuf_remove_all_instances_witness :
  let r := vgic_v3_irqbuf_remove_nolock 30 ex_cpu_if_armed in
  pending (fst r) = [mk_irq 40 VGIC_IRQ_VIRTIO 1 1 0x20]
  /\ snd r = 2%nat
  /\ irqbuf_num (fst r) = 1%nat.
Proof.
  assert (Hl : (irqbuf_num ex_cpu_if_armed
                <= length (irqbuf ex_cpu_if_armed))%nat) by (vm_compute; lia).
  destruct (irqbuf_remove_all_instances 30 ex_cpu_if_armed Hl)
    as (Hp & _ & Hr & Hn & _).
  intros r. fold r in Hp, Hr, Hn. split; [|split].
  - rewrite Hp. reflexivity.
  - rewrite Hr. reflexivity.
  - rewrite Hr in Hn. vm_compute in Hn. vm_compute. lia.
Defined.

Lemma inv_wf (c : vgic_v3_cpu_if) :
  irqbuf_inv c -> (ich_lr_num c <= length (ich_lr_el2 c))%nat -> wf_cpu_if c.
Proof. intros [Ha Hn _] Hl. split; assumption. Qed.

Lemma get_int_group_bit (irq : Z) (dist : vgic_v3_dist)
    (redist : vgic_v3_redist) :
  vgic_v3_get_int_group irq dist redist = 0
  \/ vgic_v3_get_int_group irq dist redist = 1.
Proof.
  unfold vgic_v3_get_int_group.
  destruct (irq <=? GIC_LAST_PPI);
    match goal with |- context [if truthy ?x then _ else _] =>
      destruct (truthy x) end; auto.
Qed.

(** An injection of a well-formed request into a buffer with room. *)
Lemma inject_appends_entry (dist : vgic_v3_dist) (hypctx : struct_hypctx)
    (irq : Z) (irqtype : vgic_v3_irqtype) :
  irqbuf_inv (vgic_cpu_if hypctx) ->
  (irqbuf_num (vgic_cpu_if hypctx) < 1024)%nat ->
  GIC_LAST_SGI < irq < nirqs dist ->
  irqtype <> VGIC_IRQ_INVALID ->
  exists c' : vgic_v3_cpu_if,
    vgic_v3_inject_irq dist hypctx irq irqtype
    = Ret (0, set_cpu_if hypctx c')
    /\ pending c'
       = pending (vgic_cpu_if hypctx)
         ++ [injected_entry dist (vgic_redist hypctx) irq irqtype]
    /\ irqbuf_num c' = S (irqbuf_num (vgic_cpu_if hypctx))
    /\ irqbuf_inv c'
    /\ ich_lr_el2 c' = ich_lr_el2 (vgic_cpu_if hypctx)
    /\ ich_lr_num c' = ich_lr_num (vgic_cpu_if hypctx)
    /\ ich_vmcr_el2 c' = ich_vmcr_el2 (vgic_cpu_if hypctx).
Proof.
  intros Hinv Hlt Hirq Hty. pose proof Hinv as [Ha Hn Hs].
  pose proof (irqbuf_sizes_max _ Hs) as Hmax.
  unfold vgic_v3_inject_irq.
  assert (G : (irq >? GIC_LAST_SGI) = true) by (apply Z.gtb_lt; lia).
  assert (G1 : (irq >=? nirqs dist) = false) by lia.
  assert (G2 : (irqtype_val irqtype >=? irqtype_val VGIC_IRQ_INVALID) = false)
    by (destruct irqtype; try reflexivity; congruence).
  rewrite G, G1, G2. cbn [negb orb].
  destruct (vgic_v3_irqbuf_add_nolock (vgic_cpu_if hypctx))
    as [[c vip]|] eqn:A.
  - destruct (add_nolock_inv _ _ _ Hinv A)
      as ([Ha' Hn' Hs'] & -> & Hnum & Htake & Hl & Hln & Hv).
    assert (Hg : uint8 (vgic_v3_get_int_group irq dist (vgic_redist hypctx))
                 = vgic_v3_get_int_group irq dist (vgic_redist hypctx))
      by (destruct (get_int_group_bit irq dist (vgic_redist hypctx))
            as [->| ->]; reflexivity).
    rewrite Hg. fold (injected_entry dist (vgic_redist hypctx) irq irqtype).
    set (entry := injected_entry dist (vgic_redist hypctx) irq irqtype).
    eexists. split; [reflexivity|].
    unfold pending, set_irqbuf.
    cbn [irqbuf irqbuf_num irqbuf_size ich_lr_el2 ich_lr_num ich_vmcr_el2].
    rewrite Hnum.
    assert (Hi : <[irqbuf_num (vgic_cpu_if hypctx) := entry]> (irqbuf c)
                 !! irqbuf_num (vgic_cpu_if hypctx) = Some entry)
      by (apply list_lookup_insert_eq; lia).
    rewrite (take_S_r _ _ _ Hi), take_insert_ge, Htake by lia.
    split; [reflexivity|]. split; [reflexivity|].
    split; [|split; [|split]]; try assumption.
    split; cbn [irqbuf irqbuf_num irqbuf_size]; try assumption; try lia.
    rewrite length_insert. assumption.
  - exfalso. unfold vgic_v3_irqbuf_add_nolock in A.
    destruct (irqbuf_num (vgic_cpu_if hypctx)
              =? irqbuf_size (vgic_cpu_if hypctx))%nat eqn:E;
      [|discriminate].
    apply Nat.eqb_eq in E.
    destruct (IRQBUF_SIZE_MAX
              <? Nat.shiftl (irqbuf_size (vgic_cpu_if hypctx)) 1)%nat eqn:F;
      [|discriminate].
    revert F Hlt. rewrite E. clear -Hs. unfold irqbuf_sizes in Hs. simpl in Hs.
    destruct Hs as [<-|[<-|[<-|[<-|[<-|[<-|[]]]]]]]; vm_compute;
      intros; try discriminate; lia.
Qed.

(** An injection into a buffer of 1024 entries. *)
Lemma inject_full (dist : vgic_v3_dist) (hypctx : struct_hypctx) (irq : Z)
    (irqtype : vgic_v3_irqtype) :
  irqbuf_inv (vgic_cpu_if hypctx) ->
  irqbuf_num (vgic_cpu_if hypctx) = 1024%nat ->
  GIC_LAST_SGI < irq ->
  vgic_v3_inject_irq dist hypctx irq irqtype = Ret (1, hypctx).
Proof.
  intros [Ha Hn Hs] Hfull Hirq. pose proof (irqbuf_sizes_max _ Hs) as Hmax.
  unfold vgic_v3_inject_irq.
  assert (G : (irq >? GIC_LAST_SGI) = true) by (apply Z.gtb_lt; lia).
  rewrite G. cbn [negb]. destruct (_ || _); [reflexivity|].
  unfold vgic_v3_irqbuf_add_nolock.
  assert (Hsz : irqbuf_size (vgic_cpu_if hypctx) = 1024%nat) by lia.
  rewrite Hfull, Hsz. reflexivity.
Qed.

(** X2.  What an injection of an interrupt above the SGI range returns: 1,
    with the state as it was, for a malformed request and for a buffer that
    holds 1024 entries; 0 otherwise, and then one entry is appended to the
    buffer, which holds the ID and the type given and the group, the
    priority and the enabled flag resolved from the Distributor and the
    Redistributor at the time of the call; the count that
    [vgic_v3_vcpu_pending_irq] reports grows by one and the list registers
    stay as they were. *)
Theorem inject_outcome (dist : vgic_v3_dist) (hypctx : struct_hypctx)
    (irq : Z) (irqtype : vgic_v3_irqtype) :
  let c := vgic_cpu_if hypctx in
  irqbuf_inv c ->
  GIC_LAST_SGI < irq ->
  (nirqs dist <= irq \/ irqtype = VGIC_IRQ_INVALID
   \/ irqbuf_num c = 1024%nat ->
   vgic_v3_inject_irq dist hypctx irq irqtype = Ret (1, hypctx))
  /\ (irq < nirqs dist -> irqtype <> VGIC_IRQ_INVALID ->
      (irqbuf_num c < 1024)%nat ->
      exists hypctx' : struct_hypctx,
        vgic_v3_inject_irq dist hypctx irq irqtype = Ret (0, hypctx')
        /\ pending (vgic_cpu_if hypctx')
           = pending c
             ++ [injected_entry dist (vgic_redist hypctx) irq irqtype]
        /\ vgic_v3_vcpu_pending_irq hypctx'
           = vgic_v3_vcpu_pending_irq hypctx + 1
        /\ ich_lr_el2 (vgic_cpu_if hypctx') = ich_lr_el2 c
        /\ vgic_redist hypctx' = vgic_redist hypctx
        /\ vtimer_cpu_of hypctx' = vtimer_cpu_of hypctx).
Proof.
  intros c Hinv Hirq. split.
  - intros [H|[H|H]].
    + unfold vgic_v3_inject_irq.
      assert (G : (irq >? GIC_LAST_SGI) = true) by (apply Z.gtb_lt; lia).
      assert (G1 : (irq >=? nirqs dist) = true) by lia.
      rewrite G, G1. reflexivity.
    + unfold vgic_v3_inject_irq.
      assert (G : (irq >? GIC_LAST_SGI) = true) by (apply Z.gtb_lt; lia).
      rewrite G, H. cbn [negb]. rewrite orb_true_r. reflexivity.
    + apply inject_full; assumption.
  - intros Hn Hty Hlt.
    destruct (inject_appends_entry dist hypctx irq irqtype Hinv Hlt
                ltac:(lia) Hty) as (c' & E & Hp & Hnum & _ & Hl & _).
    exists (set_cpu_if hypctx c'). split; [exact E|].
    cbn [set_cpu_if vgic_cpu_if vgic_redist vtimer_cpu_of].
    repeat match goal with |- _ /\ _ => split end;
      try reflexivity; try assumption.
    unfold vgic_v3_vcpu_pending_irq. cbn [set_cpu_if vgic_cpu_if].
    rewrite Hnum. fold c. lia.
Qed.

Lemma inject_outcome_witness :
  vgic_v3_inject_irq ex_dist ex_hypctx 100 VGIC_IRQ_MISC = Ret (1, ex_hypctx)
  /\ exists hypctx' : struct_hypctx,
       vgic_v3_inject_irq ex_dist ex_hypctx 40 VGIC_IRQ_VIRTIO
       = Ret (0, hypctx')
       /\ pending (vgic_cpu_if hypctx') = [mk_irq 40 VGIC_IRQ_VIRTIO 1 1 0]
       /\ vgic_v3_vcpu_pending_irq hypctx' = 1.
Proof.
  assert (Hinv : irqbuf_inv (vgic_cpu_if ex_hypctx))
    by (split; [reflexivity | vm_compute; lia | left; reflexivity]).
  split.
  - apply (inject_outcome ex_dist ex_hypctx 100 VGIC_IRQ_MISC Hinv);
      [reflexivity | left; vm_compute; discriminate].
  - destruct (inject_outcome ex_dist ex_hypctx 40 VGIC_IRQ_VIRTIO Hinv)
      as [_ H]; [reflexivity|].
    destruct H as (h' & E & Hp & Hc & _);
      [reflexivity | discriminate | vm_compute; lia |].
    exists h'. split; [exact E|]. split; [exact Hp | exact Hc].
Defined.

(** X3.  A removal undoes the injection of the interrupt, as far as the
    buffered entries and the list registers go.  For an interrupt above the
    SGI range and below the number of interrupts of the Distributor, on a
    well-formed buffer: when [vgic_v3_remove_irq] follows
    [vgic_v3_inject_irq] for the same interrupt, it returns 0, the entries
    in use of the buffer and the list registers are those that the removal
    alone gives, and no entry of the interrupt is buffered.  The size of
    the allocation is not part of the statement: an injection that has
    doubled the buffer is not undone by the removal. *)
Theorem remove_undoes_inject (dist : vgic_v3_dist) (hypctx : struct_hypctx)
    (irq : Z) (irqtype : vgic_v3_irqtype) (ignore_state : bool) :
  let c := vgic_cpu_if hypctx in
  irqbuf_inv c ->
  (ich_lr_num c <= length (ich_lr_el2 c))%nat ->
  GIC_LAST_SGI < irq < nirqs dist ->
  exists (error : Z) (hypctx1 : struct_hypctx),
    vgic_v3_inject_irq dist hypctx irq irqtype = Ret (error, hypctx1)
    /\ let r1 := vgic_v3_remove_irq dist hypctx1 irq ignore_state in
       let r0 := vgic_v3_remove_irq dist hypctx irq ignore_state in
       fst r1 = 0
       /\ pending (vgic_cpu_if (snd r1)) = pending (vgic_cpu_if (snd r0))
       /\ ich_lr_el2 (vgic_cpu_if (snd r1))
          = ich_lr_el2 (vgic_cpu_if (snd r0))
       /\ pending (vgic_cpu_if (snd r1)) = List.filter (kept irq) (pending c)
       /\ Forall (fun e => vip_irq e <> irq) (pending (vgic_cpu_if (snd r1))).
Proof.
  intros c Hinv Hlr Hirq.
  destruct (inject_returns dist hypctx irq irqtype ltac:(lia))
    as (error & h1 & E).
  exists error, h1. split; [exact E|].
  destruct (inject_effect _ _ _ _ _ _ Hinv E)
    as (Hinv1 & Hl1 & Hn1 & _ & _ & Hf).
  destruct (remove_irq_spec dist h1 irq ignore_state)
    as (c1 & R1 & P1 & L1 & _);
    [apply inv_wf; [assumption | rewrite Hl1, Hn1; exact Hlr] | lia |].
  destruct (remove_irq_spec dist hypctx irq ignore_state)
    as (c0 & R0 & P0 & L0 & _); [apply inv_wf; assumption | lia |].
  cbv zeta. rewrite R1, R0. cbn [fst snd set_cpu_if vgic_cpu_if].
  rewrite P1, P0, L1, L0, Hf, Hl1, Hn1. fold c.
  repeat match goal with |- _ /\ _ => split end; try reflexivity.
  apply List.Forall_forall. intros e He.
  apply List.filter_In in He as [_ He]. unfold kept in He.
  apply negb_true_iff, Z.eqb_neq in He. exact He.
Qed.

Lemma remove_undoes_inject_witness :
  exists (error : Z) (hypctx1 : struct_hypctx),
    vgic_v3_inject_irq ex_dist ex_hypctx_armed 30 VGIC_IRQ_CLK
    = Ret (error, hypctx1)
    /\ pending (vgic_cpu_if (snd (vgic_v3_remove_irq ex_dist hypctx1 30 true)))
       = [mk_irq 40 VGIC_IRQ_VIRTIO 1 1 0x20].
Proof.
  destruct (remove_undoes_inject ex_dist ex_hypctx_armed 30 VGIC_IRQ_CLK true)
    as (error & h1 & E & _ & _ & _ & Hp & _).
  - split; [reflexivity | vm_compute; lia | left; reflexivity].
  - vm_compute. lia.
  - vm_compute. split; reflexivity.
  - exists error, h1. split; [exact E|]. rewrite Hp. reflexivity.
Defined.

(** ** List registers as bit fields *)

(** Equalities of bit fields, bit by bit: the bits at negative positions
    are off, the ones that remain are free. *)
Ltac bits :=
  Z.bitblast;
  repeat match goal with
         | |- context [Z.testbit ?x ?l] =>
             rewrite (Z.testbit_neg_r x l) by lia
         end;
  repeat match goal with
         | |- context [Z.testbit ?x ?l] => destruct (Z.testbit x l)
         end;
  reflexivity.

(** The masks of the register layout, as runs of ones. *)
Lemma masks_as_ones :
  ICH_LR_EL2_VINTID_MASK = Z.ones 32
  /\ ICH_LR_EL2_PRIO_MASK = Z.shiftl (Z.ones 8) 48
  /\ ICH_LR_EL2_STATE_MASK = Z.shiftl (Z.ones 2) 62
  /\ ICH_LR_EL2_STATE_PENDING = Z.shiftl (Z.ones 1) 62.
Proof. repeat split. Qed.

Lemma vip_to_lr_fields (irq group priority : Z) (ty : vgic_v3_irqtype)
    (en : Z) :
  0 <= irq < 2 ^ 32 -> 0 <= group <= 1 -> 0 <= priority < 2 ^ 8 ->
  let lr := vip_to_lr (mk_irq irq ty group en priority) in
  ICH_LR_EL2_STATE lr = ICH_LR_EL2_STATE_PENDING
  /\ ICH_LR_EL2_VINTID lr = irq
  /\ Z.land (Z.shiftr lr ICH_LR_EL2_GROUP_SHIFT) 0x1 = group
  /\ Z.shiftr (Z.land lr ICH_LR_EL2_PRIO_MASK) ICH_LR_EL2_PRIO_SHIFT
     = priority.
Proof.
  intros Hi Hg Hp lr. subst lr. unfold vip_to_lr, shl64, uint64.
  cbn [vip_irq vip_group vip_priority].
  unfold ICH_LR_EL2_STATE, ICH_LR_EL2_VINTID.
  destruct masks_as_ones as (-> & -> & -> & ->).
  unfold ICH_LR_EL2_GROUP_SHIFT, ICH_LR_EL2_PRIO_SHIFT.
  match goal with |- context [Z.land ?x 0x1] =>
    change (Z.land x 0x1) with (Z.land x (Z.ones 1)) end.
  rewrite <- (Z.mod_small irq (2 ^ 32)) by lia.
  rewrite <- (Z.mod_small group (2 ^ 1)) by lia.
  rewrite <- (Z.mod_small priority (2 ^ 8)) by lia.
  repeat split; bits.
Qed.

(** A list register written by [vip_to_lr] is never inactive, whatever the
    fields of the entry. *)
Lemma vip_to_lr_not_inactive (vip : vgic_v3_irq) :
  lr_inactive (vip_to_lr vip) = false.
Proof.
  unfold lr_inactive. apply Z.eqb_neq. intros H.
  assert (Hb : Z.testbit (ICH_LR_EL2_STATE (vip_to_lr vip)) 62 = true).
  { unfold ICH_LR_EL2_STATE, vip_to_lr.
    destruct masks_as_ones as (_ & _ & -> & ->).
    rewrite Z.land_spec, !Z.lor_spec, !Z.shiftl_spec by lia.
    change (62 - 62) with 0. rewrite !Z.testbit_ones_nonneg by lia.
    reflexivity. }
  rewrite H in Hb. discriminate.
Qed.

(** X4.  [vip_to_lr] and [lr_to_vip] are inverse to each other on the
    fields that a list register holds: a register written from an entry
    with a 32-bit ID, a group of 0 or 1 and an 8-bit priority is pending and
    reads back as the ID, the group and the priority of the entry (the type
    and the enabled flag, which a list register does not hold, are left as
    they are in the entry read into). *)
Theorem lr_vip_round_trip (vip v0 : vgic_v3_irq) :
  0 <= vip_irq vip < 2 ^ 32 ->
  0 <= vip_group vip <= 1 ->
  0 <= vip_priority vip < 2 ^ 8 ->
  lr_pending (vip_to_lr vip) = true
  /\ lr_inactive (vip_to_lr vip) = false
  /\ lr_to_vip (vip_to_lr vip) v0
     = mk_irq (vip_irq vip) (vip_irqtype v0) (vip_group vip) (vip_enabled v0)
         (vip_priority vip).
Proof.
  intros Hi Hg Hp. destruct vip as [irq ty group en priority].
  cbn [vip_irq vip_group vip_priority] in *.
  destruct (vip_to_lr_fields irq group priority ty en Hi Hg Hp)
    as (Hs & Hv & Hgr & Hpr).
  split; [|split].
  - unfold lr_pending. rewrite Hs. apply Z.eqb_refl.
  - apply vip_to_lr_not_inactive.
  - unfold lr_to_vip. rewrite Hv, Hgr, Hpr. unfold uint32, uint8.
    rewrite !Z.mod_small by lia. reflexivity.
Qed.

Lemma lr_vip_round_trip_witness :
  lr_pending (vip_to_lr (mk_irq 40 VGIC_IRQ_VIRTIO 1 1 0x20)) = true
  /\ lr_to_vip (vip_to_lr (mk_irq 40 VGIC_IRQ_VIRTIO 1 1 0x20)) irq_zero
     = mk_irq 40 VGIC_IRQ_MAXPRIO 1 0 0x20.
Proof.
  destruct (lr_vip_round_trip (mk_irq 40 VGIC_IRQ_VIRTIO 1 1 0x20) irq_zero)
    as (Hp & _ & Hr); [vm_compute; split; discriminate || reflexivity ..|].
  split; [exact Hp | exact Hr].
Defined.

(** ** Loops that update an array in place *)

Section InPlace.

Context {A : Type} (f : A -> A).

Lemma updated_from_0 (l : list A) (i : nat) : updated_from f 0 l i = l.
Proof.
  unfold updated_from. simpl. rewrite Nat.add_0_r. apply take_drop.
Qed.

(** One iteration that assigns [f x] to the element [x] at [i]. *)
Lemma updated_from_step (l : list A) (i n : nat) (x : A) :
  l !! i = Some x ->
  updated_from f (S n) l i = updated_from f n (<[i := f x]> l) (S i).
Proof.
  intros Hx. unfold updated_from.
  assert (Hi : (i < length l)%nat) by (eapply lookup_lt_Some; exact Hx).
  rewrite (drop_S _ _ _ Hx). cbn [take map].
  rewrite take_S_insert, !drop_insert_lt by lia.
  rewrite <- app_assoc. cbn [app].
  replace (i + S n)%nat with (S i + n)%nat by lia. reflexivity.
Qed.

(** One iteration that leaves the element at [i], a fixed point of [f]. *)
Lemma updated_from_skip (l : list A) (i n : nat) (x : A) :
  l !! i = Some x -> f x = x ->
  updated_from f (S n) l i = updated_from f n l (S i).
Proof.
  intros Hx Hf. rewrite (updated_from_step l i n x Hx), Hf.
  rewrite list_insert_id by exact Hx. reflexivity.
Qed.

(** The whole array when the loop starts at 0. *)
Lemma updated_from_start (l : list A) (n : nat) :
  updated_from f n l 0 = map f (take n l) ++ drop n l.
Proof. unfold updated_from. rewrite take_0, drop_0. reflexivity. Qed.

Lemma updated_prefix_lookup (l : list A) (n i : nat) (x : A) :
  (i < n)%nat -> l !! i = Some x ->
  (map f (take n l) ++ drop n l) !! i = Some (f x).
Proof.
  intros Hi Hx.
  assert (Hl : (i < length l)%nat) by (eapply lookup_lt_Some; exact Hx).
  rewrite lookup_app_l by (rewrite length_map, length_take; lia).
  change (map f (take n l)) with (f <$> take n l).
  rewrite list_lookup_fmap, lookup_take_lt by lia. rewrite Hx. reflexivity.
Qed.

Lemma updated_prefix_length (l : list A) (n : nat) :
  length (map f (take n l) ++ drop n l) = length l.
Proof.
  rewrite length_app, length_map, length_take, length_drop. lia.
Qed.

Lemma updated_prefix_take (l : list A) (n m : nat) :
  (n <= length l)%nat -> (m <= n)%nat ->
  take m (map f (take n l) ++ drop n l) = map f (take m l).
Proof.
  intros Hn Hm.
  rewrite take_app_le by (rewrite length_map, length_take; lia).
  change (map f (take n l)) with (f <$> take n l).
  rewrite <- fmap_take, take_take. f_equal. f_equal. lia.
Qed.

End InPlace.

(** ** Priority and group updates *)

Lemma set_group_irqbuf_spec (irq group : Z) (n : nat) :
  forall (b : list vgic_v3_irq) (i : nat),
    (i + n <= length b)%nat ->
    set_group_irqbuf irq group n b i
    = updated_from (with_group irq group) n b i.
Proof.
  induction n as [|n IH]; intros b i Hi.
  - rewrite updated_from_0. reflexivity.
  - cbn [set_group_irqbuf].
    destruct (lookup_lt_is_Some_2 b i) as [x Hx]; [lia|].
    rewrite (buf_at_lookup _ _ _ Hx).
    assert (Hc : with_group irq group x
                 = if vip_irq x =? irq then set_vip_group x group else x)
      by reflexivity.
    destruct (vip_irq x =? irq).
    + rewrite IH by (rewrite length_insert; lia).
      rewrite (updated_from_step _ b i n x Hx), Hc. reflexivity.
    + rewrite IH by lia. symmetry. apply (updated_from_skip _ b i n x Hx Hc).
Qed.

Lemma set_group_lrs_spec (group : Z) (n : nat) :
  forall (lrs : list Z) (i : nat),
    (i + n <= length lrs)%nat ->
    set_group_lrs group n lrs i = updated_from (lr_with_group group) n lrs i.
Proof.
  induction n as [|n IH]; intros lrs i Hi.
  - rewrite updated_from_0. reflexivity.
  - cbn [set_group_lrs].
    destruct (lookup_lt_is_Some_2 lrs i) as [x Hx]; [lia|].
    rewrite (rd_lookup _ _ _ Hx).
    assert (Hc : lr_with_group group x
                 = if lr_pending x then
                     Z.lor (Z.land x (not64 (shl64 1 ICH_LR_EL2_GROUP_SHIFT)))
                       (shl64 group ICH_LR_EL2_GROUP_SHIFT)
                   else x) by reflexivity.
    destruct (lr_pending x).
    + rewrite IH by (rewrite length_insert; lia).
      rewrite (updated_from_step _ lrs i n x Hx), Hc. reflexivity.
    + rewrite IH by lia. symmetry.
      apply (updated_from_skip _ lrs i n x Hx Hc).
Qed.

Lemma set_group_vcpu_spec (irq group : Z) (c : vgic_v3_cpu_if) :
  wf_cpu_if c ->
  let c' := vgic_v3_irq_set_group_vcpu irq group c in
  pending c' = map (with_group irq group) (pending c)
  /\ ich_lr_el2 c'
     = map (lr_with_group group) (take (ich_lr_num c) (ich_lr_el2 c))
       ++ drop (ich_lr_num c) (ich_lr_el2 c)
  /\ irqbuf_num c' = irqbuf_num c /\ irqbuf_size c' = irqbuf_size c
  /\ length (irqbuf c') = length (irqbuf c)
  /\ ich_lr_num c' = ich_lr_num c /\ ich_vmcr_el2 c' = ich_vmcr_el2 c.
Proof.
  intros [Hlr Hsz Hnum]. unfold vgic_v3_irq_set_group_vcpu, pending.
  cbn [set_lrs set_irqbuf irqbuf irqbuf_num irqbuf_size ich_lr_el2 ich_lr_num
         ich_vmcr_el2].
  rewrite set_group_irqbuf_spec, set_group_lrs_spec by lia.
  rewrite !updated_from_start.
  rewrite updated_prefix_take, updated_prefix_length by lia.
  repeat split.
Qed.

(** The fields of a list register whose priority, or whose group, has been
    rewritten. *)
Lemma lr_priority_rewritten (priority lr : Z) :
  0 <= priority < 2 ^ 8 ->
  let lr' :=
    Z.lor (Z.land lr (not64 ICH_LR_EL2_PRIO_MASK))
      (shl64 priority ICH_LR_EL2_PRIO_SHIFT) in
  ICH_LR_EL2_STATE lr' = ICH_LR_EL2_STATE lr
  /\ ICH_LR_EL2_VINTID lr' = ICH_LR_EL2_VINTID lr
  /\ lr_group lr' = lr_group lr
  /\ lr_priority lr' = priority.
Proof.
  intros Hp lr'. subst lr'.
  unfold lr_group, lr_priority, lr_to_vip. cbn [vip_group vip_priority].
  unfold ICH_LR_EL2_STATE, ICH_LR_EL2_VINTID, not64, shl64, uint64, uint8.
  destruct masks_as_ones as (-> & -> & -> & _).
  unfold ICH_LR_EL2_GROUP_SHIFT, ICH_LR_EL2_PRIO_SHIFT.
  repeat match goal with |- context [Z.land ?x 0x1] =>
    change (Z.land x 0x1) with (Z.land x (Z.ones 1)) end.
  rewrite <- (Z.mod_small priority (2 ^ 8)) at 1 2 3 4 by lia.
  repeat split; try bits.
  rewrite <- (Z.mod_small priority (2 ^ 8)) at 2 by lia. bits.
Qed.

Lemma lr_group_rewritten (group lr : Z) :
  0 <= group <= 1 ->
  let lr' :=
    Z.lor (Z.land lr (not64 (shl64 1 ICH_LR_EL2_GROUP_SHIFT)))
      (shl64 group ICH_LR_EL2_GROUP_SHIFT) in
  ICH_LR_EL2_STATE lr' = ICH_LR_EL2_STATE lr
  /\ ICH_LR_EL2_VINTID lr' = ICH_LR_EL2_VINTID lr
  /\ lr_priority lr' = lr_priority lr
  /\ lr_group lr' = group.
Proof.
  intros Hg lr'. subst lr'.
  unfold lr_group, lr_priority, lr_to_vip. cbn [vip_group vip_priority].
  unfold ICH_LR_EL2_STATE, ICH_LR_EL2_VINTID, not64, shl64, uint64, uint8.
  destruct masks_as_ones as (-> & -> & -> & _).
  unfold ICH_LR_EL2_GROUP_SHIFT, ICH_LR_EL2_PRIO_SHIFT.
  repeat match goal with |- context [Z.land ?x 0x1] =>
    change (Z.land x 0x1) with (Z.land x (Z.ones 1)) end.
  change (Z.shiftl 1 60) with (Z.shiftl (Z.ones 1) 60).
  rewrite <- (Z.mod_small group (2 ^ 1)) at 1 2 3 4 by lia.
  repeat split; try bits.
  rewrite <- (Z.mod_small group (2 ^ 1)) at 2 by lia. bits.
Qed.

(** X5.  [vgic_v3_irq_set_priority_vcpu] with an 8-bit priority: the
    buffered entries of [irq] receive the priority and nothing else of the
    buffer changes; of a list register only the priority field can change:
    state, interrupt ID and group are kept, a register that is not pending
    is kept as a whole, and a pending one reads back the new priority. *)
Theorem set_priority_vcpu_effect (irq priority : Z) (c : vgic_v3_cpu_if) :
  wf_cpu_if c ->
  0 <= priority < 2 ^ 8 ->
  let c' := vgic_v3_irq_set_priority_vcpu irq priority c in
  pending c' = map (with_priority irq priority) (pending c)
  /\ map vip_irq (pending c') = map vip_irq (pending c)
  /\ length (ich_lr_el2 c') = length (ich_lr_el2 c)
  /\ forall (i : nat) (lr : Z),
       (i < ich_lr_num c)%nat -> ich_lr_el2 c !! i = Some lr ->
       exists lr' : Z,
         ich_lr_el2 c' !! i = Some lr'
         /\ ICH_LR_EL2_STATE lr' = ICH_LR_EL2_STATE lr
         /\ ICH_LR_EL2_VINTID lr' = ICH_LR_EL2_VINTID lr
         /\ lr_group lr' = lr_group lr
         /\ (lr_pending lr = true -> lr_priority lr' = priority)
         /\ (lr_pending lr = false -> lr' = lr).
Proof.
  intros Hwf Hp c'.
  destruct (set_priority_vcpu_spec irq priority c Hwf) as [Hb Hl].
  fold c' in Hb, Hl. split; [exact Hb|]. split; [|split].
  - rewrite Hb, map_map. apply map_ext. intros e. unfold with_priority.
    destruct (vip_irq e =? irq); reflexivity.
  - rewrite Hl. apply updated_prefix_length.
  - intros i lr Hi Hlr. rewrite Hl.
    rewrite (updated_prefix_lookup _ _ _ _ _ Hi Hlr).
    eexists. split; [reflexivity|]. unfold lr_with_priority.
    destruct (lr_pending lr).
    + destruct (lr_priority_rewritten priority lr Hp) as (Hs & Hv & Hg & Hpr).
      repeat split; intros; try assumption; try discriminate.
    + repeat split; try discriminate.
Qed.

Lemma set_priority_vcpu_effect_witness :
  let c' := vgic_v3_irq_set_priority_vcpu 33 0x10 ex_cpu_if_prio in
  pending c' = [mk_irq 33 VGIC_IRQ_VIRTIO 1 1 0x10]
  /\ exists lr' : Z,
       ich_lr_el2 c' !! 0%nat = Some lr'
       /\ ICH_LR_EL2_VINTID lr' = 40 /\ lr_priority lr' = 0x10.
Proof.
  assert (Hwf : wf_cpu_if ex_cpu_if_prio)
    by (split; [vm_compute; lia | reflexivity | vm_compute; lia]).
  assert (Hp : 0 <= 0x10 < 2 ^ 8) by lia.
  destruct (set_priority_vcpu_effect 33 0x10 ex_cpu_if_prio Hwf Hp)
    as (Hb & _ & _ & Hl).
  intros c'. fold c' in Hb, Hl. split; [rewrite Hb; reflexivity|].
  destruct (Hl 0%nat (vip_to_lr (mk_irq 40 VGIC_IRQ_VIRTIO 1 1 0x80)))
    as (lr' & E & _ & Hv & _ & Hpr & _); [vm_compute; lia | reflexivity |].
  exists lr'. split; [exact E|]. split; [rewrite Hv; reflexivity|].
  apply Hpr. reflexivity.
Defined.

(** X6.  [vgic_v3_irq_set_group_vcpu] with a group of 0 or 1: the buffered
    entries of [irq] receive the group and nothing else of the buffer
    changes; of a list register only the group bit can change: state,
    interrupt ID and priority are kept, a register that is not pending is
    kept as a whole, and a pending one reads back the new group, whichever
    interrupt it holds. *)
Theorem set_group_vcpu_effect (irq group : Z) (c : vgic_v3_cpu_if) :
  wf_cpu_if c ->
  0 <= group <= 1 ->
  let c' := vgic_v3_irq_set_group_vcpu irq group c in
  pending c' = map (with_group irq group) (pending c)
  /\ map vip_irq (pending c') = map vip_irq (pending c)
  /\ length (ich_lr_el2 c') = length (ich_lr_el2 c)
  /\ forall (i : nat) (lr : Z),
       (i < ich_lr_num c)%nat -> ich_lr_el2 c !! i = Some lr ->
       exists lr' : Z,
         ich_lr_el2 c' !! i = Some lr'
         /\ ICH_LR_EL2_STATE lr' = ICH_LR_EL2_STATE lr
         /\ ICH_LR_EL2_VINTID lr' = ICH_LR_EL2_VINTID lr
         /\ lr_priority lr' = lr_priority lr
         /\ (lr_pending lr = true -> lr_group lr' = group)
         /\ (lr_pending lr = false -> lr' = lr).
Proof.
  intros Hwf Hg c'.
  destruct (set_group_vcpu_spec irq group c Hwf) as (Hb & Hl & _).
  fold c' in Hb, Hl. split; [exact Hb|]. split; [|split].
  - rewrite Hb, map_map. apply map_ext. intros e. unfold with_group.
    destruct (vip_irq e =? irq); reflexivity.
  - rewrite Hl. apply updated_prefix_length.
  - intros i lr Hi Hlr. rewrite Hl.
    rewrite (updated_prefix_lookup _ _ _ _ _ Hi Hlr).
    eexists. split; [reflexivity|]. unfold lr_with_group.
    destruct (lr_pending lr).
    + destruct (lr_group_rewritten group lr Hg) as (Hs & Hv & Hpr & Hgr).
      repeat split; intros; try assumption; try discriminate.
    + repeat split; try discriminate.
Qed.

Lemma set_group_vcpu_effect_witness :
  let c' := vgic_v3_irq_set_group_vcpu 33 0 ex_cpu_if_prio in
  pending c' = [mk_irq 33 VGIC_IRQ_VIRTIO 0 1 0x80]
  /\ exists lr' : Z,
       ich_lr_el2 c' !! 0%nat = Some lr'
       /\ ICH_LR_EL2_VINTID lr' = 40 /\ lr_group lr' = 0.
Proof.
  assert (Hwf : wf_cpu_if ex_cpu_if_prio)
    by (split; [vm_compute; lia | reflexivity | vm_compute; lia]).
  assert (Hg : 0 <= 0 <= 1) by lia.
  destruct (set_group_vcpu_effect 33 0 ex_cpu_if_prio Hwf Hg)
    as (Hb & _ & _ & Hl).
  intros c'. fold c' in Hb, Hl. split; [rewrite Hb; reflexivity|].
  destruct (Hl 0%nat (vip_to_lr (mk_irq 40 VGIC_IRQ_VIRTIO 1 1 0x80)))
    as (lr' & E & _ & Hv & _ & Hgr & _); [vm_compute; lia | reflexivity |].
  exists lr'. split; [exact E|]. split; [rewrite Hv; reflexivity|].
  apply Hgr. reflexivity.
Defined.

Lemma update_cpu_if_spec (hyp : struct_hyp) (i : nat)
    (f : vgic_v3_cpu_if -> vgic_v3_cpu_if) :
  only_cpu_if_of i f hyp (update_cpu_if hyp i f).
Proof.
  unfold only_cpu_if_of, update_cpu_if.
  destruct (ctx hyp !! i) as [h|] eqn:E; cbn [vgic_dist hyp_vtimer ctx].
  - repeat split.
    + apply length_insert.
    + intros j Hj. apply list_lookup_insert_ne. congruence.
    + apply list_lookup_insert_eq. eapply lookup_lt_Some. exact E.
  - rewrite E. repeat split.
Qed.

(** X7.  Which vCPU an update reaches.  [vgic_v3_irq_set_group] and
    [vgic_v3_irq_toggle_enabled] change the CPU interface of one vCPU and
    nothing else of the VM: the vCPU [vcpuid] for a private interrupt (ID up
    to 31) and vCPU 0, whatever [vcpuid] is, for a shared one; the interface
    becomes what [vgic_v3_irq_set_group_vcpu] and
    [vgic_v3_irq_toggle_enabled_vcpu] make of it, and
    [vgic_v3_irq_toggle_enabled] returns 0. *)
Theorem update_reaches_one_vcpu (irq group : Z) (enabled : bool)
    (hyp : struct_hyp) (vcpuid : nat) :
  only_cpu_if_of (target_vcpu irq vcpuid)
    (vgic_v3_irq_set_group_vcpu irq group) hyp
    (vgic_v3_irq_set_group irq group hyp vcpuid)
  /\ only_cpu_if_of (target_vcpu irq vcpuid)
       (fun c => snd (vgic_v3_irq_toggle_enabled_vcpu irq enabled c)) hyp
       (snd (vgic_v3_irq_toggle_enabled irq enabled hyp vcpuid))
  /\ fst (vgic_v3_irq_toggle_enabled irq enabled hyp vcpuid) = 0.
Proof.
  assert (Hat : forall i : nat,
             only_cpu_if_of i
               (fun c => snd (vgic_v3_irq_toggle_enabled_vcpu irq enabled c))
               hyp (snd (toggle_enabled_at irq enabled hyp i))
             /\ fst (toggle_enabled_at irq enabled hyp i) = 0).
  { intros i. unfold toggle_enabled_at, only_cpu_if_of.
    destruct (ctx hyp !! i) as [h|] eqn:E; cbn [option_map].
    - assert (Hr : fst (vgic_v3_irq_toggle_enabled_vcpu irq enabled
                          (vgic_cpu_if h)) = 0)
        by (unfold vgic_v3_irq_toggle_enabled_vcpu; destruct enabled;
            reflexivity).
      destruct (vgic_v3_irq_toggle_enabled_vcpu irq enabled (vgic_cpu_if h))
        as [error c'].
      cbn [fst snd vgic_dist hyp_vtimer ctx] in *. repeat split.
      + apply length_insert.
      + intros j Hj. apply list_lookup_insert_ne. congruence.
      + apply list_lookup_insert_eq. eapply lookup_lt_Some. exact E.
      + exact Hr.
    - cbn [fst snd]. rewrite E. repeat split. }
  unfold vgic_v3_irq_set_group, vgic_v3_irq_toggle_enabled, target_vcpu.
  destruct (irq <=? GIC_LAST_PPI).
  - split; [apply update_cpu_if_spec | apply Hat].
  - cbn [Nat.sub set_group_for toggle_enabled_for].
    split; [apply update_cpu_if_spec|].
    destruct (Hat 0%nat) as [H0 H1].
    destruct (toggle_enabled_at irq enabled hyp 0) as [error hyp'].
    cbn [fst snd] in *. subst error. cbn [truthy Z.eqb negb fst snd].
    split; [exact H0 | reflexivity].
Qed.

(** ** Enabling and disabling *)

Lemma toggle_enabled_irqbuf_spec (irq : Z) (n : nat) :
  forall (b : list vgic_v3_irq) (i : nat),
    (i + n <= length b)%nat ->
    toggle_enabled_irqbuf irq n b i = updated_from (enabled_for irq) n b i.
Proof.
  induction n as [|n IH]; intros b i Hi.
  - rewrite updated_from_0. reflexivity.
  - cbn [toggle_enabled_irqbuf].
    destruct (lookup_lt_is_Some_2 b i) as [x Hx]; [lia|].
    rewrite (buf_at_lookup _ _ _ Hx).
    assert (Hc : enabled_for irq x
                 = if vip_irq x =? irq then set_vip_enabled x 1 else x)
      by reflexivity.
    destruct (vip_irq x =? irq).
    + rewrite IH by (rewrite length_insert; lia).
      rewrite (updated_from_step _ b i n x Hx), Hc. reflexivity.
    + rewrite IH by lia. symmetry. apply (updated_from_skip _ b i n x Hx Hc).
Qed.

Lemma toggle_enabled_lrs_spec (irq : Z) (n : nat) :
  forall (lrs : list Z) (i : nat),
    (i + n <= length lrs)%nat ->
    toggle_enabled_lrs irq n lrs i = updated_from (clear_pending irq) n lrs i.
Proof.
  induction n as [|n IH]; intros lrs i Hi.
  - rewrite updated_from_0. reflexivity.
  - cbn [toggle_enabled_lrs].
    destruct (lookup_lt_is_Some_2 lrs i) as [x Hx]; [lia|].
    rewrite (rd_lookup _ _ _ Hx).
    assert (Hc : clear_pending irq x
                 = if lr_pending x && (ICH_LR_EL2_VINTID x =? irq)
                   then lr_clear_irq x else x) by reflexivity.
    destruct (lr_pending x && (ICH_LR_EL2_VINTID x =? irq)).
    + rewrite IH by (rewrite length_insert; lia).
      rewrite (updated_from_step _ lrs i n x Hx), Hc. reflexivity.
    + rewrite IH by lia. symmetry.
      apply (updated_from_skip _ lrs i n x Hx Hc).
Qed.

Lemma toggle_group_enabled_irqbuf_spec (group : Z) (enabled : bool)
    (dist : vgic_v3_dist) (redist : vgic_v3_redist) (n : nat) :
  forall (b : list vgic_v3_irq) (j : nat),
    (j + n <= length b)%nat ->
    toggle_group_enabled_irqbuf group enabled dist redist n b j
    = updated_from (group_toggled group enabled dist redist) n b j.
Proof.
  induction n as [|n IH]; intros b j Hj.
  - rewrite updated_from_0. reflexivity.
  - cbn [toggle_group_enabled_irqbuf].
    destruct (lookup_lt_is_Some_2 b j) as [x Hx]; [lia|].
    rewrite (buf_at_lookup _ _ _ Hx).
    assert (Hc : group_toggled group enabled dist redist x
                 = if negb (vip_group x =? group) then x
                   else if negb enabled then set_vip_enabled x 0
                   else if vgic_v3_intid_enabled (vip_irq x) dist redist
                   then set_vip_enabled x 1
                   else x) by reflexivity.
    destruct (negb (vip_group x =? group));
      [|destruct (negb enabled);
        [|destruct (vgic_v3_intid_enabled (vip_irq x) dist redist)]].
    + rewrite IH by lia. symmetry. apply (updated_from_skip _ b j n x Hx Hc).
    + rewrite IH by (rewrite length_insert; lia).
      rewrite (updated_from_step _ b j n x Hx), Hc. reflexivity.
    + rewrite IH by (rewrite length_insert; lia).
      rewrite (updated_from_step _ b j n x Hx), Hc. reflexivity.
    + rewrite IH by lia. symmetry. apply (updated_from_skip _ b j n x Hx Hc).
Qed.

Lemma hyp_eta (hyp : struct_hyp) :
  mk_hyp (vgic_dist hyp) (hyp_vtimer hyp) (ctx hyp) = hyp.
Proof. destruct hyp; reflexivity. Qed.

Lemma toggle_group_enabled_for_spec (group : Z) (enabled : bool) (n : nat) :
  forall (hyp : struct_hyp) (i : nat),
    (i + n <= length (ctx hyp))%nat ->
    toggle_group_enabled_for group enabled n hyp i
    = mk_hyp (vgic_dist hyp) (hyp_vtimer hyp)
        (updated_from (toggle_group_enabled_ctx group enabled (vgic_dist hyp))
           n (ctx hyp) i).
Proof.
  induction n as [|n IH]; intros hyp i Hi.
  - rewrite updated_from_0. symmetry. apply hyp_eta.
  - cbn [toggle_group_enabled_for].
    destruct (lookup_lt_is_Some_2 (ctx hyp) i) as [h Hh]; [lia|].
    rewrite Hh, IH by (cbn [ctx]; rewrite length_insert; lia).
    cbn [vgic_dist hyp_vtimer ctx].
    rewrite (updated_from_step _ (ctx hyp) i n h Hh). reflexivity.
Qed.

(** [vgic_v3_irq_toggle_group_enabled] applies [group_toggled] to every
    buffered entry of every vCPU and changes nothing else. *)
Lemma toggle_group_enabled_spec (group : Z) (enabled : bool)
    (hyp : struct_hyp) :
  Forall (fun h => (irqbuf_num (vgic_cpu_if h)
                    <= length (irqbuf (vgic_cpu_if h)))%nat) (ctx hyp) ->
  let hyp' := vgic_v3_irq_toggle_group_enabled group enabled hyp in
  vgic_dist hyp' = vgic_dist hyp
  /\ hyp_vtimer hyp' = hyp_vtimer hyp
  /\ length (ctx hyp') = length (ctx hyp)
  /\ forall (i : nat) (h : struct_hypctx),
       ctx hyp !! i = Some h ->
       exists h' : struct_hypctx,
         ctx hyp' !! i = Some h'
         /\ vgic_redist h' = vgic_redist h
         /\ vtimer_cpu_of h' = vtimer_cpu_of h
         /\ ich_lr_el2 (vgic_cpu_if h') = ich_lr_el2 (vgic_cpu_if h)
         /\ ich_lr_num (vgic_cpu_if h') = ich_lr_num (vgic_cpu_if h)
         /\ ich_vmcr_el2 (vgic_cpu_if h') = ich_vmcr_el2 (vgic_cpu_if h)
         /\ pending (vgic_cpu_if h')
            = map (group_toggled group enabled (vgic_dist hyp) (vgic_redist h))
                (pending (vgic_cpu_if h)).
Proof.
  intros Hwf hyp'. subst hyp'.
  unfold vgic_v3_irq_toggle_group_enabled, VM_MAXCPU.
  rewrite Nat.sub_0_r, toggle_group_enabled_for_spec by lia.
  rewrite updated_from_start, firstn_all, drop_all, app_nil_r.
  cbn [vgic_dist hyp_vtimer ctx]. split; [reflexivity|].
  split; [reflexivity|]. split; [apply length_map|].
  intros i h Hh.
  change (map (toggle_group_enabled_ctx group enabled (vgic_dist hyp))
            (ctx hyp))
    with (toggle_group_enabled_ctx group enabled (vgic_dist hyp) <$> ctx hyp).
  rewrite list_lookup_fmap, Hh. eexists. split; [reflexivity|].
  unfold toggle_group_enabled_ctx, pending.
  cbn [set_cpu_if set_irqbuf vgic_redist vtimer_cpu_of vgic_cpu_if ich_lr_el2
         ich_lr_num ich_vmcr_el2 irqbuf irqbuf_num].
  repeat match goal with |- _ /\ _ => split end; try reflexivity.
  assert (Hn : (irqbuf_num (vgic_cpu_if h)
                <= length (irqbuf (vgic_cpu_if h)))%nat).
  { exact (Forall_lookup_1 _ _ _ _ Hwf Hh). }
  rewrite toggle_group_enabled_irqbuf_spec, updated_from_start by lia.
  apply updated_prefix_take; lia.
Qed.

(** X8.  [vgic_v3_irq_toggle_group_enabled] with [enabled] false clears the
    enabled flag of the buffered entries of the group, on every vCPU, and
    changes nothing else: no entry is added or removed, the entries of the
    other groups and the list registers are kept.  Afterwards no buffered
    entry of the group passes the test of [vgic_v3_irqbuf_next_enabled]. *)
Theorem group_disable_effect (group : Z) (hyp : struct_hyp) :
  Forall (fun h => (irqbuf_num (vgic_cpu_if h)
                    <= length (irqbuf (vgic_cpu_if h)))%nat) (ctx hyp) ->
  let hyp' := vgic_v3_irq_toggle_group_enabled group false hyp in
  vgic_dist hyp' = vgic_dist hyp
  /\ length (ctx hyp') = length (ctx hyp)
  /\ forall (i : nat) (h : struct_hypctx),
       ctx hyp !! i = Some h ->
       exists h' : struct_hypctx,
         ctx hyp' !! i = Some h'
         /\ ich_lr_el2 (vgic_cpu_if h') = ich_lr_el2 (vgic_cpu_if h)
         /\ pending (vgic_cpu_if h')
            = map (fun e => if vip_group e =? group
                            then set_vip_enabled e 0 else e)
                (pending (vgic_cpu_if h))
         /\ Forall (fun e =>
                      vip_group e = group ->
                      forall (dist : vgic_v3_dist) (redist : vgic_v3_redist)
                        (vmcr : Z),
                        schedulable dist redist vmcr e = false)
              (pending (vgic_cpu_if h')).
Proof.
  intros Hwf hyp'.
  destruct (toggle_group_enabled_spec group false hyp Hwf) as (Hd & _ & Hl & H).
  fold hyp' in Hd, Hl, H. split; [exact Hd|]. split; [exact Hl|].
  intros i h Hh. destruct (H i h Hh) as (h' & E & _ & _ & Hlr & _ & _ & Hp).
  exists h'. split; [exact E|]. split; [exact Hlr|].
  assert (Hm : pending (vgic_cpu_if h')
               = map (fun e => if vip_group e =? group
                               then set_vip_enabled e 0 else e)
                   (pending (vgic_cpu_if h))).
  { rewrite Hp. apply map_ext. intros e. unfold group_toggled.
    destruct (vip_group e =? group); reflexivity. }
  split; [exact Hm|]. rewrite Hm. apply List.Forall_forall. intros e' He'.
  apply in_map_iff in He' as (e & <- & _). intros Hg dist redist vmcr.
  destruct (vip_group e =? group) eqn:G.
  - reflexivity.
  - apply Z.eqb_neq in G. contradiction.
Qed.

Lemma group_disable_effect_witness :
  exists h' : struct_hypctx,
    ctx (vgic_v3_irq_toggle_group_enabled 1 false ex_hyp) !! 1%nat = Some h'
    /\ pending (vgic_cpu_if h') = [mk_irq 40 VGIC_IRQ_VIRTIO 1 0 0x80].
Proof.
  destruct (group_disable_effect 1 ex_hyp) as (_ & _ & H).
  - repeat constructor; vm_compute; lia.
  - destruct (H 1%nat (mk_hypctx ex_redist ex_cpu_if_spi ex_vtimer_cpu)
                eq_refl) as (h' & E & _ & Hp & _).
    exists h'. split; [exact E | rewrite Hp; reflexivity].
Defined.

(** X9.  [vgic_v3_irq_toggle_group_enabled] with [enabled] true sets the
    enabled flag of the buffered entries of the group whose interrupt ID is
    enabled in the Distributor (in the Redistributor, for a private
    interrupt), on every vCPU, and changes nothing else; no flag is
    cleared.  Neither the routing of the interrupt nor the flag that the
    entry had is looked at: an entry of the group comes out enabled
    whenever its ID is. *)
Theorem group_enable_effect (group : Z) (hyp : struct_hyp) :
  Forall (fun h => (irqbuf_num (vgic_cpu_if h)
                    <= length (irqbuf (vgic_cpu_if h)))%nat) (ctx hyp) ->
  let hyp' := vgic_v3_irq_toggle_group_enabled group true hyp in
  vgic_dist hyp' = vgic_dist hyp
  /\ length (ctx hyp') = length (ctx hyp)
  /\ forall (i : nat) (h : struct_hypctx),
       ctx hyp !! i = Some h ->
       exists h' : struct_hypctx,
         ctx hyp' !! i = Some h'
         /\ ich_lr_el2 (vgic_cpu_if h') = ich_lr_el2 (vgic_cpu_if h)
         /\ pending (vgic_cpu_if h')
            = map (fun e =>
                     if (vip_group e =? group)
                        && vgic_v3_intid_enabled (vip_irq e) (vgic_dist hyp)
                             (vgic_redist h)
                     then set_vip_enabled e 1 else e)
                (pending (vgic_cpu_if h))
         /\ Forall (fun e =>
                      vip_group e = group ->
                      vgic_v3_intid_enabled (vip_irq e) (vgic_dist hyp)
                        (vgic_redist h) = true ->
                      vip_enabled e = 1)
              (pending (vgic_cpu_if h')).
Proof.
  intros Hwf hyp'.
  destruct (toggle_group_enabled_spec group true hyp Hwf) as (Hd & _ & Hl & H).
  fold hyp' in Hd, Hl, H. split; [exact Hd|]. split; [exact Hl|].
  intros i h Hh. destruct (H i h Hh) as (h' & E & _ & _ & Hlr & _ & _ & Hp).
  exists h'. split; [exact E|]. split; [exact Hlr|].
  match goal with |- _ = map ?f _ /\ _ => set (F := f) end.
  assert (Hm : pending (vgic_cpu_if h') = map F (pending (vgic_cpu_if h))).
  { rewrite Hp. apply map_ext. intros e. unfold group_toggled, F.
    destruct (vip_group e =? group); [|reflexivity]. cbn [negb andb].
    destruct (vgic_v3_intid_enabled _ _ _); reflexivity. }
  split; [exact Hm|]. rewrite Hm. apply List.Forall_forall. intros e' He'.
  apply in_map_iff in He' as (e & <- & _). unfold F.
  destruct ((vip_group e =? group)
            && vgic_v3_intid_enabled (vip_irq e) (vgic_dist hyp)
                 (vgic_redist h)) eqn:G.
  - reflexivity.
  - intros Hg Hen. apply Z.eqb_eq in Hg. rewrite Hg, Hen in G. discriminate.
Qed.

Lemma group_enable_effect_witness :
  let hyp := vgic_v3_irq_toggle_group_enabled 1 false ex_hyp in
  exists h' : struct_hypctx,
    ctx (vgic_v3_irq_toggle_group_enabled 1 true hyp) !! 0%nat = Some h'
    /\ pending (vgic_cpu_if h') = [mk_irq 40 VGIC_IRQ_VIRTIO 1 1 0x80].
Proof.
  intros hyp.
  destruct (group_enable_effect 1 hyp) as (_ & _ & H).
  - repeat constructor; vm_compute; lia.
  - destruct (H 0%nat
                (mk_hypctx ex_redist
                   (mk_cpu_if ex_vmcr (replicate 16 0) 4
                      (mk_irq 40 VGIC_IRQ_VIRTIO 1 0 0x80
                         :: replicate 31 irq_zero) 32 1) ex_vtimer_cpu)
                eq_refl) as (h' & E & _ & Hp & _).
    exists h'. split; [exact E | rewrite Hp; reflexivity].
Defined.

(** The state field of a list register holds one of four values. *)
Lemma lr_state_cases (lr : Z) :
  exists k : Z, 0 <= k < 4 /\ ICH_LR_EL2_STATE lr = Z.shiftl k 62.
Proof.
  exists (Z.land (Z.shiftr lr 62) (Z.ones 2)). split.
  - rewrite Z.land_ones by lia. apply Z.mod_pos_bound. lia.
  - unfold ICH_LR_EL2_STATE. destruct masks_as_ones as (_ & _ & -> & _). bits.
Qed.

Lemma lr_not_active_cases (lr : Z) :
  lr_not_active lr = lr_pending lr || lr_inactive lr.
Proof.
  unfold lr_not_active, lr_pending, lr_inactive, lr_active, lr_pending_active.
  destruct (lr_state_cases lr) as (k & Hk & ->).
  assert (H : k = 0 \/ k = 1 \/ k = 2 \/ k = 3) by lia.
  destruct H as [->|[->|[->| ->]]]; reflexivity.
Qed.

(** Clearing the state of an inactive list register changes nothing. *)
Lemma lr_clear_irq_id (lr : Z) :
  0 <= lr < 2 ^ 64 -> lr_inactive lr = true -> lr_clear_irq lr = lr.
Proof.
  intros Hlr Hi. unfold lr_inactive in Hi. apply Z.eqb_eq in Hi.
  change ICH_LR_EL2_STATE_INACTIVE with 0 in Hi.
  assert (A : Z.lor (ICH_LR_EL2_STATE lr) (lr_clear_irq lr) = lr mod 2 ^ 64).
  { unfold ICH_LR_EL2_STATE, lr_clear_irq, not64, uint64.
    destruct masks_as_ones as (_ & _ & -> & _). bits. }
  rewrite Hi, Z.lor_0_l, Z.mod_small in A by lia. exact A.
Qed.

Lemma lr_clear_irq_not_pending (lr : Z) : lr_pending (lr_clear_irq lr) = false.
Proof.
  pose proof (lr_clear_irq_inactive lr) as H. unfold lr_inactive in H.
  apply Z.eqb_eq in H. unfold lr_pending. rewrite H. reflexivity.
Qed.

(** On a 64-bit register, the removal that does not ignore the state and
    the disabling do the same. *)
Lemma clear_if_pending (irq lr : Z) :
  0 <= lr < 2 ^ 64 -> clear_if irq false lr = clear_pending irq lr.
Proof.
  intros Hlr. unfold clear_if, clear_pending.
  rewrite lr_not_active_cases, orb_false_r.
  destruct (ICH_LR_EL2_VINTID lr =? irq); [|rewrite andb_false_r; reflexivity].
  rewrite andb_true_r. cbn [andb].
  destruct (lr_pending lr); [reflexivity|]. cbn [orb].
  destruct (lr_inactive lr) eqn:I; [|reflexivity].
  apply lr_clear_irq_id; assumption.
Qed.

Lemma toggle_disable_spec (irq : Z) (c : vgic_v3_cpu_if) :
  wf_cpu_if c ->
  let c' := snd (vgic_v3_irq_toggle_enabled_vcpu irq false c) in
  pending c' = List.filter (kept irq) (pending c)
  /\ ich_lr_el2 c'
     = map (clear_pending irq) (take (ich_lr_num c) (ich_lr_el2 c))
       ++ drop (ich_lr_num c) (ich_lr_el2 c)
  /\ ich_lr_num c' = ich_lr_num c
  /\ irqbuf_size c' = irqbuf_size c
  /\ length (irqbuf c') = length (irqbuf c)
  /\ (irqbuf_num c' <= irqbuf_num c)%nat.
Proof.
  intros [Hlr Hsz Hnum] c'. subst c'. unfold vgic_v3_irq_toggle_enabled_vcpu.
  cbn [snd].
  destruct (remove_nolock_spec irq
              (set_lrs c (toggle_enabled_lrs irq (ich_lr_num c)
                            (ich_lr_el2 c) 0)))
    as (Rp & _ & Rl & Rn & Rs & Rlen & Rle).
  { simpl. lia. }
  split; [rewrite Rp; reflexivity|].
  split.
  { rewrite Rl. cbn [set_lrs ich_lr_el2].
    rewrite toggle_enabled_lrs_spec, updated_from_start by lia. reflexivity. }
  split; [rewrite Rn; reflexivity|]. split; [rewrite Rs; reflexivity|].
  split; [rewrite Rlen; reflexivity | exact Rle].
Qed.

(** X10.  Disabling an interrupt ([vgic_v3_irq_toggle_enabled_vcpu] with
    [enabled] false) does to the CPU interface what [vgic_v3_remove_irq]
    with [ignore_state] false does, when the list registers hold 64-bit
    values: all the buffered entries of the interrupt are removed, a list
    register that holds the interrupt as pending becomes inactive, and the
    registers that are not pending are kept.  The call returns 0. *)
Theorem disable_is_remove (dist : vgic_v3_dist) (hypctx : struct_hypctx)
    (irq : Z) :
  let c := vgic_cpu_if hypctx in
  let r := vgic_v3_irq_toggle_enabled_vcpu irq false c in
  wf_cpu_if c ->
  Forall (fun lr => 0 <= lr < 2 ^ 64) (ich_lr_el2 c) ->
  irq < nirqs dist ->
  vgic_v3_remove_irq dist hypctx irq false = (0, set_cpu_if hypctx (snd r))
  /\ fst r = 0
  /\ pending (snd r) = List.filter (kept irq) (pending c)
  /\ (forall (i : nat) (lr' : Z),
        (i < ich_lr_num c)%nat -> ich_lr_el2 (snd r) !! i = Some lr' ->
        lr_pending lr' && (ICH_LR_EL2_VINTID lr' =? irq) = false)
  /\ (forall (i : nat) (lr : Z),
        ich_lr_el2 c !! i = Some lr -> lr_pending lr = false ->
        ich_lr_el2 (snd r) !! i = Some lr).
Proof.
  intros c r Hwf H64 Hirq. pose proof Hwf as [Hlr Hsz Hnum].
  destruct (toggle_disable_spec irq c Hwf) as (Hp & Hl & _). fold r in Hp, Hl.
  split; [|split; [reflexivity|split; [exact Hp|split]]].
  - unfold vgic_v3_remove_irq. fold c.
    assert (G : (irq >=? nirqs dist) = false) by lia. rewrite G.
    subst r. unfold vgic_v3_irq_toggle_enabled_vcpu. cbn [snd].
    rewrite remove_irq_lrs_spec, toggle_enabled_lrs_spec by lia.
    unfold updated_from.
    assert (Hm : map (clear_if irq false)
                   (take (ich_lr_num c) (drop 0 (ich_lr_el2 c)))
                 = map (clear_pending irq)
                     (take (ich_lr_num c) (drop 0 (ich_lr_el2 c)))).
    { apply map_ext_in. intros lr Hin. apply clear_if_pending.
      pose proof (Forall_take _ (ich_lr_num c) _ H64) as H64'.
      rewrite List.Forall_forall in H64'. apply H64'.
      rewrite drop_0 in Hin. exact Hin. }
    rewrite Hm. reflexivity.
  - intros i lr' Hi Hlr'. rewrite Hl in Hlr'.
    destruct (lookup_lt_is_Some_2 (ich_lr_el2 c) i) as [lr Hx]; [lia|].
    rewrite (updated_prefix_lookup _ _ _ _ _ Hi Hx) in Hlr'.
    injection Hlr' as <-. unfold clear_pending.
    destruct (lr_pending lr && (ICH_LR_EL2_VINTID lr =? irq)) eqn:E.
    + rewrite lr_clear_irq_not_pending. reflexivity.
    + exact E.
  - intros i lr Hx Hnp. rewrite Hl.
    destruct (Nat.lt_ge_cases i (ich_lr_num c)) as [Hi|Hi].
    + rewrite (updated_prefix_lookup _ _ _ _ _ Hi Hx). unfold clear_pending.
      rewrite Hnp. reflexivity.
    + rewrite lookup_app_r by (rewrite length_map, length_take; lia).
      rewrite length_map, length_take, lookup_drop, <- Hx. f_equal. lia.
Qed.

Lemma disable_is_remove_witness :
  let r := vgic_v3_irq_toggle_enabled_vcpu 30 false ex_cpu_if_armed in
  vgic_v3_remove_irq ex_dist ex_hypctx_armed 30 false
  = (0, set_cpu_if ex_hypctx_armed (snd r))
  /\ pending (snd r) = [mk_irq 40 VGIC_IRQ_VIRTIO 1 1 0x20]
  /\ ich_lr_el2 (snd r) !! 1%nat = Some (Z.lor ICH_LR_EL2_STATE_ACTIVE 30).
Proof.
  destruct (disable_is_remove ex_dist ex_hypctx_armed 30)
    as (Hr & _ & Hp & _ & Hk).
  - split; [vm_compute; lia | reflexivity | vm_compute; lia].
  - repeat constructor; vm_compute; discriminate.
  - reflexivity.
  - intros r. split; [exact Hr|].
    split; [etransitivity; [exact Hp | reflexivity]|].
    apply Hk; reflexivity.
Defined.

(** X11.  Enabling an interrupt ([vgic_v3_irq_toggle_enabled_vcpu] with
    [enabled] true) sets the enabled flag of the buffered entries of the
    interrupt and changes nothing else; the call returns 0.  Afterwards an
    entry of the interrupt passes the test of [vgic_v3_irqbuf_next_enabled]
    exactly when the VMCR enables the group of the interrupt: the group
    enable of the Distributor and the routing, which the injection had
    resolved into the flag, no longer count. *)
Theorem enable_effect (irq : Z) (c : vgic_v3_cpu_if) :
  (irqbuf_num c <= length (irqbuf c))%nat ->
  let r := vgic_v3_irq_toggle_enabled_vcpu irq true c in
  fst r = 0
  /\ pending (snd r)
     = map (fun e => if vip_irq e =? irq then set_vip_enabled e 1 else e)
         (pending c)
  /\ ich_lr_el2 (snd r) = ich_lr_el2 c
  /\ ich_vmcr_el2 (snd r) = ich_vmcr_el2 c
  /\ Forall (fun e =>
               vip_irq e = irq ->
               forall (dist : vgic_v3_dist) (redist : vgic_v3_redist)
                 (vmcr : Z),
                 schedulable dist redist vmcr e
                 = vmcr_group_on vmcr (vgic_v3_get_int_group irq dist redist))
       (pending (snd r)).
Proof.
  intros Hn r. subst r. unfold vgic_v3_irq_toggle_enabled_vcpu.
  cbn [fst snd]. unfold pending.
  cbn [set_irqbuf irqbuf irqbuf_num ich_lr_el2 ich_vmcr_el2].
  rewrite toggle_enabled_irqbuf_spec, updated_from_start by lia.
  rewrite updated_prefix_take by lia.
  split; [reflexivity|]. split; [reflexivity|]. split; [reflexivity|].
  split; [reflexivity|].
  apply List.Forall_forall. intros e' He'.
  apply in_map_iff in He' as (e & <- & _). unfold enabled_for.
  destruct (vip_irq e =? irq) eqn:E.
  - cbn [set_vip_enabled vip_irq]. intros Hi dist redist vmcr.
    unfold schedulable, set_vip_enabled. cbn [vip_enabled vip_irq].
    rewrite Hi. reflexivity.
  - intros Hi. apply Z.eqb_neq in E. contradiction.
Qed.

Lemma enable_effect_witness :
  let c :=
    mk_cpu_if ex_vmcr (replicate 16 0) 4
      (mk_irq 40 VGIC_IRQ_VIRTIO 1 0 0x80 :: replicate 31 irq_zero) 32 1 in
  pending (snd (vgic_v3_irq_toggle_enabled_vcpu 40 true c))
  = [mk_irq 40 VGIC_IRQ_VIRTIO 1 1 0x80].
Proof.
  intros c.
  destruct (enable_effect 40 c) as (_ & Hp & _); [vm_compute; lia|].
  etransitivity; [exact Hp | reflexivity].
Defined.

(** ** Passes of the synchronizer *)

Lemma filter_none {A : Type} (f : A -> bool) (l : list A) :
  Forall (fun e => f e = false) l -> List.filter f l = [].
Proof.
  induction 1 as [|e l He _ IH]; simpl; [reflexivity|].
  rewrite He. exact IH.
Qed.

Lemma filter_all {A : Type} (f : A -> bool) (l : list A) :
  Forall (fun e => f e = true) l -> List.filter f l = l.
Proof.
  induction 1 as [|e l He _ IH]; simpl; [reflexivity|].
  rewrite He, IH. reflexivity.
Qed.

(** Each entry placed takes one inactive list register. *)
Lemma fill_lrs_free (lrs : list Z) :
  forall vs : list vgic_v3_irq,
    (length vs <= length (List.filter lr_inactive lrs))%nat ->
    length (List.filter lr_inactive (fill_lrs lrs vs))
    = (length (List.filter lr_inactive lrs) - length vs)%nat.
Proof.
  induction lrs as [|lr lrs IH]; intros vs Hvs.
  - destruct vs; reflexivity.
  - destruct vs as [|v vs]; [simpl; lia|].
    cbn [fill_lrs List.filter] in *. destruct (lr_inactive lr) eqn:E.
    + cbn [List.filter length] in *. rewrite vip_to_lr_not_inactive.
      rewrite IH by lia. reflexivity.
    + cbn [List.filter]. rewrite E. apply IH. exact Hvs.
Qed.

(** A removal that finds no entry of the interrupt leaves the state as it
    is. *)
Lemma remove_while_noop (irq : Z) (n : nat) :
  forall (c : vgic_v3_cpu_if) (dest from : nat),
    n = (irqbuf_num c - dest)%nat ->
    (irqbuf_num c <= length (irqbuf c))%nat ->
    Forall (fun e => kept irq e = true) (pending c) ->
    fst (fst (remove_while irq n c dest from)) = c.
Proof.
  induction n as [|n IH]; intros c dest from Hn Hl Hk; [reflexivity|].
  cbn [remove_while].
  destruct (lookup_lt_is_Some_2 (irqbuf c) dest) as [x Hx]; [lia|].
  rewrite (buf_at_lookup _ _ _ Hx).
  assert (Hkx : kept irq x = true).
  { apply (Forall_lookup_1 _ _ dest x Hk). unfold pending.
    rewrite lookup_take_lt by lia. exact Hx. }
  unfold kept in Hkx. apply negb_true_iff in Hkx. rewrite Hkx.
  apply IH; [lia | assumption | assumption].
Qed.

Lemma remove_nolock_noop (irq : Z) (c : vgic_v3_cpu_if) :
  (irqbuf_num c <= length (irqbuf c))%nat ->
  Forall (fun e => kept irq e = true) (pending c) ->
  fst (vgic_v3_irqbuf_remove_nolock irq c) = c.
Proof.
  intros Hl Hk. unfold vgic_v3_irqbuf_remove_nolock.
  pose proof (remove_while_noop irq (irqbuf_num c - 0) c 0 (irqbuf_num c)
                eq_refl Hl Hk) as H.
  destruct (remove_while irq (irqbuf_num c - 0) c 0 (irqbuf_num c))
    as [[c' dest] from].
  exact H.
Qed.

(** A pass that returns keeps the shape of the state. *)
Lemma sync_keeps_wf (dist : vgic_v3_dist) (hypctx hypctx' : struct_hypctx) :
  wf_cpu_if (vgic_cpu_if hypctx) ->
  vgic_v3_sync_hwstate dist hypctx = Ret hypctx' ->
  wf_cpu_if (vgic_cpu_if hypctx')
  /\ ich_lr_num (vgic_cpu_if hypctx') = ich_lr_num (vgic_cpu_if hypctx)
  /\ length (ich_lr_el2 (vgic_cpu_if hypctx'))
     = length (ich_lr_el2 (vgic_cpu_if hypctx))
  /\ irqbuf_size (vgic_cpu_if hypctx') = irqbuf_size (vgic_cpu_if hypctx)
  /\ (irqbuf_num (vgic_cpu_if hypctx') <= irqbuf_num (vgic_cpu_if hypctx))%nat
  /\ ich_vmcr_el2 (vgic_cpu_if hypctx') = ich_vmcr_el2 (vgic_cpu_if hypctx)
  /\ vgic_redist hypctx' = vgic_redist hypctx
  /\ vtimer_cpu_of hypctx' = vtimer_cpu_of hypctx.
Proof.
  intros Hwf H. unfold vgic_v3_sync_hwstate in H.
  destruct (irqbuf_num (vgic_cpu_if hypctx) =? 0)%nat.
  { injection H as <-. repeat split; try apply Hwf; lia. }
  fold (lr_free_of (vgic_cpu_if hypctx)) in H.
  destruct (irqbuf_num (vgic_cpu_if hypctx)
            <=? lr_free_of (vgic_cpu_if hypctx))%nat eqn:F; [|discriminate].
  apply Nat.leb_le in F. injection H as <-.
  cbn [set_cpu_if vgic_cpu_if vgic_redist vtimer_cpu_of].
  unfold vgic_v3_irqbuf_to_lr.
  fold (clk_injected_of (vgic_cpu_if hypctx)).
  destruct (irqbuf_to_lr_marks dist hypctx Hwf F)
    as (_ & Hl & Hv & Hn & Hs & Hm & Hlen).
  set (c1 := irqbuf_to_lr_loop dist (vgic_redist hypctx)
               (clk_injected_of (vgic_cpu_if hypctx))
               (irqbuf_num (vgic_cpu_if hypctx)) (vgic_cpu_if hypctx) 0 0)
    in *.
  destruct Hwf as [Wl Ws Wn].
  destruct (remove_nolock_spec IRQ_SCHEDULED c1)
    as (_ & Rv & Rl & Rn & Rs & Rlen & Rle); [lia|].
  assert (Hlen1 : length (ich_lr_el2 c1)
                  = length (ich_lr_el2 (vgic_cpu_if hypctx))).
  { rewrite Hl, length_app, fill_lrs_length, length_take, length_drop. lia. }
  rewrite Rv, Rl, Rn, Rs, Hv, Hn, Hs, Hlen1.
  repeat match goal with |- _ /\ _ => split end; try reflexivity; try lia.
  split; [rewrite Rl, Rn, Hn, Hlen1; exact Wl | lia | lia].
Qed.

(** X12.  A pass of [vgic_v3_sync_hwstate] that takes the fast path is
    idempotent: run again on the state that it returns, with the
    Distributor as it was, the function returns that state unchanged.  The
    buffered entries still fit into the inactive list registers, so that
    the second pass does not halt, and an entry that the first pass has
    left in the buffer is left there by the second. *)
Theorem sync_idempotent (dist : vgic_v3_dist) (hypctx : struct_hypctx) :
  let c := vgic_cpu_if hypctx in
  wf_cpu_if c ->
  (irqbuf_num c <= lr_free_of c)%nat ->
  Forall (fun e => vip_irq e <> IRQ_SCHEDULED) (pending c) ->
  exists hypctx1 : struct_hypctx,
    vgic_v3_sync_hwstate dist hypctx = Ret hypctx1
    /\ vgic_v3_sync_hwstate dist hypctx1 = Ret hypctx1.
Proof.
  intros c Hwf Hfit Hok.
  destruct (sync_fits dist hypctx Hwf Hfit Hok)
    as (c1 & E1 & Hp1 & Hl1 & Hv1 & Hn1 & Hs1).
  fold c in Hp1, Hl1, Hv1, Hn1, Hs1.
  set (redist := vgic_redist hypctx) in *.
  set (P := placed dist redist (ich_vmcr_el2 c) (clk_injected_of c)) in *.
  exists (set_cpu_if hypctx c1). split; [exact E1|].
  destruct (sync_keeps_wf dist hypctx _ Hwf E1) as (Hwf1 & _).
  cbn [set_cpu_if vgic_cpu_if] in Hwf1. pose proof Hwf as [Wl Ws Wn].
  pose proof Hwf1 as [Wl1 Ws1 Wn1].
  set (L := take (ich_lr_num c) (ich_lr_el2 c)) in *.
  set (vs := List.filter P (pending c)) in *.
  assert (HL : length L = ich_lr_num c) by (subst L; rewrite length_take; lia).
  assert (Hfree : lr_free_of c = length (List.filter lr_inactive L))
    by (apply lr_free_of_spec; exact Wl).
  assert (Hvs : (length vs <= irqbuf_num c)%nat).
  { subst vs. etransitivity; [apply List.filter_length_le|].
    rewrite pending_length by lia. lia. }
  assert (Htake1 : take (ich_lr_num c1) (ich_lr_el2 c1) = fill_lrs L vs).
  { rewrite Hn1, Hl1. rewrite take_app_length'; [reflexivity|].
    rewrite fill_lrs_length. symmetry. exact HL. }
  (* the second pass finds enough inactive list registers *)
  assert (Hfit1 : (irqbuf_num c1 <= lr_free_of c1)%nat).
  { rewrite lr_free_of_spec, Htake1, fill_lrs_free by lia.
    rewrite <- (pending_length c1) by lia. rewrite Hp1.
    pose proof (List.filter_length P (pending c)) as Hfl.
    rewrite pending_length in Hfl by lia. fold vs in Hfl. lia. }
  (* and the timer guard is as it was, when it was on *)
  assert (Hclk : clk_injected_of c = true -> clk_injected_of c1 = true).
  { unfold clk_injected_of. rewrite !clk_injected_for_spec.
    intros (j & Hj & Ht). exists j. rewrite Hn1. split; [exact Hj|].
    destruct (lookup_lt_is_Some_2 (ich_lr_el2 c) j) as [lr Hlr]; [lia|].
    rewrite (rd_lookup _ _ _ Hlr) in Ht.
    assert (Hb : lr_inactive lr = false).
    { unfold holds_timer in Ht. apply andb_true_iff in Ht as [_ Ht].
      apply negb_true_iff in Ht. exact Ht. }
    assert (Hlr1 : ich_lr_el2 c1 !! j = Some lr).
    { rewrite Hl1, lookup_app_l by (rewrite fill_lrs_length; lia).
      apply fill_lrs_busy_kept; [|exact Hb]. subst L.
      rewrite lookup_take_lt by lia. exact Hlr. }
    rewrite (rd_lookup _ _ _ Hlr1). exact Ht. }
  (* so that it places none of the entries left *)
  assert (Hnone : List.filter
                    (placed dist redist (ich_vmcr_el2 c1) (clk_injected_of c1))
                    (pending c1) = []).
  { apply filter_none. rewrite Hp1, Hv1. apply List.Forall_forall.
    intros e He. apply List.filter_In in He as [_ He].
    apply negb_true_iff in He. subst P. unfold placed in *.
    apply andb_false_iff in He as [He|He].
    - rewrite He. reflexivity.
    - apply negb_false_iff in He. unfold held_back in *.
      apply andb_true_iff in He as [Hc Hk]. rewrite Hc, (Hclk Hk).
      apply andb_false_r. }
  unfold vgic_v3_sync_hwstate. cbn [set_cpu_if vgic_cpu_if vgic_redist].
  fold redist.
  destruct (irqbuf_num c1 =? 0)%nat; [reflexivity|].
  fold (lr_free_of c1).
  assert (F : (irqbuf_num c1 <=? lr_free_of c1)%nat = true)
    by (apply Nat.leb_le; exact Hfit1).
  rewrite F. f_equal.
  assert (Hto : vgic_v3_irqbuf_to_lr dist redist c1 = c1);
    [|rewrite Hto; reflexivity].
  unfold vgic_v3_irqbuf_to_lr. fold (clk_injected_of c1).
  assert (Hloop : irqbuf_to_lr_loop dist redist (clk_injected_of c1)
                    (irqbuf_num c1) c1 0 0 = c1).
  { pose proof (irqbuf_to_lr_loop_spec dist redist (ich_vmcr_el2 c1)
                  (clk_injected_of c1) (ich_lr_num c1) (irqbuf_size c1)
                  (irqbuf_num c1) (irqbuf_num c1) (ich_lr_el2 c1) (irqbuf c1)
                  0 0) as Heq.
    rewrite cpu_if_eta in Heq. rewrite Heq; try lia.
    - destruct (final_nothing_left dist redist (ich_vmcr_el2 c1)
                  (clk_injected_of c1) (ich_lr_num c1) (irqbuf_num c1)
                  (ich_lr_el2 c1) (irqbuf c1) 0 0) as [-> ->]; try lia.
      + rewrite drop_0. exact Hnone.
      + apply cpu_if_eta.
    - rewrite drop_0. fold (pending c1). rewrite Hnone. simpl. lia. }
  rewrite Hloop. apply remove_nolock_noop; [lia|].
  rewrite Hp1. apply List.Forall_forall. intros e He.
  apply List.filter_In in He as [He _].
  rewrite List.Forall_forall in Hok. specialize (Hok e He).
  unfold kept. apply negb_true_iff, Z.eqb_neq. exact Hok.
Qed.

Lemma sync_idempotent_witness :
  exists hypctx1 : struct_hypctx,
    vgic_v3_sync_hwstate ex_dist ex_hypctx_mix = Ret hypctx1
    /\ vgic_v3_sync_hwstate ex_dist hypctx1 = Ret hypctx1
    /\ pending (vgic_cpu_if hypctx1) = [mk_irq 41 VGIC_IRQ_VIRTIO 1 0 0x10].
Proof.
  destruct (sync_idempotent ex_dist ex_hypctx_mix) as (h1 & E1 & E2).
  - split; [vm_compute; lia | reflexivity | vm_compute; lia].
  - vm_compute. lia.
  - repeat constructor; vm_compute; discriminate.
  - exists h1. split; [exact E1|]. split; [exact E2|].
    pose proof E1 as Hc. vm_compute in Hc. injection Hc as <-. reflexivity.
Defined.

(** X13.  [vgic_v3_highest_priority_pending] returns NULL exactly when no
    buffered entry is a candidate (not marked as scheduled, group and ID
    enabled in the Distributor, this vCPU a target, priority below the
    mask of the VMCR); what it returns otherwise is an entry in use of the
    buffer that is a candidate: it never returns an entry marked with
    [IRQ_SCHEDULED], nor one that the priority mask hides. *)
Theorem highest_priority_pending_null (cpu_if : vgic_v3_cpu_if)
    (dist : vgic_v3_dist) (redist : vgic_v3_redist) :
  (vgic_v3_highest_priority_pending cpu_if dist redist = None
   <-> forall j : nat, (j < irqbuf_num cpu_if)%nat ->
         candidate dist redist cpu_if j = false)
  /\ forall k : nat,
       vgic_v3_highest_priority_pending cpu_if dist redist = Some k ->
       (k < irqbuf_num cpu_if)%nat
       /\ candidate dist redist cpu_if k = true
       /\ vip_irq (buf_at (irqbuf cpu_if) k) <> IRQ_SCHEDULED
       /\ vip_priority (buf_at (irqbuf cpu_if) k) < vpmr_of cpu_if.
Proof.
  pose proof (highest_priority_pending_spec dist redist cpu_if) as H.
  destruct (vgic_v3_highest_priority_pending cpu_if dist redist) as [k|].
  - destruct H as (Hk & Hc & _). split.
    + split; [discriminate|]. intros Hall. rewrite (Hall k Hk) in Hc.
      discriminate.
    + intros k' [= <-]. split; [exact Hk|]. split; [exact Hc|].
      unfold candidate in Hc. cbv zeta in Hc.
      apply andb_true_iff in Hc as [Hc Hp].
      apply andb_true_iff in Hc as [Hc _].
      apply andb_true_iff in Hc as [Hc _].
      apply andb_true_iff in Hc as [Hc _].
      apply negb_true_iff in Hc, Hp. split; lia.
  - split; [|discriminate]. split; [intros _; exact H | reflexivity].
Qed.

(** ** Initialisation *)

(** X14.  [vgic_v3_init] halts on the assertion when [gic_sc] is not set.
    Otherwise, the cases of its two [switch] statements having no [break],
    it records the lowest priority 0xff for every number of priority bits
    from 5 to 8 alike, and four active-priority registers of each group for
    every number of preemption bits from 5 to 7 alike; for any other number
    the field keeps the value it had.  The number of list registers is the
    one of the hardware. *)
Theorem init_switch_falls_through (pribits prebits listregs : Z)
    (virt_features : VF.vgic_v3_virt_features) :
  vgic_v3_init false pribits prebits listregs virt_features
  = Halt KASSERT_failed
  /\ vgic_v3_init true pribits prebits listregs virt_features
     = Ret (VF.mk_virt_features
              (if (5 <=? pribits) && (pribits <=? 8) then 0xff
               else VF.min_prio virt_features)
              (Z.to_nat listregs)
              (if (5 <=? prebits) && (prebits <=? 7) then 4%nat
               else VF.ich_ap0r_num virt_features)
              (if (5 <=? prebits) && (prebits <=? 7) then 4%nat
               else VF.ich_ap1r_num virt_features)).
Proof.
  split; [reflexivity|]. unfold vgic_v3_init. cbn [negb].
  repeat match goal with
         | |- context [?a =? ?b] => destruct (Z.eqb_spec a b)
         end;
    repeat match goal with
           | |- context [?a <=? ?b] => destruct (Z.leb_spec a b)
           end;
    try lia; reflexivity.
Qed.

Lemma cpuinit_lrs_spec (n : nat) :
  forall (lrs : list Z) (i : nat),
    (i + n <= length lrs)%nat ->
    cpuinit_lrs n lrs i = updated_from (fun _ => 0) n lrs i.
Proof.
  induction n as [|n IH]; intros lrs i Hi.
  - rewrite updated_from_0. reflexivity.
  - cbn [cpuinit_lrs].
    destruct (lookup_lt_is_Some_2 lrs i) as [x Hx]; [lia|].
    rewrite IH by (rewrite length_insert; lia).
    rewrite (updated_from_step _ lrs i n x Hx). reflexivity.
Qed.

(** The fields of the ICH_VMCR_EL2 that [vgic_v3_cpuinit] writes. *)
Lemma cpuinit_vmcr_fields (min_prio : Z) :
  0 <= min_prio < 2 ^ 8 ->
  uint8 (Z.shiftr (Z.land (cpuinit_vmcr min_prio) ICH_VMCR_EL2_VPMR_MASK)
           ICH_VMCR_EL2_VPMR_SHIFT) = min_prio
  /\ Z.land (cpuinit_vmcr min_prio) ICH_VMCR_EL2_VENG0 = 1
  /\ Z.land (cpuinit_vmcr min_prio) ICH_VMCR_EL2_VENG1 = 2
  /\ Z.land (cpuinit_vmcr min_prio) ICH_VMCR_EL2_VEOIM = 0.
Proof.
  intros Hp.
  set (m := min_prio mod 2 ^ 8).
  assert (Hv : cpuinit_vmcr min_prio
               = Z.lor
                   (Z.land
                      ((Z.lor (Z.lor (Z.shiftl m 24) (Z.shiftl (Z.ones 3) 18))
                          (Z.shiftl (Z.ones 3) 21)) mod 2 ^ 32)
                      (Z.lnot (Z.shiftl (Z.ones 1) 9) mod 2 ^ 32))
                   (Z.lor (Z.ones 1) (Z.shiftl (Z.ones 1) 1)))
    by (subst m; rewrite (Z.mod_small min_prio (2 ^ 8)) by lia; reflexivity).
  rewrite Hv. clear Hv.
  change ICH_VMCR_EL2_VPMR_MASK with (Z.shiftl (Z.ones 8) 24).
  change ICH_VMCR_EL2_VPMR_SHIFT with 24.
  change ICH_VMCR_EL2_VEOIM with (Z.shiftl (Z.ones 1) 9).
  change ICH_VMCR_EL2_VENG0 with (Z.ones 1).
  change ICH_VMCR_EL2_VENG1 with (Z.shiftl (Z.ones 1) 1).
  split; [|split; [|split]].
  - rewrite <- (Z.mod_small min_prio (2 ^ 8)) at 1 by lia.
    subst m. unfold uint8. bits.
  - match goal with |- ?x = 1 => change (x = Z.ones 1) end. subst m. bits.
  - match goal with |- ?x = 2 => change (x = Z.shiftl (Z.ones 1) 1) end.
    subst m. bits.
  - subst m. bits.
Qed.

(** X15.  The CPU interface that [vgic_v3_cpuinit] leaves, for an 8-bit
    lowest priority and at most 16 list registers: the priority mask that
    [vgic_v3_highest_priority_pending] reads from ICH_VMCR_EL2 is the lowest
    priority recorded by [vgic_v3_init], and the VMCR enables both groups;
    the buffer is an empty allocation of 32 entries and
    [vgic_v3_vcpu_pending_irq] reports 0; the [ich_lr_num] list registers
    are all inactive; a pass of [vgic_v3_sync_hwstate] returns the state
    unchanged.  On a zeroed [hypctx] the interface is [cpuinit_cpu_if]. *)
Theorem cpuinit_state (virt_features : VF.vgic_v3_virt_features)
    (vmpidr_el2 : Z) (hypctx : struct_hypctx) (last_vcpu : bool) :
  let h := vgic_v3_cpuinit virt_features vmpidr_el2 hypctx last_vcpu in
  let c := vgic_cpu_if h in
  0 <= VF.min_prio virt_features < 2 ^ 8 ->
  (VF.ich_lr_num virt_features <= 16)%nat ->
  length (ich_lr_el2 (vgic_cpu_if hypctx)) = 16%nat ->
  vpmr_of c = VF.min_prio virt_features
  /\ (forall group : Z, vmcr_group_on (ich_vmcr_el2 c) group = true)
  /\ wf_cpu_if c
  /\ irqbuf_inv c
  /\ pending c = []
  /\ vgic_v3_vcpu_pending_irq h = 0
  /\ ich_lr_num c = VF.ich_lr_num virt_features
  /\ lr_free_of c = VF.ich_lr_num virt_features
  /\ (forall dist : vgic_v3_dist, vgic_v3_sync_hwstate dist h = Ret h)
  /\ (ich_lr_el2 (vgic_cpu_if hypctx) = replicate 16 0 ->
      c = cpuinit_cpu_if (cpuinit_vmcr (VF.min_prio virt_features))
            (VF.ich_lr_num virt_features)).
Proof.
  intros h c Hp Hn Hlen.
  destruct (cpuinit_vmcr_fields _ Hp) as (Hv & H0 & H1 & _).
  assert (Hl : ich_lr_el2 c
               = map (fun _ => 0)
                   (take (VF.ich_lr_num virt_features)
                      (ich_lr_el2 (vgic_cpu_if hypctx)))
                 ++ drop (VF.ich_lr_num virt_features)
                      (ich_lr_el2 (vgic_cpu_if hypctx))).
  { subst c h. unfold vgic_v3_cpuinit. cbn [vgic_cpu_if ich_lr_el2].
    rewrite cpuinit_lrs_spec, updated_from_start by lia. reflexivity. }
  assert (Hwf : wf_cpu_if c).
  { split; [|reflexivity | subst c h; cbn; lia].
    rewrite Hl, updated_prefix_length. subst c h. cbn. lia. }
  assert (Hfree : lr_free_of c = VF.ich_lr_num virt_features).
  { rewrite lr_free_of_spec by apply Hwf.
    change (ich_lr_num c) with (VF.ich_lr_num virt_features).
    rewrite Hl, take_app_length' by (rewrite length_map, length_take; lia).
    rewrite filter_all.
    - rewrite length_map, length_take. lia.
    - apply List.Forall_forall. intros lr Hin.
      apply in_map_iff in Hin as (x & <- & _). reflexivity. }
  split; [exact Hv|]. split.
  { intros group. unfold vmcr_group_on.
    change (ich_vmcr_el2 c) with (cpuinit_vmcr (VF.min_prio virt_features)).
    rewrite H0, H1. cbn [truthy Z.eqb negb]. rewrite !andb_false_r.
    reflexivity. }
  split; [exact Hwf|]. split.
  { split; [reflexivity | subst c h; cbn; lia | left; reflexivity]. }
  split; [reflexivity|]. split; [reflexivity|]. split; [reflexivity|].
  split; [exact Hfree|]. split; [reflexivity|].
  intros Hz. subst c h. unfold vgic_v3_cpuinit, cpuinit_cpu_if.
  cbn [vgic_cpu_if]. f_equal.
  rewrite cpuinit_lrs_spec, updated_from_start, Hz by lia.
  apply list_eq. intros i.
  destruct (Nat.lt_ge_cases i 16) as [Hi|Hi].
  - rewrite lookup_replicate_2 by lia.
    destruct (Nat.lt_ge_cases i (VF.ich_lr_num virt_features)) as [Hj|Hj].
    + apply (updated_prefix_lookup (fun _ : Z => 0) (replicate 16 0) _ _ 0
               Hj).
      apply lookup_replicate_2. lia.
    + rewrite lookup_app_r by (rewrite length_map, length_take; lia).
      rewrite lookup_drop. apply lookup_replicate_2.
      rewrite length_map, length_take, length_replicate. lia.
  - rewrite !lookup_ge_None_2; [reflexivity | |].
    + rewrite length_replicate. lia.
    + rewrite updated_prefix_length, length_replicate. lia.
Qed.

Lemma cpuinit_state_witness :
  let virt_features := VF.mk_virt_features 0xff 4 4 4 in
  let h := vgic_v3_cpuinit virt_features 0x80000001 ex_hypctx_armed false in
  vpmr_of (vgic_cpu_if h) = 0xff
  /\ lr_free_of (vgic_cpu_if h) = 4%nat
  /\ vgic_v3_sync_hwstate ex_dist h = Ret h.
Proof.
  intros virt_features h.
  destruct (cpuinit_state virt_features 0x80000001 ex_hypctx_armed false)
    as (Hv & _ & _ & _ & _ & _ & _ & Hf & Hs & _).
  - vm_compute. split; [discriminate | reflexivity].
  - vm_compute. lia.
  - reflexivity.
  - split; [exact Hv|]. split; [exact Hf | apply Hs].
Defined.

(** The affinity fields of a GICR_TYPER written by [vgic_v3_cpuinit], as
    [vgic_v3_int_target] reads them. *)
Lemma typer_high_bits (aff : Z) (last_vcpu : bool) :
  let typer := shl64 aff GICR_TYPER_AFF_SHIFT in
  let typer := Z.land typer (not64 GICR_TYPER_VLPIS) in
  let typer := Z.land typer (not64 GICR_TYPER_PLPIS) in
  let typer := if last_vcpu then Z.lor typer GICR_TYPER_LAST else typer in
  Z.shiftr typer 32 = aff mod 2 ^ 32.
Proof.
  cbv zeta. unfold shl64, not64, uint64.
  change GICR_TYPER_AFF_SHIFT with 32.
  change GICR_TYPER_VLPIS with (Z.shiftl (Z.ones 1) 1).
  change GICR_TYPER_PLPIS with (Z.ones 1).
  change GICR_TYPER_LAST with (Z.shiftl (Z.ones 1) 4).
  destruct last_vcpu; bits.
Qed.

Lemma packed_affinity (a0 a1 a2 a3 : Z) :
  let aff :=
    Z.lor (Z.lor (Z.lor (Z.shiftl (Z.land a3 (Z.ones 8)) 24)
                    (Z.shiftl (Z.land a2 (Z.ones 8)) 16))
             (Z.shiftl (Z.land a1 (Z.ones 8)) 8))
      (Z.land a0 (Z.ones 8)) in
  Z.land (aff mod 2 ^ 32) (Z.ones 8) = Z.land a0 (Z.ones 8)
  /\ Z.land (Z.shiftr (aff mod 2 ^ 32) 8) (Z.ones 8) = Z.land a1 (Z.ones 8)
  /\ Z.land (Z.shiftr (aff mod 2 ^ 32) 16) (Z.ones 8) = Z.land a2 (Z.ones 8)
  /\ Z.land (Z.shiftr (aff mod 2 ^ 32) 24) (Z.ones 8) = Z.land a3 (Z.ones 8).
Proof. cbv zeta. repeat split; bits. Qed.

Lemma irouter_affinity_format (v : Z) :
  Z.lor (Z.lor (Z.lor (Z.land (Z.shiftr v 0) (Z.ones 8))
                  (Z.shiftl (Z.land (Z.shiftr v 8) (Z.ones 8)) 8 mod 2 ^ 64))
           (Z.shiftl (Z.land (Z.shiftr v 16) (Z.ones 8)) 16 mod 2 ^ 64))
    (Z.shiftl (Z.land (Z.shiftr v 32) (Z.ones 8)) 32 mod 2 ^ 64)
  = Z.land v (Z.lor (Z.shiftl (Z.ones 8) 32) (Z.ones 24)).
Proof. bits. Qed.

Lemma cpuinit_typer_affinity (vmpidr_el2 : Z) (last_vcpu : bool) :
  let aff :=
    Z.lor (Z.lor (Z.lor (Z.shiftl (CPU_AFF3 vmpidr_el2) 24)
                    (Z.shiftl (CPU_AFF2 vmpidr_el2) 16))
             (Z.shiftl (CPU_AFF1 vmpidr_el2) 8))
      (CPU_AFF0 vmpidr_el2) in
  let typer := shl64 aff GICR_TYPER_AFF_SHIFT in
  let typer := Z.land typer (not64 GICR_TYPER_VLPIS) in
  let typer := Z.land typer (not64 GICR_TYPER_PLPIS) in
  let typer := if last_vcpu then Z.lor typer GICR_TYPER_LAST else typer in
  Z.lor (Z.lor (Z.lor (GICR_TYPER_AFF0 typer)
                  (shl64 (GICR_TYPER_AFF1 typer) 8))
           (shl64 (GICR_TYPER_AFF2 typer) 16))
    (shl64 (GICR_TYPER_AFF3 typer) 32)
  = Z.land vmpidr_el2 0xff00ffffff.
Proof.
  intros aff typer0 typer1 typer2 typer.
  pose proof (typer_high_bits aff last_vcpu) as Hhi. cbv zeta in Hhi.
  fold typer0 typer1 typer2 typer in Hhi.
  unfold GICR_TYPER_AFF0, GICR_TYPER_AFF1, GICR_TYPER_AFF2, GICR_TYPER_AFF3.
  change 40 with (32 + 8). change 48 with (32 + 16). change 56 with (32 + 24).
  rewrite <- !Z.shiftr_shiftr, Hhi by lia.
  change 0xff with (Z.ones 8).
  destruct (packed_affinity (Z.shiftr vmpidr_el2 0) (Z.shiftr vmpidr_el2 8)
              (Z.shiftr vmpidr_el2 16) (Z.shiftr vmpidr_el2 32))
    as (H0 & H1 & H2 & H3).
  fold (CPU_AFF0 vmpidr_el2) (CPU_AFF1 vmpidr_el2) (CPU_AFF2 vmpidr_el2)
    (CPU_AFF3 vmpidr_el2) in H0, H1, H2, H3.
  unfold CPU_AFF0, CPU_AFF1, CPU_AFF2, CPU_AFF3 in aff.
  change 0xff with (Z.ones 8) in aff. fold aff in H0, H1, H2, H3.
  rewrite H0, H1, H2, H3. unfold shl64, uint64.
  apply (irouter_affinity_format vmpidr_el2).
Qed.

(** X16.  The affinity that [vgic_v3_cpuinit] packs into GICR_TYPER is the
    one that [vgic_v3_int_target] reads back: the value compared with
    GICD_IROUTER is made of the fields Aff3 (bits 39..32) and Aff2, Aff1,
    Aff0 (bits 23..0) of VMPIDR_EL2.  With affinity routing enabled, a
    shared interrupt targets the vCPU just initialised when its routing
    register, the routing-mode bit being clear, has all the bits of this
    affinity set; and GICR_CTLR being initialised to 0, it does not target
    the vCPU when the routing-mode bit (1 of N) is set. *)
Theorem cpuinit_affinity (virt_features : VF.vgic_v3_virt_features)
    (vmpidr_el2 : Z) (hypctx : struct_hypctx) (last_vcpu : bool) :
  let redist :=
    vgic_redist (vgic_v3_cpuinit virt_features vmpidr_el2 hypctx last_vcpu) in
  let aff := Z.land vmpidr_el2 0xff00ffffff in
  redist_affinity redist = aff
  /\ gicr_ctlr redist = 0
  /\ forall (irq : Z) (dist : vgic_v3_dist),
       GIC_LAST_PPI < irq ->
       aff_routing_en dist = true ->
       vgic_v3_int_target irq dist redist
       = let irouter := rd (gicd_irouter dist) (Z.to_nat irq) in
         if truthy (Z.land irouter GICD_IROUTER_IRM) then false
         else Z.land irouter aff =? aff.
Proof.
  intros redist aff.
  assert (Ha : redist_affinity redist = aff).
  { subst redist aff. unfold vgic_v3_cpuinit, redist_affinity.
    cbn [vgic_redist gicr_typer].
    apply (cpuinit_typer_affinity vmpidr_el2 last_vcpu). }
  split; [exact Ha|]. split; [reflexivity|].
  intros irq dist Hirq Hen. cbv zeta.
  destruct (truthy (Z.land (rd (gicd_irouter dist) (Z.to_nat irq))
                      GICD_IROUTER_IRM)) eqn:E.
  - rewrite int_target_1_of_N_case; try assumption.
    + change (gicr_ctlr redist) with 0.
      destruct (truthy (Z.land (rd (gicd_igroupr dist) _) _)); reflexivity.
    + unfold truthy in E. apply negb_true_iff, Z.eqb_neq in E. exact E.
  - rewrite int_target_affinity_case; try assumption.
    + rewrite Ha. reflexivity.
    + unfold truthy in E. apply negb_false_iff, Z.eqb_eq in E. exact E.
Qed.

(** ** The timer registers *)

(** A removal on a well-formed state. *)
Lemma remove_irq_state (dist : vgic_v3_dist) (hypctx : struct_hypctx)
    (irq : Z) (ignore_state : bool) :
  let c := vgic_cpu_if hypctx in
  irqbuf_inv c -> (ich_lr_num c <= length (ich_lr_el2 c))%nat ->
  irq < nirqs dist ->
  exists c' : vgic_v3_cpu_if,
    vgic_v3_remove_irq dist hypctx irq ignore_state
    = (0, set_cpu_if hypctx c')
    /\ pending c' = List.filter (kept irq) (pending c)
    /\ irqbuf_inv c'
    /\ ich_lr_num c' = ich_lr_num c
    /\ length (ich_lr_el2 c') = length (ich_lr_el2 c)
    /\ ich_lr_el2 c'
       = map (clear_if irq ignore_state) (take (ich_lr_num c) (ich_lr_el2 c))
         ++ drop (ich_lr_num c) (ich_lr_el2 c)
    /\ ich_vmcr_el2 c' = ich_vmcr_el2 c.
Proof.
  intros c [Ha Hn Hs] Hlr Hirq. unfold vgic_v3_remove_irq. fold c.
  assert (G : (irq >=? nirqs dist) = false) by lia. rewrite G.
  eexists. split; [reflexivity|].
  destruct (remove_nolock_spec irq
              (set_lrs c (remove_irq_lrs irq ignore_state (ich_lr_num c)
                            (ich_lr_el2 c) 0)))
    as (Rp & Rv & Rl & Rn & Rs & Rlen & Rle).
  { cbn [set_lrs irqbuf irqbuf_num]. lia. }
  cbn [set_lrs ich_lr_el2 ich_lr_num ich_vmcr_el2 irqbuf irqbuf_size
         irqbuf_num] in Rv, Rl, Rn, Rs, Rlen, Rle.
  assert (Hlrs : remove_irq_lrs irq ignore_state (ich_lr_num c) (ich_lr_el2 c)
                   0
                 = map (clear_if irq ignore_state)
                     (take (ich_lr_num c) (ich_lr_el2 c))
                   ++ drop (ich_lr_num c) (ich_lr_el2 c)).
  { rewrite remove_irq_lrs_spec by lia. rewrite drop_0. reflexivity. }
  split; [exact Rp|]. split.
  { split; [rewrite Rlen, Rs; exact Ha | rewrite Rs; lia
           | rewrite Rs; exact Hs]. }
  split; [exact Rn|]. split.
  { rewrite Rl, Hlrs. apply updated_prefix_length. }
  split; [rewrite Rl; exact Hlrs | exact Rv].
Qed.

(** An injection that returns leaves the timer of the vCPU and its
    Redistributor as they were. *)
Lemma inject_keeps_timer (dist : vgic_v3_dist) (hypctx hypctx' : struct_hypctx)
    (irq : Z) (irqtype : vgic_v3_irqtype) (error : Z) :
  vgic_v3_inject_irq dist hypctx irq irqtype = Ret (error, hypctx') ->
  vtimer_cpu_of hypctx' = vtimer_cpu_of hypctx
  /\ vgic_redist hypctx' = vgic_redist hypctx.
Proof.
  unfold vgic_v3_inject_irq. intros H.
  destruct (negb (irq >? GIC_LAST_SGI)); [discriminate|].
  destruct (_ || _); [injection H as _ <-; split; reflexivity|].
  destruct (vgic_v3_irqbuf_add_nolock (vgic_cpu_if hypctx)) as [[c vip]|];
    injection H as _ <-; split; reflexivity.
Qed.

(** The functions of vtimer.c that reach into the vGIC leave the compare
    value and the control register of the timer as they were. *)
Lemma vtimer_inject_irq_regs (dist : vgic_v3_dist) (vtimer : vtimer)
    (hypctx hypctx' : struct_hypctx) :
  vtimer_inject_irq dist vtimer hypctx = Ret hypctx' ->
  vtimer_cpu_of hypctx' = vtimer_cpu_of hypctx.
Proof.
  unfold vtimer_inject_irq. intros H.
  destruct (vgic_v3_inject_irq dist hypctx (uint32 (phys_ns_irq vtimer))
              VGIC_IRQ_CLK) as [[e h]|] eqn:E; [|discriminate].
  injection H as <-. apply (inject_keeps_timer _ _ _ _ _ _ E).
Qed.

Lemma vtimer_schedule_irq_regs (dist : vgic_v3_dist) (vtimer : vtimer)
    (hypctx hypctx' : struct_hypctx) (cntpct_el0 : Z) :
  vtimer_schedule_irq dist vtimer hypctx cntpct_el0 = Ret hypctx' ->
  cntp_ctl_el0 (vtimer_cpu_of hypctx') = cntp_ctl_el0 (vtimer_cpu_of hypctx)
  /\ cntp_cval_el0 (vtimer_cpu_of hypctx')
     = cntp_cval_el0 (vtimer_cpu_of hypctx).
Proof.
  unfold vtimer_schedule_irq. intros H.
  destruct (cntp_cval_el0 (vtimer_cpu_of hypctx) <? cntpct_el0).
  - rewrite (vtimer_inject_irq_regs _ _ _ _ H). split; reflexivity.
  - injection H as <-. split; reflexivity.
Qed.

Lemma vtimer_remove_irq_regs (dist : vgic_v3_dist) (vtimer : vtimer)
    (hypctx hypctx' : struct_hypctx) (running ignore_state : bool) :
  vtimer_remove_irq dist vtimer hypctx running ignore_state = Ret hypctx' ->
  cntp_ctl_el0 (vtimer_cpu_of hypctx') = cntp_ctl_el0 (vtimer_cpu_of hypctx)
  /\ cntp_cval_el0 (vtimer_cpu_of hypctx')
     = cntp_cval_el0 (vtimer_cpu_of hypctx).
Proof.
  unfold vtimer_remove_irq, callout_drain. intros H.
  assert (Hrm : forall (h : struct_hypctx) (irq : Z),
             vtimer_cpu_of (snd (vgic_v3_remove_irq dist h irq ignore_state))
             = vtimer_cpu_of h).
  { intros h irq. unfold vgic_v3_remove_irq.
    destruct (irq >=? nirqs dist); reflexivity. }
  destruct (callout_pending (vtimer_cpu_of hypctx) && running).
  - destruct (vtimer_inject_irq dist vtimer hypctx) as [h|] eqn:E;
      [|discriminate].
    injection H as <-. rewrite Hrm.
    cbn [set_vtimer_cpu set_callout vtimer_cpu_of cntp_ctl_el0 cntp_cval_el0].
    rewrite (vtimer_inject_irq_regs _ _ _ _ E). split; reflexivity.
  - injection H as <-. rewrite Hrm. split; reflexivity.
Qed.

Lemma vtimer_reschedule_regs (dist : vgic_v3_dist) (vtimer : vtimer)
    (hypctx hypctx' : struct_hypctx) (cntpct_el0 : Z)
    (running ignore_state : bool) :
  vtimer_reschedule dist vtimer hypctx cntpct_el0 running ignore_state
  = Ret hypctx' ->
  cntp_ctl_el0 (vtimer_cpu_of hypctx') = cntp_ctl_el0 (vtimer_cpu_of hypctx)
  /\ cntp_cval_el0 (vtimer_cpu_of hypctx')
     = cntp_cval_el0 (vtimer_cpu_of hypctx).
Proof.
  unfold vtimer_reschedule. intros H.
  destruct (vtimer_enabled (cntp_ctl_el0 (vtimer_cpu_of hypctx))).
  - destruct (vtimer_remove_irq dist vtimer hypctx running ignore_state)
      as [h|] eqn:E; [|discriminate].
    destruct (vtimer_remove_irq_regs _ _ _ _ _ _ E) as [<- <-].
    apply (vtimer_schedule_irq_regs _ _ _ _ _ H).
  - injection H as <-. split; reflexivity.
Qed.

Lemma ctl_write_ctx_regs (dist : vgic_v3_dist) (vtimer : vtimer)
    (hypctx hypctx' : struct_hypctx) (wval cntpct_el0 : Z)
    (running ignore_state : bool) :
  vtimer_phys_ctl_write_ctx dist vtimer hypctx wval cntpct_el0 running
    ignore_state = Ret hypctx' ->
  cntp_ctl_el0 (vtimer_cpu_of hypctx') = uint32 wval
  /\ cntp_cval_el0 (vtimer_cpu_of hypctx')
     = cntp_cval_el0 (vtimer_cpu_of hypctx).
Proof.
  unfold vtimer_phys_ctl_write_ctx. intros H.
  destruct (negb _ && _).
  - destruct (vtimer_schedule_irq_regs _ _ _ _ _ H) as [-> ->].
    split; reflexivity.
  - destruct (_ && negb _).
    + destruct (vtimer_remove_irq_regs _ _ _ _ _ _ H) as [-> ->].
      split; reflexivity.
    + injection H as <-. split; reflexivity.
Qed.

(** The bits of the control register that a read returns, [wval] being the
    value written and [expired] telling whether the compare value lies
    before the counter. *)
Lemma ctl_read_bits (wval : Z) (expired : bool) :
  let ctl := uint32 wval in
  let rval :=
    if expired then Z.lor ctl CNTP_CTL_ISTATUS
    else Z.land ctl (uint32 (Z.lnot CNTP_CTL_ISTATUS)) in
  Z.land rval CNTP_CTL_IMASK = Z.land wval CNTP_CTL_IMASK
  /\ Z.land rval CNTP_CTL_ENABLE = Z.land wval CNTP_CTL_ENABLE
  /\ Z.land rval CNTP_CTL_ISTATUS = (if expired then CNTP_CTL_ISTATUS else 0)
  /\ Z.land rval (Z.lnot CNTP_CTL_ISTATUS)
     = Z.land ctl (Z.lnot CNTP_CTL_ISTATUS).
Proof.
  cbv zeta. unfold uint32.
  change CNTP_CTL_IMASK with (Z.shiftl (Z.ones 1) 1).
  change CNTP_CTL_ENABLE with (Z.ones 1).
  change CNTP_CTL_ISTATUS with (Z.shiftl (Z.ones 1) 2).
  destruct expired; repeat split; bits.
Qed.

(** X17.  Reading CNTP_CTL_EL0 after writing it.  When
    [vtimer_phys_ctl_write] returns, it returns 0, and a read with
    [vtimer_phys_ctl_read] gives the 32 low bits of the value written, but
    for the bit ISTATUS, which is set exactly when the compare value lies
    before the counter read; the timer reads as enabled exactly when the
    value written enables it. *)
Theorem ctl_read_after_write (hyp hyp' : struct_hyp) (vcpuid : nat)
    (hypctx : struct_hypctx) (wval cntpct_el0 cntpct_el0' error : Z)
    (running ignore_state : bool) :
  ctx hyp !! vcpuid = Some hypctx ->
  vtimer_phys_ctl_write hyp vcpuid wval cntpct_el0 running ignore_state
  = Ret (error, hyp') ->
  error = 0
  /\ exists rval : Z,
       vtimer_phys_ctl_read hyp' vcpuid cntpct_el0' = Some (0, rval)
       /\ Z.land rval (Z.lnot CNTP_CTL_ISTATUS)
          = Z.land (uint32 wval) (Z.lnot CNTP_CTL_ISTATUS)
       /\ truthy (Z.land rval CNTP_CTL_ISTATUS)
          = (cntp_cval_el0 (vtimer_cpu_of hypctx) <? cntpct_el0')
       /\ vtimer_enabled rval = vtimer_enabled wval.
Proof.
  intros Hctx H. unfold vtimer_phys_ctl_write in H. rewrite Hctx in H.
  destruct (vtimer_phys_ctl_write_ctx (vgic_dist hyp) (hyp_vtimer hyp) hypctx
              wval cntpct_el0 running ignore_state) as [h'|] eqn:E;
    [|discriminate].
  injection H as <- <-. split; [reflexivity|].
  destruct (ctl_write_ctx_regs _ _ _ _ _ _ _ _ E) as [Hctl Hcval].
  unfold vtimer_phys_ctl_read. cbn [ctx].
  rewrite list_lookup_insert_eq by (eapply lookup_lt_Some; exact Hctx).
  rewrite Hctl, Hcval.
  destruct (ctl_read_bits wval
              (cntp_cval_el0 (vtimer_cpu_of hypctx) <? cntpct_el0'))
    as (Hi & He & Hs & Hr).
  destruct (cntp_cval_el0 (vtimer_cpu_of hypctx) <? cntpct_el0');
    (eexists; split; [reflexivity|]; split; [exact Hr|]; split;
     [rewrite Hs; reflexivity | unfold vtimer_enabled; rewrite Hi, He;
                                reflexivity]).
Qed.

Lemma ctl_read_after_write_witness :
  exists (hyp' : struct_hyp) (rval : Z),
    vtimer_phys_ctl_write ex_hyp_armed 0 0 1000 true false = Ret (0, hyp')
    /\ vtimer_phys_ctl_read hyp' 0 6000 = Some (0, rval)
    /\ truthy (Z.land rval CNTP_CTL_ISTATUS) = true
    /\ vtimer_enabled rval = false.
Proof.
  destruct (vtimer_phys_ctl_write ex_hyp_armed 0 0 1000 true false)
    as [[error hyp']|] eqn:E; [|vm_compute in E; discriminate].
  destruct (ctl_read_after_write ex_hyp_armed hyp' 0 ex_hypctx_armed 0 1000
              6000 error true false eq_refl E)
    as (-> & rval & Hr & _ & Hs & Hen).
  exists hyp', rval. split; [reflexivity|]. split; [exact Hr|].
  split; [exact Hs | exact Hen].
Defined.

(** X18.  Switching the timer on, where the timer interrupt lies above the
    SGI range and below the number of interrupts of the Distributor and the
    buffer, well-formed, holds fewer than 1024 entries.  A write to
    CNTP_CTL_EL0 that enables a timer that was not enabled stores the value
    and schedules the timer: when the compare value lies before the
    counter, the timer interrupt is injected at once, as one entry of type
    [VGIC_IRQ_CLK] appended to the buffer, and the callout is left as it
    was; otherwise the callout is armed and the vGIC state is not touched.
    The list registers are kept in both cases, and the call returns 0. *)
Theorem timer_switched_on (hyp : struct_hyp) (vcpuid : nat)
    (hypctx : struct_hypctx) (wval cntpct_el0 : Z)
    (running ignore_state : bool) :
  let dist := vgic_dist hyp in
  let irq := uint32 (phys_ns_irq (hyp_vtimer hyp)) in
  let c := vgic_cpu_if hypctx in
  ctx hyp !! vcpuid = Some hypctx ->
  irqbuf_inv c ->
  (irqbuf_num c < 1024)%nat ->
  GIC_LAST_SGI < irq < nirqs dist ->
  vtimer_enabled (cntp_ctl_el0 (vtimer_cpu_of hypctx)) = false ->
  vtimer_enabled wval = true ->
  exists hypctx' : struct_hypctx,
    vtimer_phys_ctl_write hyp vcpuid wval cntpct_el0 running ignore_state
    = Ret (0, mk_hyp dist (hyp_vtimer hyp) (<[vcpuid := hypctx']> (ctx hyp)))
    /\ cntp_ctl_el0 (vtimer_cpu_of hypctx') = uint32 wval
    /\ ich_lr_el2 (vgic_cpu_if hypctx') = ich_lr_el2 c
    /\ if cntp_cval_el0 (vtimer_cpu_of hypctx) <? cntpct_el0
       then pending (vgic_cpu_if hypctx')
            = pending c
              ++ [injected_entry dist (vgic_redist hypctx) irq VGIC_IRQ_CLK]
            /\ callout_pending (vtimer_cpu_of hypctx')
               = callout_pending (vtimer_cpu_of hypctx)
       else vgic_cpu_if hypctx' = c
            /\ callout_pending (vtimer_cpu_of hypctx') = true.
Proof.
  intros dist irq c Hctx Hinv Hroom Hirq Hoff Hon.
  unfold vtimer_phys_ctl_write. rewrite Hctx.
  unfold vtimer_phys_ctl_write_ctx. rewrite Hoff, Hon. cbn [negb andb].
  unfold vtimer_schedule_irq.
  set (h1 := set_vtimer_cpu hypctx
               (set_cntp_ctl_el0 (vtimer_cpu_of hypctx) (uint32 wval))).
  change (cntp_cval_el0 (vtimer_cpu_of h1))
    with (cntp_cval_el0 (vtimer_cpu_of hypctx)).
  destruct (cntp_cval_el0 (vtimer_cpu_of hypctx) <? cntpct_el0).
  - unfold vtimer_inject_irq. fold dist irq.
    destruct (inject_appends_entry dist h1 irq VGIC_IRQ_CLK)
      as (c' & E & Hp & _ & _ & Hl & _);
      [exact Hinv | exact Hroom | exact Hirq | discriminate |].
    rewrite E. eexists. split; [reflexivity|].
    cbn [set_cpu_if vtimer_cpu_of vgic_cpu_if cntp_ctl_el0 callout_pending h1
           set_vtimer_cpu set_cntp_ctl_el0].
    repeat match goal with |- _ /\ _ => split end; try reflexivity.
    + exact Hl.
    + exact Hp.
  - eexists. split; [reflexivity|]. subst h1.
    cbn [set_vtimer_cpu set_callout vtimer_cpu_of vgic_cpu_if cntp_ctl_el0
           callout_pending].
    repeat split.
Qed.

Lemma timer_switched_on_witness :
  let hyp := mk_hyp ex_dist (mk_vtimer 30) [ex_hypctx] in
  exists hypctx' : struct_hypctx,
    vtimer_phys_ctl_write hyp 0 1 1000 false false
    = Ret (0, mk_hyp ex_dist (mk_vtimer 30) [hypctx'])
    /\ pending (vgic_cpu_if hypctx') = [mk_irq 30 VGIC_IRQ_CLK 1 1 0]
    /\ callout_pending (vtimer_cpu_of hypctx') = false.
Proof.
  intros hyp.
  destruct (timer_switched_on hyp 0 ex_hypctx 1 1000 false false)
    as (h' & E & _ & _ & H).
  - reflexivity.
  - split; [reflexivity | vm_compute; lia | left; reflexivity].
  - vm_compute. lia.
  - vm_compute. split; reflexivity.
  - reflexivity.
  - reflexivity.
  - exists h'. split; [exact E|].
    change (cntp_cval_el0 (vtimer_cpu_of ex_hypctx) <? 1000) with true in H.
    destruct H as [Hp Hc]. split; [rewrite Hp; reflexivity | exact Hc].
Defined.

(** X19.  A write to CNTP_CTL_EL0 that does not change whether the timer
    is enabled stores the value and does nothing else: the callout, the
    buffer and the list registers are as they were. *)
Theorem ctl_write_no_toggle (hyp : struct_hyp) (vcpuid : nat)
    (hypctx : struct_hypctx) (wval cntpct_el0 : Z)
    (running ignore_state : bool) :
  ctx hyp !! vcpuid = Some hypctx ->
  vtimer_enabled (cntp_ctl_el0 (vtimer_cpu_of hypctx)) = vtimer_enabled wval ->
  vtimer_phys_ctl_write hyp vcpuid wval cntpct_el0 running ignore_state
  = Ret (0, mk_hyp (vgic_dist hyp) (hyp_vtimer hyp)
              (<[vcpuid := mk_hypctx (vgic_redist hypctx) (vgic_cpu_if hypctx)
                             (mk_vtimer_cpu
                                (callout_pending (vtimer_cpu_of hypctx))
                                (cntp_cval_el0 (vtimer_cpu_of hypctx))
                                (uint32 wval))]> (ctx hyp))).
Proof.
  intros Hctx Hsame. unfold vtimer_phys_ctl_write. rewrite Hctx.
  unfold vtimer_phys_ctl_write_ctx. rewrite Hsame.
  destruct (vtimer_enabled wval); reflexivity.
Qed.

Lemma ctl_write_no_toggle_witness :
  exists hypctx' : struct_hypctx,
    vtimer_phys_ctl_write ex_hyp_armed 0 5 1000 true false
    = Ret (0, mk_hyp ex_dist (mk_vtimer 30) [hypctx'])
    /\ vgic_cpu_if hypctx' = vgic_cpu_if ex_hypctx_armed
    /\ callout_pending (vtimer_cpu_of hypctx') = true.
Proof.
  eexists. split.
  - apply (ctl_write_no_toggle ex_hyp_armed 0 ex_hypctx_armed 5 1000 true
             false); reflexivity.
  - split; reflexivity.
Defined.

(** What [vtimer_remove_irq] leaves. *)
Lemma vtimer_remove_irq_spec (dist : vgic_v3_dist) (vtimer : vtimer)
    (hypctx : struct_hypctx) (running ignore_state : bool) :
  let irq := uint32 (phys_ns_irq vtimer) in
  let c := vgic_cpu_if hypctx in
  irqbuf_inv c -> (ich_lr_num c <= length (ich_lr_el2 c))%nat ->
  GIC_LAST_SGI < irq < nirqs dist ->
  exists hypctx' : struct_hypctx,
    vtimer_remove_irq dist vtimer hypctx running ignore_state = Ret hypctx'
    /\ vtimer_cpu_of hypctx'
       = set_callout (vtimer_cpu_of hypctx) false
    /\ vgic_redist hypctx' = vgic_redist hypctx
    /\ irqbuf_inv (vgic_cpu_if hypctx')
    /\ pending (vgic_cpu_if hypctx') = List.filter (kept irq) (pending c)
    /\ ich_lr_num (vgic_cpu_if hypctx') = ich_lr_num c
    /\ length (ich_lr_el2 (vgic_cpu_if hypctx')) = length (ich_lr_el2 c).
Proof.
  intros irq c Hinv Hlr Hirq. unfold vtimer_remove_irq, callout_drain.
  fold irq.
  assert (Hstep : forall h : struct_hypctx,
             irqbuf_inv (vgic_cpu_if h) ->
             ich_lr_num (vgic_cpu_if h) = ich_lr_num c ->
             length (ich_lr_el2 (vgic_cpu_if h)) = length (ich_lr_el2 c) ->
             List.filter (kept irq) (pending (vgic_cpu_if h))
             = List.filter (kept irq) (pending c) ->
             vtimer_cpu_of h = vtimer_cpu_of hypctx ->
             vgic_redist h = vgic_redist hypctx ->
             let h' :=
               snd (vgic_v3_remove_irq dist
                      (set_vtimer_cpu h (set_callout (vtimer_cpu_of h) false))
                      irq ignore_state) in
             vtimer_cpu_of h' = set_callout (vtimer_cpu_of hypctx) false
             /\ vgic_redist h' = vgic_redist hypctx
             /\ irqbuf_inv (vgic_cpu_if h')
             /\ pending (vgic_cpu_if h') = List.filter (kept irq) (pending c)
             /\ ich_lr_num (vgic_cpu_if h') = ich_lr_num c
             /\ length (ich_lr_el2 (vgic_cpu_if h'))
                = length (ich_lr_el2 c)).
  { intros h Hi Hn Hl Hf Ht Hr h'. subst h'.
    destruct (remove_irq_state dist
                (set_vtimer_cpu h (set_callout (vtimer_cpu_of h) false))
                irq ignore_state)
      as (c' & E & Hp' & Hi' & Hn' & Hl' & _);
      [exact Hi | cbn [set_vtimer_cpu vgic_cpu_if]; lia | lia |].
    rewrite E. cbn [snd set_cpu_if set_vtimer_cpu vtimer_cpu_of vgic_redist
                      vgic_cpu_if] in *.
    rewrite Ht, Hr, Hp', Hf, Hn', Hl', Hn, Hl.
    repeat match goal with |- _ /\ _ => split end; try reflexivity.
    exact Hi'. }
  destruct (callout_pending (vtimer_cpu_of hypctx) && running).
  - unfold vtimer_inject_irq. fold irq.
    destruct (inject_returns dist hypctx irq VGIC_IRQ_CLK ltac:(lia))
      as (err & h & Hinj).
    rewrite Hinj.
    destruct (inject_effect _ _ _ _ _ _ Hinv Hinj)
      as (Hinv' & Hl & Hn & Ht & Hr & Hp).
    eexists. split; [reflexivity|].
    apply Hstep; try assumption. rewrite Hl. reflexivity.
  - eexists. split; [reflexivity|]. apply Hstep; try assumption; reflexivity.
Qed.

(** X20.  Writing the compare value, where the timer interrupt lies above
    the SGI range and below the number of interrupts of the Distributor and
    the buffer, well-formed, holds fewer than 1024 entries of the other
    interrupts.  [vtimer_phys_cval_write] stores the 64-bit value, which
    [vtimer_phys_cval_read] returns afterwards.  When the timer is not
    enabled nothing else changes.  When it is enabled the timer interrupt
    is removed and scheduled again: no callout is left from before, the
    buffer keeps the entries of the other interrupts and holds exactly one
    entry for the timer when the new compare value lies before the counter,
    and none, with the callout armed, when it does not. *)
Theorem cval_write_reschedules (hyp : struct_hyp) (vcpuid : nat)
    (hypctx : struct_hypctx) (wval cntpct_el0 : Z)
    (running ignore_state : bool) :
  let dist := vgic_dist hyp in
  let irq := uint32 (phys_ns_irq (hyp_vtimer hyp)) in
  let c := vgic_cpu_if hypctx in
  let others := List.filter (kept irq) (pending c) in
  ctx hyp !! vcpuid = Some hypctx ->
  irqbuf_inv c ->
  (ich_lr_num c <= length (ich_lr_el2 c))%nat ->
  GIC_LAST_SGI < irq < nirqs dist ->
  (length others < 1024)%nat ->
  exists hypctx' : struct_hypctx,
    let hyp' :=
      mk_hyp dist (hyp_vtimer hyp) (<[vcpuid := hypctx']> (ctx hyp)) in
    vtimer_phys_cval_write hyp vcpuid wval cntpct_el0 running ignore_state
    = Ret (0, hyp')
    /\ vtimer_phys_cval_read hyp' vcpuid = Some (0, uint64 wval)
    /\ cntp_ctl_el0 (vtimer_cpu_of hypctx')
       = cntp_ctl_el0 (vtimer_cpu_of hypctx)
    /\ if vtimer_enabled (cntp_ctl_el0 (vtimer_cpu_of hypctx)) then
         if uint64 wval <? cntpct_el0 then
           pending (vgic_cpu_if hypctx')
           = others
             ++ [injected_entry dist (vgic_redist hypctx) irq VGIC_IRQ_CLK]
           /\ callout_pending (vtimer_cpu_of hypctx') = false
         else
           pending (vgic_cpu_if hypctx') = others
           /\ callout_pending (vtimer_cpu_of hypctx') = true
       else
         vgic_cpu_if hypctx' = c
         /\ callout_pending (vtimer_cpu_of hypctx')
            = callout_pending (vtimer_cpu_of hypctx).
Proof.
  intros dist irq c others Hctx Hinv Hlr Hirq Hroom.
  assert (Hlt : (vcpuid < length (ctx hyp))%nat)
    by (eapply lookup_lt_Some; exact Hctx).
  unfold vtimer_phys_cval_write, vtimer_phys_cval_read. rewrite Hctx.
  set (h0 := set_vtimer_cpu hypctx
               (set_cntp_cval_el0 (vtimer_cpu_of hypctx) (uint64 wval))).
  unfold vtimer_reschedule.
  change (cntp_ctl_el0 (vtimer_cpu_of h0))
    with (cntp_ctl_el0 (vtimer_cpu_of hypctx)).
  destruct (vtimer_enabled (cntp_ctl_el0 (vtimer_cpu_of hypctx))).
  2:{ eexists. cbv zeta. split; [reflexivity|]. cbn [ctx].
      rewrite list_lookup_insert_eq by exact Hlt. repeat split. }
  destruct (vtimer_remove_irq_spec dist (hyp_vtimer hyp) h0 running
              ignore_state)
    as (h1 & E1 & Ht1 & Hr1 & Hinv1 & Hp1 & Hn1 & Hl1);
    [exact Hinv | exact Hlr | exact Hirq |].
  fold irq in Hp1. change (vgic_cpu_if h0) with c in Hp1, Hn1, Hl1.
  fold others in Hp1. fold dist. rewrite E1. unfold vtimer_schedule_irq.
  rewrite Ht1.
  change (cntp_cval_el0 (set_callout (vtimer_cpu_of h0) false))
    with (uint64 wval).
  destruct (uint64 wval <? cntpct_el0).
  - unfold vtimer_inject_irq. fold dist irq.
    destruct (inject_appends_entry dist h1 irq VGIC_IRQ_CLK)
      as (c' & E & Hp & _);
      [exact Hinv1 | | exact Hirq | discriminate |].
    { rewrite <- (pending_length (vgic_cpu_if h1)), Hp1; [exact Hroom|].
      destruct Hinv1. lia. }
    rewrite E. eexists. cbv zeta. split; [reflexivity|]. cbn [ctx].
    rewrite list_lookup_insert_eq by exact Hlt.
    cbn [set_cpu_if vtimer_cpu_of vgic_cpu_if].
    rewrite Ht1, Hp, Hp1, Hr1. repeat split.
  - eexists. cbv zeta. split; [reflexivity|]. cbn [ctx].
    rewrite list_lookup_insert_eq by exact Hlt.
    cbn [set_vtimer_cpu set_callout vtimer_cpu_of vgic_cpu_if cntp_cval_el0
           cntp_ctl_el0 callout_pending].
    repeat split. exact Hp1.
Qed.

Lemma cval_write_reschedules_witness :
  exists hypctx' : struct_hypctx,
    vtimer_phys_cval_write ex_hyp_armed 0 500 1000 true false
    = Ret (0, mk_hyp ex_dist (mk_vtimer 30) [hypctx'])
    /\ pending (vgic_cpu_if hypctx')
       = [mk_irq 40 VGIC_IRQ_VIRTIO 1 1 0x20; mk_irq 30 VGIC_IRQ_CLK 1 1 0]
    /\ callout_pending (vtimer_cpu_of hypctx') = false.
Proof.
  destruct (cval_write_reschedules ex_hyp_armed 0 ex_hypctx_armed 500 1000
              true false) as (h' & E & _ & _ & H).
  - reflexivity.
  - split; [reflexivity | vm_compute; lia | left; reflexivity].
  - vm_compute. lia.
  - vm_compute. split; reflexivity.
  - vm_compute. lia.
  - exists h'. split; [exact E|].
    change (vtimer_enabled (cntp_ctl_el0 (vtimer_cpu_of ex_hypctx_armed)))
      with true in H.
    change (uint64 500 <? 1000) with true in H.
    destruct H as [Hp Hc]. split; [rewrite Hp; reflexivity | exact Hc].
Defined.

(** The 32 low bits of a timer value survive the conversion to [int32_t],
    the addition of the counter and the subtraction of its 32 low bits. *)
Lemma tval_low_bits (wval cntpct_el0 : Z) :
  uint32 (uint64 (uint64 (int32 wval + cntpct_el0) - uint32 cntpct_el0))
  = uint32 wval.
Proof.
  unfold uint32, uint64.
  assert (D : forall x : Z, (x mod 2 ^ 64) mod 2 ^ 32 = x mod 2 ^ 32).
  { intros x. apply Z.mod_mod_divide. exists (2 ^ 32). reflexivity. }
  rewrite D, Zminus_mod_idemp_r, Zminus_mod, D, <- Zminus_mod.
  replace (int32 wval + cntpct_el0 - cntpct_el0) with (int32 wval) by lia.
  unfold int32, uint32. destruct (wval mod 2 ^ 32 <? 2 ^ 31).
  - apply Z.mod_mod. lia.
  - rewrite Zminus_mod, Z.mod_same, Z.sub_0_r, !Z.mod_mod by lia.
    reflexivity.
Qed.

(** X21.  Writing and reading the timer value.  [vtimer_phys_tval_write]
    stores the counter plus the value written, taken as a signed 32-bit
    number, as the compare value; when it returns, it returns 0.  With the
    timer enabled (bit ENABLE of the control register), a read with
    [vtimer_phys_tval_read] at the same counter value returns a number
    whose 32 low bits are those of the value written; the counter enters
    the subtraction with its 32 low bits only.  With the bit ENABLE clear
    the read returns 0xffffffff, whatever was written. *)
Theorem tval_read_after_write (hyp hyp' : struct_hyp) (vcpuid : nat)
    (hypctx : struct_hypctx) (wval cntpct_el0 cntpct_el0' error : Z)
    (running ignore_state : bool) :
  ctx hyp !! vcpuid = Some hypctx ->
  vtimer_phys_tval_write hyp vcpuid wval cntpct_el0 cntpct_el0' running
    ignore_state = Ret (error, hyp') ->
  error = 0
  /\ vtimer_phys_cval_read hyp' vcpuid
     = Some (0, uint64 (int32 wval + cntpct_el0))
  /\ exists rval : Z,
       vtimer_phys_tval_read hyp' vcpuid cntpct_el0 = Some (0, rval)
       /\ if truthy (Z.land (cntp_ctl_el0 (vtimer_cpu_of hypctx))
                       CNTP_CTL_ENABLE)
          then uint32 rval = uint32 wval
               /\ rval
                  = uint64 (uint64 (int32 wval + cntpct_el0)
                            - uint32 cntpct_el0)
          else rval = 0xffffffff.
Proof.
  intros Hctx H. unfold vtimer_phys_tval_write in H. rewrite Hctx in H.
  match type of H with
  | match ?x with _ => _ end = _ => destruct x as [h'|] eqn:E
  end; [|discriminate].
  injection H as <- <-. split; [reflexivity|].
  destruct (vtimer_reschedule_regs _ _ _ _ _ _ _ E) as [Hctl Hcval].
  cbn [set_vtimer_cpu set_cntp_cval_el0 vtimer_cpu_of cntp_ctl_el0
         cntp_cval_el0] in Hctl, Hcval.
  unfold vtimer_phys_cval_read, vtimer_phys_tval_read. cbn [ctx].
  rewrite list_lookup_insert_eq by (eapply lookup_lt_Some; exact Hctx).
  rewrite Hctl, Hcval. split; [reflexivity|].
  destruct (truthy (Z.land (cntp_ctl_el0 (vtimer_cpu_of hypctx))
                      CNTP_CTL_ENABLE)); cbn [negb].
  - eexists. split; [reflexivity|]. split; [apply tval_low_bits|reflexivity].
  - eexists. split; reflexivity.
Qed.

Lemma tval_read_after_write_witness :
  exists hyp' : struct_hyp,
    vtimer_phys_tval_write ex_hyp_armed 0 0xffffff00 0x100000500 0x100000500
      true false = Ret (0, hyp')
    /\ vtimer_phys_cval_read hyp' 0 = Some (0, 0x100000400)
    /\ vtimer_phys_tval_read hyp' 0 0x100000500 = Some (0, 0xffffff00).
Proof.
  destruct (vtimer_phys_tval_write ex_hyp_armed 0 0xffffff00 0x100000500
              0x100000500 true false) as [[error hyp']|] eqn:E;
    [|vm_compute in E; discriminate].
  destruct (tval_read_after_write ex_hyp_armed hyp' 0 ex_hypctx_armed
              0xffffff00 0x100000500 0x100000500 error true false eq_refl E)
    as (-> & Hc & rval & Hr & Ht).
  exists hyp'. split; [reflexivity|]. split; [exact Hc|].
  change (truthy (Z.land (cntp_ctl_el0 (vtimer_cpu_of ex_hypctx_armed))
                    CNTP_CTL_ENABLE)) with true in Ht.
  destruct Ht as [_ ->]. exact Hr.
Defined.

(** X22.  [vtimer_cpuinit] leaves the timer masked and disabled, with no
    callout scheduled: the control register enables nothing, a read of the
    timer value returns 0xffffffff, and a write of the compare value only
    stores it, without reaching into the vGIC. *)
Theorem vtimer_cpuinit_disabled (hyp : struct_hyp) (vcpuid : nat)
    (hypctx : struct_hypctx) (wval cntpct_el0 : Z)
    (running ignore_state : bool) :
  let h := vtimer_cpuinit hypctx in
  let hyp0 := mk_hyp (vgic_dist hyp) (hyp_vtimer hyp)
                (<[vcpuid := h]> (ctx hyp)) in
  ctx hyp !! vcpuid = Some hypctx ->
  vtimer_enabled (cntp_ctl_el0 (vtimer_cpu_of h)) = false
  /\ callout_pending (vtimer_cpu_of h) = false
  /\ vgic_cpu_if h = vgic_cpu_if hypctx
  /\ vtimer_phys_tval_read hyp0 vcpuid cntpct_el0 = Some (0, 0xffffffff)
  /\ vtimer_phys_cval_write hyp0 vcpuid wval cntpct_el0 running ignore_state
     = Ret (0, mk_hyp (vgic_dist hyp) (hyp_vtimer hyp)
                 (<[vcpuid := set_vtimer_cpu h
                                (set_cntp_cval_el0 (vtimer_cpu_of h)
                                   (uint64 wval))]> (ctx hyp))).
Proof.
  intros h hyp0 Hctx.
  assert (Hlt : (vcpuid < length (ctx hyp))%nat)
    by (eapply lookup_lt_Some; exact Hctx).
  split; [reflexivity|]. split; [reflexivity|]. split; [reflexivity|].
  unfold vtimer_phys_tval_read, vtimer_phys_cval_write, hyp0. cbn [ctx].
  rewrite list_lookup_insert_eq by exact Hlt. split; [reflexivity|].
  unfold vtimer_reschedule. cbn [vgic_dist hyp_vtimer ctx].
  change (vtimer_enabled
            (cntp_ctl_el0
               (vtimer_cpu_of
                  (set_vtimer_cpu h
                     (set_cntp_cval_el0 (vtimer_cpu_of h) (uint64 wval))))))
    with false.
  cbn iota. rewrite list_insert_insert_eq. reflexivity.
Qed.

Lemma vtimer_cpuinit_disabled_witness :
  vtimer_enabled (cntp_ctl_el0 (vtimer_cpu_of (vtimer_cpuinit ex_hypctx_armed)))
  = false
  /\ vtimer_phys_tval_read
       (mk_hyp ex_dist (mk_vtimer 30) [vtimer_cpuinit ex_hypctx_armed]) 0 1000
     = Some (0, 0xffffffff).
Proof.
  destruct (vtimer_cpuinit_disabled ex_hyp_armed 0 ex_hypctx_armed 0 1000
              true false eq_refl) as (He & _ & _ & Hr & _).
  split; [exact He | exact Hr].
Defined.

(** ** The shape of the state *)

Lemma updated_from_length {A : Type} (f : A -> A) (n : nat) (l : list A)
    (i : nat) :
  (i + n <= length l)%nat -> length (updated_from f n l i) = length l.
Proof.
  intros H. unfold updated_from.
  rewrite !length_app, length_map, !length_take, !length_drop. lia.
Qed.

(** X23.  The operations on the CPU interface of a vCPU keep its shape.
    From a state whose buffer is an allocation of [irqbuf_size] entries, of
    a size between 32 and 1024 reached by doubling, with at most
    [irqbuf_size] entries in use, every one of [vgic_v3_inject_irq],
    [vgic_v3_remove_irq], [vgic_v3_irq_set_priority_vcpu],
    [vgic_v3_irq_set_group_vcpu], [vgic_v3_irq_toggle_enabled_vcpu], the
    body of [vgic_v3_irq_toggle_group_enabled] and [vgic_v3_sync_hwstate],
    when it returns, leads to such a state again, and none of them changes
    the number of list registers, the length of their array or the VMCR. *)
Theorem vgic_keeps_shape (c : vgic_v3_cpu_if) :
  irqbuf_inv c ->
  (ich_lr_num c <= length (ich_lr_el2 c))%nat ->
  (forall (dist : vgic_v3_dist) (hypctx hypctx' : struct_hypctx) (irq : Z)
     (irqtype : vgic_v3_irqtype) (error : Z),
      vgic_cpu_if hypctx = c ->
      vgic_v3_inject_irq dist hypctx irq irqtype = Ret (error, hypctx') ->
      same_shape c (vgic_cpu_if hypctx'))
  /\ (forall (dist : vgic_v3_dist) (hypctx : struct_hypctx) (irq : Z)
        (ignore_state : bool),
         vgic_cpu_if hypctx = c ->
         same_shape c
           (vgic_cpu_if (snd (vgic_v3_remove_irq dist hypctx irq
                                ignore_state))))
  /\ (forall irq priority : Z,
         same_shape c (vgic_v3_irq_set_priority_vcpu irq priority c))
  /\ (forall irq group : Z,
         same_shape c (vgic_v3_irq_set_group_vcpu irq group c))
  /\ (forall (irq : Z) (enabled : bool),
         same_shape c (snd (vgic_v3_irq_toggle_enabled_vcpu irq enabled c)))
  /\ (forall (group : Z) (enabled : bool) (dist : vgic_v3_dist)
        (hypctx : struct_hypctx),
         vgic_cpu_if hypctx = c ->
         same_shape c
           (vgic_cpu_if (toggle_group_enabled_ctx group enabled dist hypctx)))
  /\ (forall (dist : vgic_v3_dist) (hypctx hypctx' : struct_hypctx),
         vgic_cpu_if hypctx = c ->
         vgic_v3_sync_hwstate dist hypctx = Ret hypctx' ->
         same_shape c (vgic_cpu_if hypctx')).
Proof.
  intros Hinv Hlr. pose proof Hinv as [Ha Hn Hs].
  assert (Hwf : wf_cpu_if c) by (apply inv_wf; assumption).
  assert (Hsame : same_shape c c) by (repeat split; assumption).
  split; [|split; [|split; [|split; [|split; [|split]]]]].
  - intros dist hypctx hypctx' irq irqtype error <- H.
    unfold vgic_v3_inject_irq in H.
    destruct (negb (irq >? GIC_LAST_SGI)); [discriminate|].
    destruct (_ || _); [injection H as _ <-; exact Hsame|].
    destruct (vgic_v3_irqbuf_add_nolock (vgic_cpu_if hypctx))
      as [[c1 vip]|] eqn:A; [|injection H as _ <-; exact Hsame].
    injection H as _ <-.
    destruct (add_nolock_inv _ _ _ Hinv A)
      as ([Ha1 Hn1 Hs1] & _ & _ & _ & Hl1 & Hln1 & Hv1).
    unfold same_shape.
    cbn [set_cpu_if set_irqbuf vgic_cpu_if ich_lr_el2 ich_lr_num ich_vmcr_el2].
    rewrite Hl1, Hln1, Hv1. split; [|repeat split].
    split; unfold set_irqbuf, set_lrs; cbn [irqbuf irqbuf_size irqbuf_num];
      try assumption.
    rewrite length_insert. exact Ha1.
  - intros dist hypctx irq ignore_state <-.
    destruct (irq >=? nirqs dist) eqn:G.
    + unfold vgic_v3_remove_irq. rewrite G. exact Hsame.
    + destruct (remove_irq_state dist hypctx irq ignore_state Hinv Hlr)
        as (c' & E & _ & Hi & Hn' & Hl' & _ & Hv'); [lia|].
      rewrite E. cbn [snd set_cpu_if vgic_cpu_if].
      split; [exact Hi|]. repeat split; assumption.
  - intros irq priority. unfold vgic_v3_irq_set_priority_vcpu, same_shape.
    cbn [set_lrs set_irqbuf irqbuf irqbuf_num irqbuf_size ich_lr_el2
           ich_lr_num ich_vmcr_el2].
    rewrite set_priority_lrs_spec by lia.
    fold (updated_from (lr_with_priority priority) (ich_lr_num c)
            (ich_lr_el2 c) 0).
    rewrite updated_from_length by lia. split; [|repeat split].
    split; unfold set_irqbuf, set_lrs; cbn [irqbuf irqbuf_size irqbuf_num];
      try assumption.
    rewrite set_priority_irqbuf_spec by lia.
    fold (updated_from (with_priority irq priority) (irqbuf_num c) (irqbuf c)
            0).
    rewrite updated_from_length by lia. exact Ha.
  - intros irq group.
    destruct (set_group_vcpu_spec irq group c Hwf)
      as (_ & Hl & Hnum & Hsz & Hlen & Hln & Hv).
    split; [split; [rewrite Hlen, Hsz; exact Ha | rewrite Hnum, Hsz; exact Hn
                   | rewrite Hsz; exact Hs]|].
    split; [exact Hln|]. split; [|exact Hv].
    rewrite Hl. apply updated_prefix_length.
  - intros irq [|].
    + unfold vgic_v3_irq_toggle_enabled_vcpu, same_shape.
      cbn [snd set_irqbuf irqbuf irqbuf_num irqbuf_size ich_lr_el2 ich_lr_num
             ich_vmcr_el2].
      split; [|repeat split].
      split; unfold set_irqbuf, set_lrs; cbn [irqbuf irqbuf_size irqbuf_num];
      try assumption.
      rewrite toggle_enabled_irqbuf_spec, updated_from_length by lia.
      exact Ha.
    + destruct (toggle_disable_spec irq c Hwf)
        as (_ & Hl & Hln & Hsz & Hlen & Hle).
      split; [split; [rewrite Hlen, Hsz; exact Ha | rewrite Hsz; lia
                     | rewrite Hsz; exact Hs]|].
      split; [exact Hln|]. split.
      * rewrite Hl. apply updated_prefix_length.
      * unfold vgic_v3_irq_toggle_enabled_vcpu. cbn [snd].
        destruct (remove_nolock_spec irq
                    (set_lrs c (toggle_enabled_lrs irq (ich_lr_num c)
                                  (ich_lr_el2 c) 0))) as (_ & Rv & _);
          [cbn [set_lrs irqbuf irqbuf_num]; lia | exact Rv].
  - intros group enabled dist hypctx <-.
    unfold toggle_group_enabled_ctx, same_shape.
    cbn [set_cpu_if set_irqbuf vgic_cpu_if irqbuf irqbuf_num irqbuf_size
           ich_lr_el2 ich_lr_num ich_vmcr_el2].
    split; [|repeat split].
    split; unfold set_irqbuf, set_lrs; cbn [irqbuf irqbuf_size irqbuf_num];
      try assumption.
    rewrite toggle_group_enabled_irqbuf_spec, updated_from_length by lia.
    exact Ha.
  - intros dist hypctx hypctx' <- H.
    destruct (sync_keeps_wf dist hypctx hypctx' Hwf H)
      as ([Wl Wsz Wn] & Hln & Hlen & Hsz & Hle & Hv & _).
    split; [split; [exact Wsz | exact Wn | rewrite Hsz; exact Hs]|].
    split; [exact Hln|]. split; [exact Hlen | exact Hv].
Qed.

Lemma vgic_keeps_shape_witness :
  same_shape ex_cpu_if_armed (vgic_v3_irq_set_group_vcpu 30 0 ex_cpu_if_armed)
  /\ same_shape ex_cpu_if_armed
       (snd (vgic_v3_irq_toggle_enabled_vcpu 30 false ex_cpu_if_armed)).
Proof.
  destruct (vgic_keeps_shape ex_cpu_if_armed)
    as (_ & _ & _ & Hg & Ht & _).
  - split; [reflexivity | vm_compute; lia | left; reflexivity].
  - vm_compute. lia.
  - split; [apply Hg | apply Ht].
Defined.

(** ** From the injection to a list register *)

(** One entry placed goes to the first inactive list register. *)
Lemma fill_lrs_single (v : vgic_v3_irq) (lrs : list Z) :
  (0 < length (List.filter lr_inactive lrs))%nat ->
  exists i : nat,
    (i < length lrs)%nat
    /\ lr_inactive (rd lrs i) = true
    /\ (forall j : nat, (j < i)%nat -> lr_inactive (rd lrs j) = false)
    /\ fill_lrs lrs [v] = <[i := vip_to_lr v]> lrs.
Proof.
  induction lrs as [|lr lrs IH]; intros H; [simpl in H; lia|].
  cbn [List.filter] in H. destruct (lr_inactive lr) eqn:E.
  - exists 0%nat. cbn [fill_lrs]. rewrite E, fill_lrs_nil.
    repeat split; [simpl; lia | exact E | intros j Hj; lia].
  - destruct (IH H) as (i & Hi & Ha & Hb & Hf). exists (S i).
    cbn [fill_lrs]. rewrite E, Hf.
    repeat split; [simpl; lia | exact Ha |].
    intros [|j] Hj; [exact E | apply Hb; lia].
Qed.

(** X24.  From the injection to a list register.  An interrupt of a valid
    type, with an ID above the SGI range, below the number of interrupts of
    the Distributor and below 2^32, and other than [IRQ_SCHEDULED] (1020,
    the ID with which a pass marks the entries it has placed), injected
    into an empty buffer, on a vCPU with an inactive list register, is
    dealt with by the next pass of [vgic_v3_sync_hwstate], which returns.
    When the entry is enabled, its group is enabled in the VMCR and the
    timer guard does not hold it back, the pass moves it to the first
    inactive list register, which then reads as pending with the ID, the
    group and the priority resolved at the injection, and the buffer is
    empty again; otherwise the entry stays in the buffer and the list
    registers are not touched. *)
Theorem inject_then_sync (dist : vgic_v3_dist) (hypctx : struct_hypctx)
    (irq : Z) (irqtype : vgic_v3_irqtype) :
  let c := vgic_cpu_if hypctx in
  let redist := vgic_redist hypctx in
  let e := injected_entry dist redist irq irqtype in
  irqbuf_inv c ->
  (ich_lr_num c <= length (ich_lr_el2 c))%nat ->
  irqbuf_num c = 0%nat ->
  (0 < lr_free_of c)%nat ->
  GIC_LAST_SGI < irq < nirqs dist ->
  irq < 2 ^ 32 ->
  irq <> IRQ_SCHEDULED ->
  irqtype <> VGIC_IRQ_INVALID ->
  exists hypctx1 hypctx2 : struct_hypctx,
    vgic_v3_inject_irq dist hypctx irq irqtype = Ret (0, hypctx1)
    /\ vgic_v3_sync_hwstate dist hypctx1 = Ret hypctx2
    /\ if placed dist redist (ich_vmcr_el2 c) (clk_injected_of c) e then
         pending (vgic_cpu_if hypctx2) = []
         /\ exists i : nat,
              (i < ich_lr_num c)%nat
              /\ lr_inactive (rd (ich_lr_el2 c) i) = true
              /\ (forall j : nat,
                    (j < i)%nat -> lr_inactive (rd (ich_lr_el2 c) j) = false)
              /\ ich_lr_el2 (vgic_cpu_if hypctx2)
                 = <[i := vip_to_lr e]> (ich_lr_el2 c)
              /\ lr_pending (vip_to_lr e) = true
              /\ ICH_LR_EL2_VINTID (vip_to_lr e) = irq
              /\ lr_group (vip_to_lr e)
                 = vgic_v3_get_int_group irq dist redist
              /\ lr_priority (vip_to_lr e)
                 = vgic_v3_get_priority irq dist redist
       else
         pending (vgic_cpu_if hypctx2) = [e]
         /\ ich_lr_el2 (vgic_cpu_if hypctx2) = ich_lr_el2 c.
Proof.
  intros c redist e Hinv Hlr Hempty Hfree Hirq H32 Hns Hty.
  assert (Hroom : (irqbuf_num (vgic_cpu_if hypctx) < 1024)%nat)
    by (fold c; lia).
  destruct (inject_appends_entry dist hypctx irq irqtype Hinv Hroom Hirq Hty)
    as (c1 & E1 & Hp1 & Hn1 & Hinv1 & Hl1 & Hln1 & Hv1).
  fold c redist e in Hp1, Hn1, Hl1, Hln1, Hv1.
  assert (Hpc : pending c = [])
    by (unfold pending; rewrite Hempty; reflexivity).
  rewrite Hpc in Hp1. cbn [app] in Hp1.
  set (h1 := set_cpu_if hypctx c1) in *.
  assert (Hfree1 : lr_free_of c1 = lr_free_of c)
    by (unfold lr_free_of; rewrite Hl1, Hln1; reflexivity).
  assert (Hclk1 : clk_injected_of c1 = clk_injected_of c)
    by (unfold clk_injected_of; rewrite Hl1, Hln1; reflexivity).
  destruct (sync_fits dist h1) as (c2 & E2 & Hp2 & Hl2 & _).
  { change (vgic_cpu_if h1) with c1.
    apply inv_wf; [exact Hinv1 | rewrite Hl1, Hln1; exact Hlr]. }
  { change (vgic_cpu_if h1) with c1. rewrite Hn1, Hempty, Hfree1. lia. }
  { change (vgic_cpu_if h1) with c1. rewrite Hp1. constructor; [|constructor].
    exact Hns. }
  change (vgic_cpu_if h1) with c1 in Hp2, Hl2.
  change (vgic_redist h1) with redist in Hp2, Hl2.
  rewrite Hv1, Hclk1, Hp1 in Hp2. rewrite Hv1, Hclk1, Hp1, Hl1, Hln1 in Hl2.
  exists h1, (set_cpu_if h1 c2). split; [exact E1|]. split; [exact E2|].
  cbn [set_cpu_if vgic_cpu_if]. cbn [List.filter] in Hp2, Hl2.
  destruct (placed dist redist (ich_vmcr_el2 c) (clk_injected_of c) e).
  - cbn [negb] in Hp2. split; [exact Hp2|].
    destruct (fill_lrs_single e (take (ich_lr_num c) (ich_lr_el2 c)))
      as (i & Hi & Ha & Hb & Hf).
    { rewrite <- lr_free_of_spec by exact Hlr. exact Hfree. }
    rewrite length_take in Hi.
    assert (Hrd : forall j : nat,
               (j < ich_lr_num c)%nat ->
               rd (take (ich_lr_num c) (ich_lr_el2 c)) j
               = rd (ich_lr_el2 c) j).
    { intros j Hj.
      destruct (lookup_lt_is_Some_2 (ich_lr_el2 c) j) as [x Hx]; [lia|].
      rewrite (rd_lookup _ _ _ Hx). apply rd_lookup.
      rewrite lookup_take_lt by lia. exact Hx. }
    exists i. split; [lia|]. split; [rewrite <- Hrd by lia; exact Ha|].
    split; [intros j Hj; rewrite <- Hrd by lia; apply Hb; exact Hj|].
    split.
    { rewrite Hl2, Hf.
      rewrite <- (take_drop (ich_lr_num c) (ich_lr_el2 c)) at 3.
      rewrite insert_app_l by (rewrite length_take; lia). reflexivity. }
    assert (Hg : 0 <= vgic_v3_get_int_group irq dist redist <= 1)
      by (destruct (get_int_group_bit irq dist redist) as [-> | ->]; lia).
    assert (Hpr : 0 <= vgic_v3_get_priority irq dist redist < 2 ^ 8).
    { unfold vgic_v3_get_priority, uint8.
      destruct (_ && _); apply Z.mod_pos_bound; reflexivity. }
    assert (Hi32 : 0 <= irq < 2 ^ 32)
      by (unfold GIC_LAST_SGI in Hirq; lia).
    destruct (vip_to_lr_fields irq (vgic_v3_get_int_group irq dist redist)
                (vgic_v3_get_priority irq dist redist) irqtype
                (vip_enabled e) Hi32 Hg Hpr) as (Hs & Hvi & Hgr & Hpri).
    change (vip_to_lr (mk_irq irq irqtype
                         (vgic_v3_get_int_group irq dist redist)
                         (vip_enabled e)
                         (vgic_v3_get_priority irq dist redist)))
      with (vip_to_lr e) in Hs, Hvi, Hgr, Hpri.
    split; [unfold lr_pending; rewrite Hs; apply Z.eqb_refl|].
    split; [exact Hvi|]. unfold lr_group, lr_priority, lr_to_vip.
    cbn [vip_group vip_priority]. rewrite Hgr, Hpri. unfold uint8.
    rewrite !Z.mod_small by lia. split; reflexivity.
  - cbn [negb] in Hp2. split; [exact Hp2|].
    rewrite Hl2, fill_lrs_nil. apply take_drop.
Qed.

Lemma inject_then_sync_witness :
  exists hypctx1 hypctx2 : struct_hypctx,
    vgic_v3_inject_irq ex_dist ex_hypctx 40 VGIC_IRQ_VIRTIO = Ret (0, hypctx1)
    /\ vgic_v3_sync_hwstate ex_dist hypctx1 = Ret hypctx2
    /\ pending (vgic_cpu_if hypctx2) = []
    /\ ICH_LR_EL2_VINTID (vip_to_lr (mk_irq 40 VGIC_IRQ_VIRTIO 1 1 0)) = 40.
Proof.
  destruct (inject_then_sync ex_dist ex_hypctx 40 VGIC_IRQ_VIRTIO)
    as (h1 & h2 & E1 & E2 & H).
  - split; [reflexivity | vm_compute; lia | left; reflexivity].
  - vm_compute. lia.
  - reflexivity.
  - vm_compute. lia.
  - vm_compute. split; reflexivity.
  - reflexivity.
  - vm_compute. discriminate.
  - discriminate.
  - exists h1, h2. split; [exact E1|]. split; [exact E2|].
    change (placed ex_dist (vgic_redist ex_hypctx)
              (ich_vmcr_el2 (vgic_cpu_if ex_hypctx))
              (clk_injected_of (vgic_cpu_if ex_hypctx))
              (injected_entry ex_dist (vgic_redist ex_hypctx) 40
                 VGIC_IRQ_VIRTIO)) with true in H.
    destruct H as (Hp & i & _ & _ & _ & _ & _ & Hv & _).
    split; [exact Hp | exact Hv].
Defined.

(** X25.  [vgic_v3_get_priority] returns an 8-bit value that depends on
    the interrupt only through the index [irq / 4] of its priority
    register: the four interrupts that share a register are given the same
    priority, the field being cut out at the bit offset [(irq / 4) % 4] of
    the register. *)
Theorem get_priority_shared (irq irq' : Z) (dist : vgic_v3_dist)
    (redist : vgic_v3_redist) :
  irq / 4 = irq' / 4 ->
  vgic_v3_get_priority irq dist redist = vgic_v3_get_priority irq' dist redist
  /\ 0 <= vgic_v3_get_priority irq dist redist < 2 ^ 8
  /\ vgic_v3_get_priority irq dist redist
     = let n := irq / 4 in
       let reg :=
         if aff_routing_en dist && (n <=? 7)
         then rd (gicr_ipriorityr redist) (Z.to_nat n)
         else rd (gicd_ipriorityr dist) (Z.to_nat n) in
       Z.land (Z.shiftr reg (n mod 4)) 0xff.
Proof.
  intros H. unfold vgic_v3_get_priority. rewrite <- H. split; [reflexivity|].
  split.
  - unfold uint8. destruct (_ && _); apply Z.mod_pos_bound; reflexivity.
  - cbv zeta.
    assert (Hoff : 0 <= (irq / 4) mod 4 < 4) by (apply Z.mod_pos_bound; lia).
    generalize dependent ((irq / 4) mod 4). intros off Hoff.
    assert (Hcut : forall reg : Z,
               uint8 (Z.shiftr (Z.land reg (Z.shiftl 0xff off)) off)
               = Z.land (Z.shiftr reg off) 0xff).
    { intros reg. unfold uint8. change 0xff with (Z.ones 8). bits. }
    destruct (_ && _); apply Hcut.
Qed.

Lemma get_priority_shared_witness :
  vgic_v3_get_priority 40 ex_dist ex_redist
  = vgic_v3_get_priority 43 ex_dist ex_redist.
Proof.
  apply (get_priority_shared 40 43 ex_dist ex_redist). reflexivity.
Defined.


(** ** The timer switched off *)





